(** * cf_info: a shallow embedding of [cf_info.py] and its specification

    The program walks a DNS provider's hierarchy (accounts, zones, DNS
    records) through three HTTP GET calls and prints one table per zone.

    Modelling choices.
    - Text is a Rocq [string], one character per code point, restricted to
      U+0000..U+00FF.  [lower] is Python's [str.lower] on that range.
    - Decoded JSON and the other Python objects the program handles are
      [value]s.  JSON numbers with a fraction are left out.
    - The outside world (the remote API, the process environment, the
      command line) is an argument of [main].  What the program does to the
      world (HTTP requests, log records, console output) is a trace of
      [event]s; exceptions are the [Raise] results of a small monad [M].
    - [rich] only receives the finished table: how it lays a table out and
      interprets the markup inside cells is outside the model.  So is its
      refusal of markup: [console.print] raises [MarkupError] on a closing
      tag that closes nothing, which the text of a record, of a name or of
      an exception may contain, and the run is then cut short at that
      print.  In the model a print is an event and always returns. *)

From Stdlib Require Import String Ascii List Bool Arith ZArith Lia.
From Stdlib Require Import DecimalString.
Import ListNotations.

Local Open Scope string_scope.
Local Open Scope list_scope.

(* ================================================================== *)
(** ** Python strings *)
(* ================================================================== *)

Module PyStr.

(** [str.lower] on one code point of U+0000..U+00FF: [A-Z] and the
    Latin-1 capitals U+00C0..U+00DE other than the multiplication sign. *)
Definition lower_char (c : ascii) : ascii :=
  let n := nat_of_ascii c in
  if ((65 <=? n) && (n <=? 90)
      || (192 <=? n) && (n <=? 222) && negb (n =? 215))%nat
  then ascii_of_nat (n + 32) else c.

Fixpoint lower (s : string) : string :=
  match s with
  | EmptyString => EmptyString
  | String c s' => String (lower_char c) (lower s')
  end.

(** [s.startswith(p)] *)
Fixpoint startswith (p s : string) : bool :=
  match p, s with
  | EmptyString, _ => true
  | String a p', String b s' => Ascii.eqb a b && startswith p' s'
  | String _ _, EmptyString => false
  end.

(** [s[n:]] *)
Fixpoint drop (n : nat) (s : string) : string :=
  match n, s with
  | O, _ => s
  | S n', String _ s' => drop n' s'
  | S _, EmptyString => EmptyString
  end.

(** [s[:n]] *)
Fixpoint take (n : nat) (s : string) : string :=
  match n, s with
  | O, _ => EmptyString
  | S n', String c s' => String c (take n' s')
  | S _, EmptyString => EmptyString
  end.

(** [s.endswith(suffix)] *)
Definition endswith (suffix s : string) : bool :=
  (String.length suffix <=? String.length s)%nat
  && String.eqb (drop (String.length s - String.length suffix) s) suffix.

(** [sub in s] *)
Fixpoint contains (sub s : string) : bool :=
  startswith sub s
  || match s with
     | EmptyString => false
     | String _ s' => contains sub s'
     end.

(** [s.replace(old, new)]: every non-overlapping occurrence of [old],
    found left to right, becomes [new].  [skip] counts the characters of
    an occurrence that is being stepped over.  With an empty [old],
    Python puts [new] before every character and at the end. *)
Fixpoint replace_from (skip : nat) (old new s : string) : string :=
  match s with
  | EmptyString =>
      match skip, old with
      | O, EmptyString => new
      | _, _ => EmptyString
      end
  | String c s' =>
      match skip with
      | S k => replace_from k old new s'
      | O =>
          if startswith old s then
            match old with
            | EmptyString => (new ++ String c (replace_from 0 old new s'))%string
            | String _ old' => (new ++ replace_from (String.length old') old new s')%string
            end
          else String c (replace_from 0 old new s')
      end
  end.

Definition replace (old new s : string) : string := replace_from 0 old new s.

(** [s.split(sep)] for a one-character separator: always at least one
    piece, and one more piece than there are separators. *)
Fixpoint split (sep : ascii) (s : string) : list string :=
  match s with
  | EmptyString => [EmptyString]
  | String c s' =>
      if Ascii.eqb c sep then EmptyString :: split sep s'
      else match split sep s' with
           | piece :: rest => String c piece :: rest
           | [] => [String c EmptyString]
           end
  end.

(** [bool(s)] *)
Definition nonempty (s : string) : bool :=
  match s with EmptyString => false | String _ _ => true end.

End PyStr.

(* ================================================================== *)
(** ** Python values *)
(* ================================================================== *)

(** What [response.json()] decodes to, and what the program passes around:
    [None], booleans, integers, strings, lists, and dicts with string keys
    (kept in insertion order, each key once). *)
#[warnings="-register-all"]
Inductive value : Type :=
| VNone
| VBool (b : bool)
| VInt (n : Z)
| VStr (s : string)
| VList (items : list value)
| VDict (entries : list (string * value)).

(** Exceptions the program can meet.  All are subclasses of [Exception]. *)
Inductive exn : Type :=
| KeyError (key : string)
| ValueError
| TypeError
| AttributeError
| NotRenderableError
| JSONDecodeError
| RequestException.

Inductive result (A : Type) : Type :=
| Ok (a : A)
| Raise (e : exn).

Arguments Ok {A} a.
Arguments Raise {A} e.

Module Py.

(** Lookup in a dict's entries. *)
Fixpoint dict_get (d : list (string * value)) (k : string) : option value :=
  match d with
  | [] => None
  | (k', v) :: d' => if String.eqb k' k then Some v else dict_get d' k
  end.

(** [obj.get(key, default)]; only dicts have the method. *)
Definition get (obj : value) (key : string) (default : value) : result value :=
  match obj with
  | VDict d =>
      Ok (match dict_get d key with Some v => v | None => default end)
  | _ => Raise AttributeError
  end.

(** [obj[key]] on a dict; subscripting the other values the program can
    hold with a string key is a [TypeError]. *)
Definition getitem (obj : value) (key : string) : result value :=
  match obj with
  | VDict d =>
      match dict_get d key with
      | Some v => Ok v
      | None => Raise (KeyError key)
      end
  | _ => Raise TypeError
  end.

(** [bool(v)] *)
Definition truthy (v : value) : bool :=
  match v with
  | VNone => false
  | VBool b => b
  | VInt n => negb (n =? 0)%Z
  | VStr s => PyStr.nonempty s
  | VList l => match l with [] => false | _ :: _ => true end
  | VDict d => match d with [] => false | _ :: _ => true end
  end.

Fixpoint chars (s : string) : list value :=
  match s with
  | EmptyString => []
  | String c s' => VStr (String c EmptyString) :: chars s'
  end.

(** What [for x in v] runs over. *)
Definition iter (v : value) : result (list value) :=
  match v with
  | VList l => Ok l
  | VDict d => Ok (map (fun kv => VStr (fst kv)) d)
  | VStr s => Ok (chars s)
  | VNone | VBool _ | VInt _ => Raise TypeError
  end.

(** [a == b]: [True == 1], lists compare element by element, dicts
    compare as mappings whatever the order of their keys. *)
Fixpoint eq (a b : value) {struct a} : bool :=
  match a, b with
  | VNone, VNone => true
  | VBool x, VBool y => Bool.eqb x y
  | VBool x, VInt n | VInt n, VBool x => (n =? (if x then 1 else 0))%Z
  | VInt m, VInt n => (m =? n)%Z
  | VStr s, VStr t => String.eqb s t
  | VList l1, VList l2 =>
      (fix all2 (l1 l2 : list value) {struct l1} : bool :=
         match l1, l2 with
         | [], [] => true
         | x :: r1, y :: r2 => eq x y && all2 r1 r2
         | _, _ => false
         end) l1 l2
  | VDict d1, VDict d2 =>
      (List.length d1 =? List.length d2)%nat
      && (fix sub (d : list (string * value)) : bool :=
            match d with
            | [] => true
            | (k, v) :: r =>
                match dict_get d2 k with
                | Some w => eq v w
                | None => false
                end && sub r
            end) d1
  | _, _ => false
  end.

Definition dquote : ascii := ascii_of_nat 34.
Definition squote : ascii := ascii_of_nat 39.
Definition backslash : ascii := ascii_of_nat 92.

Fixpoint has_char (c : ascii) (s : string) : bool :=
  match s with
  | EmptyString => false
  | String a s' => Ascii.eqb a c || has_char c s'
  end.

Definition hex_digit (n : nat) : ascii :=
  ascii_of_nat (if (n <? 10)%nat then 48 + n else 87 + n).

(** Code points of U+0000..U+00FF that [repr] shows as they are. *)
Definition printable (n : nat) : bool :=
  ((32 <=? n) && (n <? 127) || (161 <=? n) && negb (n =? 173))%nat.

Definition repr_char (quote c : ascii) : string :=
  let n := nat_of_ascii c in
  if Ascii.eqb c quote || Ascii.eqb c backslash
  then String backslash (String c EmptyString)
  else if (n =? 9)%nat then String backslash "t"
  else if (n =? 10)%nat then String backslash "n"
  else if (n =? 13)%nat then String backslash "r"
  else if printable n then String c EmptyString
  else String backslash
         (String "x" (String (hex_digit (n / 16))
                        (String (hex_digit (n mod 16)) EmptyString))).

Fixpoint repr_chars (quote : ascii) (s : string) : string :=
  match s with
  | EmptyString => EmptyString
  | String c s' => (repr_char quote c ++ repr_chars quote s')%string
  end.

(** [repr(s)] of a string: single quotes, unless the text has a single
    quote and no double quote. *)
Definition repr_str (s : string) : string :=
  let quote :=
    if has_char squote s && negb (has_char dquote s) then dquote else squote in
  String quote (repr_chars quote s ++ String quote EmptyString)%string.

Definition str_of_int (n : Z) : string := NilZero.string_of_int (Z.to_int n).

(** [repr(v)] *)
Fixpoint repr (v : value) : string :=
  match v with
  | VNone => "None"
  | VBool true => "True"
  | VBool false => "False"
  | VInt n => str_of_int n
  | VStr s => repr_str s
  | VList l =>
      ("["
       ++ (fix items (first : bool) (l : list value) : string :=
             match l with
             | [] => ""
             | x :: r =>
                 (if first then "" else ", ") ++ repr x ++ items false r
             end) true l
       ++ "]")%string
  | VDict d =>
      ("{"
       ++ (fix items (first : bool) (d : list (string * value)) : string :=
             match d with
             | [] => ""
             | (k, x) :: r =>
                 (if first then "" else ", ")
                 ++ repr_str k ++ ": " ++ repr x ++ items false r
             end) true d
       ++ "}")%string
  end.

(** [str(v)], which is also what an f-string field [{v}] inserts. *)
Definition str (v : value) : string :=
  match v with
  | VStr s => s
  | _ => repr v
  end.

End Py.

(* ================================================================== *)
(** ** Effects: what the program does to the outside world *)
(* ================================================================== *)

(** A [rich] table as the program fills it in. *)
Record Table : Type := mkTable {
  title : string;
  columns : list string;
  rows : list (list string)
}.

Inductive event : Type :=
| HttpGet (url : string)          (* requests.get(url, headers=headers) *)
| LogError (message : string)     (* logger.error(message) *)
| LogException (e : exn)          (* logger.exception(f"An error occurred: {str(e)}") *)
| Print (markup : string)         (* console.print(markup) *)
| PrintTable (t : Table)          (* console.print(table) *)
| PrintFailure (e : exn).         (* console.print of the top-level handler *)

Definition trace : Type := list event.

(** A computation: the events it caused, and how it ended. *)
Definition M (A : Type) : Type := (trace * result A)%type.

Definition ret {A} (a : A) : M A := ([], Ok a).

Definition bind {A B} (c : M A) (k : A -> M B) : M B :=
  match c with
  | (t, Ok a) => let (t', r) := k a in (t ++ t', r)
  | (t, Raise e) => (t, Raise e)
  end.

Definition lift {A} (r : result A) : M A := ([], r).
Definition emit (e : event) : M unit := ([e], Ok tt).

Declare Scope py_scope.
Delimit Scope py_scope with py.
Notation "x <- c ;; k" := (bind c (fun x => k))
  (at level 61, c at next level, right associativity) : py_scope.
Notation "c ;; k" := (bind c (fun _ => k))
  (at level 61, right associativity) : py_scope.
Local Open Scope py_scope.

(** A [for] loop whose body can raise. *)
Fixpoint for_each {A} (l : list A) (body : A -> M unit) : M unit :=
  match l with
  | [] => ret tt
  | x :: l' => body x ;; for_each l' body
  end.

(** Evaluating [f] on each element in turn, stopping at the first raise. *)
Fixpoint map_result {A B} (f : A -> result B) (l : list A) : result (list B) :=
  match l with
  | [] => Ok []
  | x :: l' =>
      match f x with
      | Ok y =>
          match map_result f l' with
          | Ok ys => Ok (y :: ys)
          | Raise e => Raise e
          end
      | Raise e => Raise e
      end
  end.

(* ================================================================== *)
(** ** Fetcher *)
(* ================================================================== *)

(** The part of a [requests.Response] the program reads.  [json] is what
    [response.json()] gives: the decoded body, or a raise when the body is
    not JSON. *)
Record Response : Type := mkResponse {
  status_code : Z;
  text : string;
  json : result value
}.

(** The remote API and the transport: what [requests.get] gives for a URL,
    a response or a raise of the HTTP client. *)
Definition Api : Type := string -> result Response.

Definition API_ENDPOINT : string := "https://api.cloudflare.com/client/v4".

(** [requests.get(url, headers=headers)].  The headers are the same in
    every request, so what comes back depends on the URL alone. *)
Definition requests_get (api : Api) (url : string) : M Response :=
  emit (HttpGet url) ;; lift (api url).

Definition logger_error (message : string) : M unit := emit (LogError message).

Definition accounts_url : string := (API_ENDPOINT ++ "/accounts")%string.

Definition zones_url (account_id : value) : string :=
  (API_ENDPOINT ++ "/zones?account.id=" ++ Py.str account_id ++ "&per_page=100")%string.

Definition dns_records_url (zone_id : value) : string :=
  (API_ENDPOINT ++ "/zones/" ++ Py.str zone_id ++ "/dns_records?per_page=100")%string.

(** [response.json().get("result", [])] *)
Definition json_result (response : Response) : M value :=
  body <- lift (json response) ;;
  lift (Py.get body "result" (VList [])).

Definition get_accounts (api : Api) : M value :=
  let url := accounts_url in
  response <- requests_get api url ;;
  if (status_code response =? 200)%Z then json_result response
  else
    logger_error ("Failed to fetch accounts: " ++ text response)%string ;;
    ret (VList []).

Definition get_zones (api : Api) (account_id : value) : M value :=
  let url := zones_url account_id in
  response <- requests_get api url ;;
  if (status_code response =? 200)%Z then json_result response
  else
    logger_error ("Failed to fetch zones for account " ++ Py.str account_id
                  ++ ": " ++ text response)%string ;;
    ret (VList []).

Definition get_dns_records (api : Api) (zone_id : value) : M value :=
  let url := dns_records_url zone_id in
  response <- requests_get api url ;;
  if (status_code response =? 200)%Z then json_result response
  else
    logger_error ("Failed to fetch DNS records for zone " ++ Py.str zone_id
                  ++ ": " ++ text response)%string ;;
    ret (VList []).

(* ================================================================== *)
(** ** Presenter: the pure helpers *)
(* ================================================================== *)

Definition colors : list (string * string) :=
  [ ("A", "cyan");
    ("CNAME", "green");
    ("MX", "yellow");
    ("TXT", "magenta");
    ("AAAA", "blue");
    ("NS", "bright_black");
    ("SRV", "bright_magenta") ].

Fixpoint lookup (table : list (string * string)) (k : string) : option string :=
  match table with
  | [] => None
  | (k', v) :: table' => if String.eqb k' k then Some v else lookup table' k
  end.

(** [colors.get(record_type, "white")].  The keys are strings, so only a
    string can be found; a list or a dict cannot be hashed. *)
Definition type_color (record_type : value) : result string :=
  match record_type with
  | VStr s => Ok (match lookup colors s with Some c => c | None => "white" end)
  | VList _ | VDict _ => Raise TypeError
  | VNone | VBool _ | VInt _ => Ok "white"
  end.

Definition proxy_color (proxied : value) : string :=
  if Py.truthy proxied then "bright_green" else "bright_red".

Definition simplify_name (name zone_name : value) : result value :=
  if Py.eq name zone_name then Ok name
  else
    match name with
    | VStr n =>
        let suffix := ("." ++ Py.str zone_name)%string in
        if PyStr.endswith suffix n then Ok (VStr (PyStr.replace suffix "" n))
        else Ok name
    | _ => Raise AttributeError
    end.

(* ================================================================== *)
(** ** [datetime.strptime] and [strftime] for the two formats used *)
(* ================================================================== *)

Module Datetime.

Record datetime : Type := mkDatetime {
  year : Z; month : Z; day : Z;
  hour : Z; minute : Z; second : Z; microsecond : Z
}.

(** *** The regular expression of the format

    [strptime] turns ["%Y-%m-%dT%H:%M:%S.%fZ"] into a regular expression,
    compiled with [IGNORECASE], and matches it at the start of the text.
    A character class is a predicate; a directive is its alternatives in
    the order the expression lists them, each a sequence of classes. *)
Definition cls : Type := ascii -> bool.

Definition digit : cls :=
  fun c => ((48 <=? nat_of_ascii c) && (nat_of_ascii c <=? 57))%nat.
Definition range (lo hi : ascii) : cls :=
  fun c => ((nat_of_ascii lo <=? nat_of_ascii c)
            && (nat_of_ascii c <=? nat_of_ascii hi))%nat.
Definition one (a : ascii) : cls := fun c => Ascii.eqb c a.
Definition nocase (a : ascii) : cls :=
  fun c => Ascii.eqb (PyStr.lower_char c) (PyStr.lower_char a).

Definition directive : Type := list (list cls).

(* \d\d\d\d *)
Definition re_Y : directive := [[digit; digit; digit; digit]].
(* 1[0-2]|0[1-9]|[1-9] *)
Definition re_m : directive :=
  [[one "1"; range "0" "2"]; [one "0"; range "1" "9"]; [range "1" "9"]].
(* 3[0-1]|[1-2]\d|0[1-9]|[1-9]| [1-9] *)
Definition re_d : directive :=
  [[one "3"; range "0" "1"]; [range "1" "2"; digit]; [one "0"; range "1" "9"];
   [range "1" "9"]; [one " "; range "1" "9"]].
(* 2[0-3]|[0-1]\d|\d *)
Definition re_H : directive :=
  [[one "2"; range "0" "3"]; [range "0" "1"; digit]; [digit]].
(* [0-5]\d|\d *)
Definition re_M : directive := [[range "0" "5"; digit]; [digit]].
(* 6[0-1]|[0-5]\d|\d *)
Definition re_S : directive :=
  [[one "6"; range "0" "1"]; [range "0" "5"; digit]; [digit]].
(* [0-9]{1,6}, the longest run first *)
Definition re_f : directive :=
  [[digit; digit; digit; digit; digit; digit];
   [digit; digit; digit; digit; digit];
   [digit; digit; digit; digit];
   [digit; digit; digit];
   [digit; digit];
   [digit]].
Definition literal (a : ascii) : directive := [[nocase a]].

Definition format_regex : list directive :=
  [re_Y; literal "-"; re_m; literal "-"; re_d; literal "T";
   re_H; literal ":"; re_M; literal ":"; re_S; literal "."; re_f; literal "Z"].

(** One alternative against the start of [s]: the text it takes and the rest. *)
Fixpoint match_seq (cs : list cls) (s : string) : option (string * string) :=
  match cs with
  | [] => Some (EmptyString, s)
  | c :: cs' =>
      match s with
      | EmptyString => None
      | String a s' =>
          if c a then
            match match_seq cs' s' with
            | Some (m, rest) => Some (String a m, rest)
            | None => None
            end
          else None
      end
  end.

(** The ways a directive matches, in the order backtracking tries them. *)
Definition match_alts (d : directive) (s : string) : list (string * string) :=
  flat_map (fun cs => match match_seq cs s with
                      | Some r => [r]
                      | None => []
                      end) d.

(** The ways the whole expression matches, in backtracking order: the
    text of each directive, and what is left of the input. *)
Fixpoint matches (p : list directive) (s : string) : list (list string * string) :=
  match p with
  | [] => [([], s)]
  | d :: p' =>
      flat_map (fun gr : string * string =>
                  map (fun m : list string * string => (fst gr :: fst m, snd m))
                      (matches p' (snd gr)))
               (match_alts d s)
  end.

(** [format_regex.match(data_string)]: the first way, if any. *)
Definition re_match (s : string) : option (list string * string) :=
  match matches format_regex s with
  | [] => None
  | m :: _ => Some m
  end.

(** [int(text)] on the text of a directive: digits, and for [%d] possibly
    a leading blank, which [int] ignores. *)
Fixpoint int_from (acc : Z) (s : string) : Z :=
  match s with
  | EmptyString => acc
  | String c s' =>
      if digit c then int_from (10 * acc + Z.of_nat (nat_of_ascii c - 48)) s'
      else int_from acc s'
  end.
Definition int (s : string) : Z := int_from 0 s.

Fixpoint zeros (n : nat) : string :=
  match n with O => EmptyString | S n' => String "0" (zeros n') end.

Definition is_leap (y : Z) : bool :=
  ((y mod 4 =? 0) && (negb (y mod 100 =? 0) || (y mod 400 =? 0)))%Z.

Definition days_in_month (y m : Z) : Z :=
  (if m =? 2 then (if is_leap y then 29 else 28)
   else if (m =? 4) || (m =? 6) || (m =? 9) || (m =? 11) then 30
   else 31)%Z.

(** The checks of the [date] and [datetime] constructors. *)
Definition valid (dt : datetime) : bool :=
  ((1 <=? year dt) && (year dt <=? 9999)
   && (1 <=? month dt) && (month dt <=? 12)
   && (1 <=? day dt) && (day dt <=? days_in_month (year dt) (month dt))
   && (hour dt <=? 23) && (minute dt <=? 59) && (second dt <=? 59)
   && (microsecond dt <=? 999999))%Z.

(** [datetime.strptime(data_string, "%Y-%m-%dT%H:%M:%S.%fZ")] *)
Definition strptime (data_string : string) : result datetime :=
  match re_match data_string with
  | Some ([gY; _; gm; _; gd; _; gH; _; gM; _; gS; _; gf; _], rest) =>
      match rest with
      | EmptyString =>
          let fraction := (gf ++ zeros (6 - String.length gf))%string in
          let dt := mkDatetime (int gY) (int gm) (int gd)
                               (int gH) (int gM) (int gS) (int fraction) in
          if valid dt then Ok dt else Raise ValueError
      | String _ _ => Raise ValueError      (* unconverted data remains *)
      end
  | _ => Raise ValueError                   (* does not match format *)
  end.

Definition digit_char (n : Z) : ascii :=
  ascii_of_nat (48 + Z.to_nat (n mod 10)).

(** [n] in decimal on [width] digits, zero-filled. *)
Fixpoint zfill (width : nat) (n : Z) : string :=
  match width with
  | O => EmptyString
  | S w => String (digit_char (n / 10 ^ Z.of_nat w)) (zfill w n)
  end.

(** [dt.strftime("%Y-%m-%d %H:%M")].  [%Y] is the year on four digits, as
    documented; some C libraries print a year below 1000 on fewer digits,
    and the statements about the output below take years from 1000. *)
Definition strftime (dt : datetime) : string :=
  (zfill 4 (year dt) ++ "-" ++ zfill 2 (month dt) ++ "-" ++ zfill 2 (day dt)
   ++ " " ++ zfill 2 (hour dt) ++ ":" ++ zfill 2 (minute dt))%string.

End Datetime.

Definition format_time (time_str : value) : result string :=
  match time_str with
  | VStr s =>
      match Datetime.strptime s with
      | Ok dt => Ok (Datetime.strftime dt)
      | Raise e => Raise e
      end
  | _ => Raise TypeError
  end.

(* ================================================================== *)
(** ** Presenter: one table per zone *)
(* ================================================================== *)

(** Sequencing of steps that can raise but cause no event. *)
Definition and_then {A B} (r : result A) (k : A -> result B) : result B :=
  match r with
  | Ok a => k a
  | Raise e => Raise e
  end.

Notation "x <~ r ;; k" := (and_then r (fun x => k))
  (at level 61, r at next level, right associativity) : py_scope.

(** The nine arguments of [table.add_row], in the order Python evaluates
    them. *)
Definition type_cell (record : value) : result string :=
  c1 <~ (t <~ Py.get record "type" VNone ;; type_color t) ;;
  t2 <~ Py.get record "type" (VStr "") ;;
  c3 <~ (t <~ Py.get record "type" VNone ;; type_color t) ;;
  Ok ("[" ++ c1 ++ "]" ++ Py.str t2 ++ "[/" ++ c3 ++ "]")%string.

Definition name_cell (zone_name record : value) : result string :=
  n <~ Py.get record "name" (VStr "") ;;
  s <~ simplify_name n zone_name ;;
  Ok ("[white]" ++ Py.str s ++ "[/white]")%string.

Definition content_cell (record : value) : result string :=
  c <~ Py.get record "content" (VStr "") ;;
  Ok ("[blue]" ++ Py.str c ++ "[blue]")%string.

Definition priority_cell (record : value) : result string :=
  p <~ Py.get record "priority" (VStr "-") ;;
  Ok (Py.str p).

Definition proxy_cell (record : value) : result string :=
  p1 <~ Py.get record "proxied" (VBool false) ;;
  p2 <~ Py.get record "proxied" (VBool false) ;;
  p3 <~ Py.get record "proxied" (VBool false) ;;
  Ok ("[" ++ proxy_color p1 ++ "]" ++ Py.str p2
      ++ "[/" ++ proxy_color p3 ++ "]")%string.

Definition ttl_cell (record : value) : result string :=
  t <~ Py.get record "ttl" (VStr "") ;;
  Ok (Py.str t).

Definition created_cell (record : value) : result string :=
  t <~ Py.getitem record "created_on" ;;
  f <~ format_time t ;;
  Ok ("[bright_black]" ++ f ++ "[/bright_black]")%string.

Definition modified_cell (record : value) : result string :=
  t <~ Py.getitem record "modified_on" ;;
  f <~ format_time t ;;
  Ok ("[bright_black]" ++ f ++ "[/bright_black]")%string.

Definition comment_cell (record : value) : result value :=
  Py.get record "comment" (VStr "").

(** What [Table.add_row] accepts as a cell: a string, or [None] for an
    empty cell. *)
Definition renderable (v : value) : result string :=
  match v with
  | VStr s => Ok s
  | VNone => Ok ""
  | _ => Raise NotRenderableError
  end.

Definition add_row (renderables : list value) : result (list string) :=
  map_result renderable renderables.

(** The body of the loop over the records: one [table.add_row(...)]. *)
Definition dns_row (zone_name record : value) : result (list string) :=
  c1 <~ type_cell record ;;
  c2 <~ name_cell zone_name record ;;
  c3 <~ content_cell record ;;
  c4 <~ priority_cell record ;;
  c5 <~ proxy_cell record ;;
  c6 <~ ttl_cell record ;;
  c7 <~ created_cell record ;;
  c8 <~ modified_cell record ;;
  c9 <~ comment_cell record ;;
  add_row [VStr c1; VStr c2; VStr c3; VStr c4; VStr c5; VStr c6;
           VStr c7; VStr c8; c9].

Definition table_columns : list string :=
  ["Type"; "Name"; "Contents"; "Priority"; "Proxy"; "TTL";
   "Created"; "Modified"; "Message"].

Definition table_title (account_name zone_name : value) : string :=
  ("[bold blue]" ++ Py.str account_name ++ "[/bold blue] - [bold yellow]"
   ++ Py.str zone_name ++ "[/bold yellow]")%string.

(** The rows are built first, then the table is printed, then an empty
    line.  That [rich] may refuse the markup of the title or of a cell when
    it prints the table is left out. *)
Definition display_dns_table (account_name zone_name records : value) : M unit :=
  let title := table_title account_name zone_name in
  items <- lift (Py.iter records) ;;
  table_rows <- lift (map_result (dns_row zone_name) items) ;;
  emit (PrintTable (mkTable title table_columns table_rows)) ;;
  emit (Print "").

(* ================================================================== *)
(** ** Orchestrator *)
(* ================================================================== *)

(** The parsed command line: [args.account] and [args.zone]. *)
Record Args : Type := mkArgs {
  args_account : option string;
  args_zone : option string
}.

(** [[a.lower() for a in os.getenv(V, "").split(",")] if os.getenv(V) else None] *)
Definition env_filter (getenv : option string) : option (list string) :=
  match getenv with
  | Some v =>
      if PyStr.nonempty v then Some (map PyStr.lower (PyStr.split "," v))
      else None
  | None => None
  end.

(** [env and not any(e in name.lower() for e in env)]: whether the first
    guard skips the item. *)
Definition env_rejects (env : option (list string)) (name : value) : result bool :=
  match env with
  | Some (e :: es) =>
      match name with
      | VStr n =>
          Ok (negb (existsb (fun e => PyStr.contains e (PyStr.lower n)) (e :: es)))
      | _ => Raise AttributeError
      end
  | Some [] | None => Ok false
  end.

(** [arg and arg.lower() not in name.lower()]: whether the second guard
    skips the item. *)
Definition cli_rejects (arg : option string) (name : value) : result bool :=
  match arg with
  | Some a =>
      if PyStr.nonempty a then
        match name with
        | VStr n => Ok (negb (PyStr.contains (PyStr.lower a) (PyStr.lower n)))
        | _ => Raise AttributeError
        end
      else Ok false
  | None => Ok false
  end.

Definition no_accounts_notice : string := "[bold red]No accounts available.[/bold red]".

Definition zone_body (api : Api) (env_zones : option (list string)) (args : Args)
    (account_name : value) (zone : value) : M unit :=
  zone_name <- lift (Py.get zone "name" VNone) ;;
  zone_id <- lift (Py.get zone "id" VNone) ;;
  skip_env <- lift (env_rejects env_zones zone_name) ;;
  if skip_env : bool then ret tt
  else
    skip_cli <- lift (cli_rejects (args_zone args) zone_name) ;;
    if skip_cli : bool then ret tt
    else
      records <- get_dns_records api zone_id ;;
      display_dns_table account_name zone_name records.

Definition account_body (api : Api) (env_accounts env_zones : option (list string))
    (args : Args) (account : value) : M unit :=
  account_name <- lift (Py.get account "name" VNone) ;;
  account_id <- lift (Py.get account "id" VNone) ;;
  skip_env <- lift (env_rejects env_accounts account_name) ;;
  if skip_env : bool then ret tt
  else
    skip_cli <- lift (cli_rejects (args_account args) account_name) ;;
    if skip_cli : bool then ret tt
    else
      zones <- get_zones api account_id ;;
      zone_items <- lift (Py.iter zones) ;;
      for_each zone_items (zone_body api env_zones args account_name).

Definition main (args : Args) (environ : string -> option string) (api : Api) : M unit :=
  let env_accounts := env_filter (environ "ACCOUNTS") in
  let env_zones := env_filter (environ "ZONES") in
  accounts <- get_accounts api ;;
  if negb (Py.truthy accounts) then emit (Print no_accounts_notice)
  else
    account_items <- lift (Py.iter accounts) ;;
    for_each account_items (account_body api env_accounts env_zones args).

(** The [if __name__ == "__main__"] block: [main()] inside
    [try ... except Exception].  The handler logs the exception, then
    prints a message made of its text.  Either way the interpreter then
    reaches the end of the script, so the exit status is 0.  That [rich]
    may refuse the markup of the message is left out: the print then
    raises out of the handler, after the log record, and the exit status
    is 1. *)
Record Outcome : Type := mkOutcome {
  events : trace;
  exit_status : Z
}.

Definition script (args : Args) (environ : string -> option string) (api : Api) : Outcome :=
  match main args environ api with
  | (t, Ok _) => mkOutcome t 0
  | (t, Raise e) => mkOutcome (t ++ [LogException e; PrintFailure e]) 0
  end.

(* ================================================================== *)
(** ** The specification's vocabulary *)
(* ================================================================== *)

(** [sub] occurs in [s]. *)
Definition Substring (sub s : string) : Prop :=
  exists pre post, s = (pre ++ sub ++ post)%string.

(** [s] ends with [suffix]. *)
Definition EndsWith (suffix s : string) : Prop :=
  exists pre, s = (pre ++ suffix)%string.

(** [s] without its last [String.length suffix] characters: the name with
    the trailing suffix stripped, the label portion only. *)
Definition strip_suffix (suffix s : string) : string :=
  PyStr.take (String.length s - String.length suffix) s.

(** The filter policy of the specification, for a name and the two
    optional filter sources. *)
Definition env_pass (env : option (list string)) (name : string) : Prop :=
  match env with
  | Some entries => exists e, In e entries /\ Substring e (PyStr.lower name)
  | None => True
  end.

Definition cli_pass (cli : option string) (name : string) : Prop :=
  match cli with
  | Some f => Substring (PyStr.lower f) (PyStr.lower name)
  | None => True
  end.

(** The two guards of a loop body taken together: whether the item goes on
    to be processed.  Each body of [main] runs these two guards, in this
    order, before it fetches anything (see [account_body_included] and
    [zone_body_included]). *)
Definition included (env : option (list string)) (cli : option string)
    (name : value) : result bool :=
  skip_env <~ env_rejects env name ;;
  if skip_env : bool then Ok false
  else
    skip_cli <~ cli_rejects cli name ;;
    Ok (negb skip_cli).

(** The timestamp form the specification names,
    [YYYY-MM-DDTHH:MM:SS.ffffffZ], written from its fields. *)
Definition iso_timestamp (y mo d h mi s us : Z) : string :=
  (Datetime.zfill 4 y ++ "-" ++ Datetime.zfill 2 mo ++ "-" ++ Datetime.zfill 2 d
   ++ "T" ++ Datetime.zfill 2 h ++ ":" ++ Datetime.zfill 2 mi ++ ":"
   ++ Datetime.zfill 2 s ++ "." ++ Datetime.zfill 6 us ++ "Z")%string.

(** Whether a text has that form: digits and separators at fixed places. *)
Definition iso_form (s : string) : bool :=
  let d := Datetime.digit in
  let dash := Datetime.one "-" in
  let colon := Datetime.one ":" in
  match Datetime.match_seq
          [d; d; d; d; dash; d; d; dash; d; d; Datetime.one "T";
           d; d; colon; d; d; colon; d; d; Datetime.one ".";
           d; d; d; d; d; d; Datetime.one "Z"] s with
  | Some (_, EmptyString) => true
  | _ => false
  end.

(** The fields are those of a date, in a year of four digits, and a time
    of day. *)
Definition valid_fields (y mo d h mi s us : Z) : Prop :=
  (1000 <= y <= 9999 /\ 1 <= mo <= 12 /\ 1 <= d <= Datetime.days_in_month y mo
   /\ 0 <= h <= 23 /\ 0 <= mi <= 59 /\ 0 <= s <= 59 /\ 0 <= us <= 999999)%Z.

(** A field of a record is absent, or absent or a string. *)
Definition absent (d : list (string * value)) (k : string) : Prop :=
  Py.dict_get d k = None.

Definition absent_or_str (d : list (string * value)) (k : string) : Prop :=
  match Py.dict_get d k with
  | None | Some (VStr _) => True
  | Some _ => False
  end.

Definition absent_or_renderable (d : list (string * value)) (k : string) : Prop :=
  match Py.dict_get d k with
  | None | Some (VStr _) | Some VNone => True
  | Some _ => False
  end.

(** *** The walk of the specification

    What a fetch operation returns for a URL, without its events. *)
Definition fetch_result (api : Api) (url : string) : result value :=
  match api url with
  | Ok response =>
      if (status_code response =? 200)%Z then
        body <~ json response ;; Py.get body "result" (VList [])
      else Ok (VList [])
  | Raise e => Raise e
  end.

(** The items a URL lists, in the order the API returns them. *)
Definition children (api : Api) (url : string) : list value :=
  match fetch_result api url with
  | Ok v => match Py.iter v with Ok items => items | Raise _ => [] end
  | Raise _ => []
  end.

Definition field (item : value) (k : string) : value :=
  match Py.get item k VNone with Ok v => v | Raise _ => VNone end.

(** An item survives both filters. *)
Definition survives (env : option (list string)) (cli : option string)
    (name : value) : bool :=
  match included env cli name with Ok true => true | _ => false end.

(** The steps of a run the specification counts: fetches and tables. *)
Inductive step : Type :=
| Fetch (url : string)
| Render (table_title : string).

Definition steps_of (e : event) : list step :=
  match e with
  | HttpGet url => [Fetch url]
  | PrintTable t => [Render (title t)]
  | _ => []
  end.

Definition walk (t : trace) : list step := flat_map steps_of t.

(** One fetch of the DNS records and one table per surviving zone. *)
Definition zone_walk (env_zones : option (list string)) (args : Args)
    (account_name zone : value) : list step :=
  if survives env_zones (args_zone args) (field zone "name") then
    [Fetch (dns_records_url (field zone "id"));
     Render (table_title account_name (field zone "name"))]
  else [].

(** One fetch of the zones per surviving account, then its zones in order. *)
Definition account_walk (api : Api) (env_accounts env_zones : option (list string))
    (args : Args) (account : value) : list step :=
  if survives env_accounts (args_account args) (field account "name") then
    Fetch (zones_url (field account "id"))
    :: flat_map (zone_walk env_zones args (field account "name"))
         (children api (zones_url (field account "id")))
  else [].

(** One fetch of the accounts, then the accounts in order. *)
Definition expected_walk (args : Args) (environ : string -> option string)
    (api : Api) : list step :=
  Fetch accounts_url
  :: flat_map (account_walk api (env_filter (environ "ACCOUNTS"))
                 (env_filter (environ "ZONES")) args)
       (children api accounts_url).

Definition Prefix {A} (a b : list A) : Prop := exists c, b = a ++ c.

(** Every record a URL lists has both timestamps, and they parse. *)
Definition timestamps_ok (api : Api) (url : string) : Prop :=
  exists records items,
    fetch_result api url = Ok records
    /\ Py.iter records = Ok items
    /\ forall r, In r items ->
         (exists c, created_cell r = Ok c) /\ (exists c, modified_cell r = Ok c).

(** A computation keeps to a walk [w]: whatever happens its steps are a
    prefix of [w]; and if it returns, its steps are exactly [w] and every
    DNS-records URL it requested listed records with good timestamps. *)
Definition keeps (api : Api) (c : M unit) (w : list step) : Prop :=
  Prefix (walk (fst c)) w
  /\ (snd c = Ok tt ->
      walk (fst c) = w
      /\ forall zone_id, In (HttpGet (dns_records_url zone_id)) (fst c) ->
                         timestamps_ok api (dns_records_url zone_id)).

(** A fetch operation makes one request, for its URL. *)
Definition one_request (url : string) (t : trace) : Prop :=
  walk t = [Fetch url] /\ forall u, In (HttpGet u) t -> u = url.

(** The record types with a colour of their own. *)
Definition defined_types : list string :=
  ["A"; "CNAME"; "MX"; "TXT"; "AAAA"; "NS"; "SRV"].

(** A statement about every [n] below a bound, by cases. *)
Fixpoint all_below (k : nat) (P : Z -> Prop) : Prop :=
  match k with
  | O => True
  | S k' => P (Z.of_nat k') /\ all_below k' P
  end.

(** The first way a directive matches a number written on two digits
    takes both digits. *)
Definition first_is (d : Datetime.directive) (n : Z) : Prop :=
  forall rest, exists tl,
    Datetime.match_alts d (Datetime.zfill 2 n ++ rest)%string
    = (Datetime.zfill 2 n, rest) :: tl.

(** The texts the directives and literals of the format take from a
    timestamp of the named form. *)
Definition iso_groups (y mo d h mi s us : Z) : list string :=
  [Datetime.zfill 4 y; "-"; Datetime.zfill 2 mo; "-"; Datetime.zfill 2 d; "T";
   Datetime.zfill 2 h; ":"; Datetime.zfill 2 mi; ":"; Datetime.zfill 2 s; ".";
   Datetime.zfill 6 us; "Z"]%string.

(** *** The strings [strptime] accepts

    A directive takes a text when one of its alternatives matches all of
    it: [re_m] takes [1], [01] and [12], the literal [T] takes [T] and
    [t]. *)
Definition takes (d : Datetime.directive) (g : string) : Prop :=
  exists cs, In cs d /\ Datetime.match_seq cs g = Some (g, EmptyString).

Fixpoint concat_all (gs : list string) : string :=
  match gs with
  | [] => EmptyString
  | g :: rest => (g ++ concat_all rest)%string
  end.

(** The date and time that the texts of the directives stand for, the
    fraction padded with zeros to six digits. *)
Definition datetime_of (gs : list string) : option Datetime.datetime :=
  match gs with
  | [gY; _; gm; _; gd; _; gH; _; gM; _; gS; _; gf; _] =>
      Some (Datetime.mkDatetime
              (Datetime.int gY) (Datetime.int gm) (Datetime.int gd)
              (Datetime.int gH) (Datetime.int gM) (Datetime.int gS)
              (Datetime.int (gf ++ Datetime.zeros (6 - String.length gf))))
  | _ => None
  end.

(** [s] is written with one text for each directive and literal of the
    format, in order and with nothing before, between or after them, and
    the texts stand for [dt], a date and a time of day that exist. *)
Definition reads_as (s : string) (dt : Datetime.datetime) : Prop :=
  exists gs,
    Forall2 takes Datetime.format_regex gs /\ s = concat_all gs
    /\ datetime_of gs = Some dt /\ Datetime.valid dt = true.

Definition strptime_accepts (s : string) : Prop := exists dt, reads_as s dt.

(** A directive followed by a separator: the first way the directive
    matches a text it takes, when the separator follows, is that text. *)
Definition takes_first (d : Datetime.directive) (sep : ascii) : Prop :=
  forall g c r,
    takes d g -> Datetime.nocase sep c = true ->
    exists tl,
      Datetime.match_alts d (g ++ String c r)%string = (g, String c r) :: tl.

(** Every character there is. *)
Definition all_chars : list ascii := map ascii_of_nat (seq 0 256).

(** *** The end of a run that raised

    [main] raised [e] and the handler of the script took over: it logs
    the exception and prints the failure message, after which the script
    ends with status 0; or the print raises in its turn, on a message
    whose markup [rich] refuses, and the script ends with status 1. *)
Definition reaches_handler (args : Args) (environ : string -> option string)
    (api : Api) : Prop :=
  exists e,
    snd (main args environ api) = Raise e
    /\ (script args environ api
        = mkOutcome (fst (main args environ api)
                     ++ [LogException e; PrintFailure e]) 0
        \/ script args environ api
           = mkOutcome (fst (main args environ api) ++ [LogException e]) 1).

(* ================================================================== *)
(** ** Concrete inputs *)
(* ================================================================== *)

Module Sample.

(** A double-quoted JSON string token. *)
Definition q (s : string) : string :=
  String Py.dquote (s ++ String Py.dquote EmptyString).

Definition account_prod : value :=
  VDict [("id", VStr "a1"); ("name", VStr "Prod-Main")].

(** A response [201 Created] whose body has a [result] array. *)
Definition created : Response :=
  mkResponse 201
    ("{" ++ q "result" ++ ":[{" ++ q "id" ++ ":" ++ q "a1" ++ ","
         ++ q "name" ++ ":" ++ q "Prod-Main" ++ "}]}")
    (Ok (VDict [("result", VList [account_prod])])).

(** A response [200 OK] with the given [result]. *)
Definition ok (items : list value) : Response :=
  mkResponse 200 "(body)" (Ok (VDict [("success", VBool true); ("result", VList items)])).

Definition forbidden : Response :=
  mkResponse 403 "Forbidden" (Raise JSONDecodeError).

Definition api_created : Api := fun _ => Ok created.
Definition api_forbidden : Api := fun _ => Ok forbidden.
Definition api_empty : Api := fun _ => Ok (ok []).

Definition no_args : Args := mkArgs None None.
Definition no_environ : string -> option string := fun _ => None.

End Sample.

Module Run.

Definition ts : string := "2014-01-01T05:20:00.12345Z".

Definition www : value :=
  VDict [("type", VStr "A"); ("name", VStr "www.example.com");
         ("content", VStr "192.0.2.1"); ("proxied", VBool true); ("ttl", VInt 1);
         ("created_on", VStr ts); ("modified_on", VStr ts); ("comment", VNone)].

(** A record whose creation time is not a timestamp. *)
Definition stale : value :=
  VDict [("type", VStr "A"); ("name", VStr "old.example.com");
         ("created_on", VStr "yesterday"); ("modified_on", VStr ts)].

(** A record with the two timestamps and nothing else. *)
Definition bare : value :=
  VDict [("created_on", VStr ts); ("modified_on", VStr ts)].

(** A record without its creation time. *)
Definition undated : value :=
  VDict [("type", VStr "A"); ("name", VStr "www.example.com");
         ("modified_on", VStr ts)].

Definition zone_one : value := VDict [("id", VStr "z1"); ("name", VStr "example.com")].
Definition zone_two : value := VDict [("id", VStr "z2"); ("name", VStr "example.org")].

(** One account with two zones, the first with the given records. *)
Definition api_with (first_zone_records : list value) : Api :=
  fun url =>
    if String.eqb url accounts_url then Ok (Sample.ok [Sample.account_prod])
    else if String.eqb url (zones_url (VStr "a1")) then
      Ok (Sample.ok [zone_one; zone_two])
    else if String.eqb url (dns_records_url (VStr "z1")) then
      Ok (Sample.ok first_zone_records)
    else if String.eqb url (dns_records_url (VStr "z2")) then
      Ok (Sample.ok [www])
    else Ok Sample.forbidden.

End Run.

(* ================================================================== *)
(** ** Further vocabulary *)
(* ================================================================== *)

(** [s] without its last character. *)
Definition without_last (s : string) : string :=
  PyStr.take (String.length s - 1) s.

(** [sep.join(pieces)] *)
Fixpoint join (sep : string) (pieces : list string) : string :=
  match pieces with
  | [] => EmptyString
  | [x] => x
  | x :: rest => (x ++ sep ++ join sep rest)%string
  end.

Fixpoint count_char (c : ascii) (s : string) : nat :=
  match s with
  | EmptyString => 0
  | String a s' => (if Ascii.eqb a c then 1 else 0) + count_char c s'
  end.

(** The three fetch operations, each with the URL it requests.
    [get_accounts] takes no identifier. *)
Definition fetch_operations : list ((Api -> value -> M value) * (value -> string)) :=
  [ (fun api _ => get_accounts api, fun _ => accounts_url);
    (get_zones, zones_url);
    (get_dns_records, dns_records_url) ].

(** A timestamp whose fraction of a second is written as the text
    [fraction], and one with no fraction at all. *)
Definition timestamp_to_seconds (y mo d h mi s : Z) : string :=
  (Datetime.zfill 4 y ++ "-" ++ Datetime.zfill 2 mo ++ "-" ++ Datetime.zfill 2 d
   ++ "T" ++ Datetime.zfill 2 h ++ ":" ++ Datetime.zfill 2 mi ++ ":"
   ++ Datetime.zfill 2 s)%string.

Definition timestamp_with_fraction (y mo d h mi s : Z) (fraction : string) : string :=
  (timestamp_to_seconds y mo d h mi s ++ "." ++ fraction ++ "Z")%string.

Definition timestamp_without_fraction (y mo d h mi s : Z) : string :=
  (timestamp_to_seconds y mo d h mi s ++ "Z")%string.

(** What [format_time] prints for a date and a time. *)
Definition minutes_text (y mo d h mi : Z) : string :=
  (Datetime.zfill 4 y ++ "-" ++ Datetime.zfill 2 mo ++ "-" ++ Datetime.zfill 2 d
   ++ " " ++ Datetime.zfill 2 h ++ ":" ++ Datetime.zfill 2 mi)%string.

(** The walk over everything the API lists: every account, every zone. *)
Definition full_walk (api : Api) : list step :=
  Fetch accounts_url
  :: flat_map
       (fun account =>
          Fetch (zones_url (field account "id"))
          :: flat_map
               (fun zone =>
                  [Fetch (dns_records_url (field zone "id"));
                   Render (table_title (field account "name") (field zone "name"))])
               (children api (zones_url (field account "id"))))
       (children api accounts_url).

(** Every request of a trace was answered, and answered with something a
    fetch operation can return from. *)
Definition all_answered (api : Api) (t : trace) : Prop :=
  forall url, In (HttpGet url) t -> exists v, fetch_result api url = Ok v.

(** The pattern of the format up to the seconds, and the texts it takes
    from [timestamp_to_seconds]. *)
Definition regex_to_seconds (p : list Datetime.directive) : list Datetime.directive :=
  Datetime.re_Y :: Datetime.literal "-" :: Datetime.re_m :: Datetime.literal "-"
  :: Datetime.re_d :: Datetime.literal "T" :: Datetime.re_H :: Datetime.literal ":"
  :: Datetime.re_M :: Datetime.literal ":" :: Datetime.re_S :: p.

Definition groups_to_seconds (y mo d h mi s : Z) (gs : list string) : list string :=
  (Datetime.zfill 4 y :: "-" :: Datetime.zfill 2 mo :: "-" :: Datetime.zfill 2 d
   :: "T" :: Datetime.zfill 2 h :: ":" :: Datetime.zfill 2 mi :: ":"
   :: Datetime.zfill 2 s :: gs)%string.

(** Every way a directive matches two digits followed by [sep] either
    takes both digits or stops before a digit. *)
Definition stops_at_digit (d : Datetime.directive) (sep : ascii) (n : Z) : Prop :=
  forall rest,
    Forall (fun gr : string * string =>
              snd gr = String sep rest
              \/ exists c r, Datetime.digit c = true /\ snd gr = String c r)
           (Datetime.match_alts d (Datetime.zfill 2 n ++ String sep rest)%string).

(** A computation that returns had all its requests answered. *)
Definition answers (api : Api) (c : M unit) : Prop :=
  snd c = Ok tt -> all_answered api (fst c).

(** The log records of a trace are those of its failed requests: each
    record ends with the body of a response, with a status other than
    200, to a request of the trace; and each such request has its record. *)
Definition logs_match_failures (api : Api) (t : trace) : Prop :=
  (forall message,
      In (LogError message) t ->
      exists url r,
        In (HttpGet url) t /\ api url = Ok r /\ status_code r <> 200%Z
        /\ EndsWith (text r) message)
  /\ (forall url r,
         In (HttpGet url) t -> api url = Ok r -> status_code r <> 200%Z ->
         exists message, In (LogError message) t /\ EndsWith (text r) message).

(** Every request of a trace is addressed to the API endpoint. *)
Definition requests_at_endpoint (t : trace) : Prop :=
  forall url, In (HttpGet url) t -> PyStr.startswith API_ENDPOINT url = true.

(* ================================================================== *)
(** ** The model on concrete inputs *)
(* ================================================================== *)

Example lower_mixed : PyStr.lower "Prod-Main" = "prod-main".
Proof. reflexivity. Qed.

Example replace_all_occurrences : PyStr.replace "ab" "-" "xabyabab" = "x-y--".
Proof. reflexivity. Qed.

Example replace_empty_pattern : PyStr.replace "" "-" "abc" = "-a-b-c-".
Proof. reflexivity. Qed.

Example split_trailing_comma : PyStr.split "," "prod,staging," = ["prod"; "staging"; ""].
Proof. reflexivity. Qed.

Example endswith_zone : PyStr.endswith ".example.com" "www.example.com" = true.
Proof. reflexivity. Qed.

Example repr_nested :
  Py.str (VList [VInt (-3); VStr "a'b"; VDict [("k", VBool true); ("n", VNone)]])
  = String "[" (String "-" (String "3" (String "," (String " "
      (String Py.dquote (String "a" (String "'" (String "b" (String Py.dquote
        ", {'k': True, 'n': None}]"))))))))).
Proof. reflexivity. Qed.

Example eq_dict_order :
  Py.eq (VDict [("a", VInt 1); ("b", VBool false)])
        (VDict [("b", VInt 0); ("a", VBool true)]) = true.
Proof. reflexivity. Qed.

Example repr_control_char :
  Py.repr (VStr (String (ascii_of_nat 7) "x"))
  = String Py.squote (String Py.backslash (String "x" (String "0" (String "7"
      (String "x" (String Py.squote EmptyString)))))).
Proof. reflexivity. Qed.

Example simplify_www :
  simplify_name (VStr "www.example.com") (VStr "example.com") = Ok (VStr "www").
Proof. reflexivity. Qed.

Example simplify_apex :
  simplify_name (VStr "example.com") (VStr "example.com") = Ok (VStr "example.com").
Proof. reflexivity. Qed.

Example format_time_cloudflare :
  format_time (VStr "2014-01-01T05:20:00.12345Z") = Ok "2014-01-01 05:20".
Proof. reflexivity. Qed.

Example format_time_no_fraction :
  format_time (VStr "2014-01-01T05:20:00Z") = Raise ValueError.
Proof. reflexivity. Qed.

Example format_time_bad_day :
  format_time (VStr "2023-02-29T05:20:00.000000Z") = Raise ValueError.
Proof. reflexivity. Qed.

Example format_time_trailing :
  format_time (VStr "2014-01-01T05:20:00.12345Z ") = Raise ValueError.
Proof. reflexivity. Qed.

Example format_time_backtrack :
  format_time (VStr "2014-1-1T5:2:7.5z") = Ok "2014-01-01 05:02".
Proof. reflexivity. Qed.

(** Scenario B of the specification. *)
Example scenario_env_accounts :
  included (env_filter (Some "prod,staging")) None (VStr "Prod-Main") = Ok true
  /\ included (env_filter (Some "prod,staging")) None (VStr "dev-test") = Ok false.
Proof. split; reflexivity. Qed.

(** Scenario C of the specification: both filters must pass. *)
Example scenario_conjunctive :
  included (env_filter (Some "internal")) (Some "example") (VStr "example.com")
  = Ok false.
Proof. reflexivity. Qed.

(** A name that is not a string stops the run as soon as a filter reads it. *)
Example filter_on_missing_name :
  included (env_filter (Some "prod")) None VNone = Raise AttributeError
  /\ included None None VNone = Ok true.
Proof. split; reflexivity. Qed.

(** One run over one account and two zones. *)
Example run_two_zones :
  walk (events (script Sample.no_args Sample.no_environ (Run.api_with [Run.www])))
  = [Fetch accounts_url; Fetch (zones_url (VStr "a1"));
     Fetch (dns_records_url (VStr "z1"));
     Render "[bold blue]Prod-Main[/bold blue] - [bold yellow]example.com[/bold yellow]";
     Fetch (dns_records_url (VStr "z2"));
     Render "[bold blue]Prod-Main[/bold blue] - [bold yellow]example.org[/bold yellow]"].
Proof. reflexivity. Qed.

(** The row of a record that has only its two timestamps. *)
Example row_of_bare_record :
  dns_row (VStr "example.com") Run.bare
  = Ok ["[white][/white]"; "[white][/white]"; "[blue][blue]"; "-";
        "[bright_red]False[/bright_red]"; "";
        "[bright_black]2014-01-01 05:20[/bright_black]";
        "[bright_black]2014-01-01 05:20[/bright_black]"; ""].
Proof. reflexivity. Qed.

(* ================================================================== *)
(** ** Facts about the string operations *)
(* ================================================================== *)

Section StringFacts.

Local Open Scope string_scope.

Lemma append_empty_r (s : string) : s ++ "" = s.
Proof. induction s as [|c s IH]; simpl; [reflexivity | now rewrite IH]. Qed.

Lemma append_assoc (a b c : string) : (a ++ b) ++ c = a ++ b ++ c.
Proof. induction a as [|x a IH]; simpl; [reflexivity | now rewrite IH]. Qed.

Lemma length_append (a b : string) :
  String.length (a ++ b) = String.length a + String.length b.
Proof. induction a as [|x a IH]; simpl; [reflexivity | now rewrite IH]. Qed.

Lemma startswith_spec (p s : string) :
  PyStr.startswith p s = true <-> exists post, s = p ++ post.
Proof.
  revert s; induction p as [|a p IH]; intros s; simpl.
  - split; [intros _; now exists s | reflexivity].
  - destruct s as [|b s].
    + split; [discriminate | intros [post H]; discriminate].
    + rewrite andb_true_iff, IH. split.
      * intros [Hab [post ->]]. apply Ascii.eqb_eq in Hab. subst b. now exists post.
      * intros [post H]. injection H as -> ->. split.
        -- apply Ascii.eqb_refl.
        -- now exists post.
Qed.

Lemma contains_spec (sub s : string) :
  PyStr.contains sub s = true <-> Substring sub s.
Proof.
  unfold Substring. split.
  - induction s as [|c s IH]; simpl; rewrite orb_true_iff.
    + intros [H|H]; [|discriminate].
      apply startswith_spec in H as [post H]. now exists "", post.
    + intros [H|H].
      * apply startswith_spec in H as [post H]. now exists "", post.
      * destruct (IH H) as (pre & post & ->). now exists (String c pre), post.
  - intros (pre & post & ->). induction pre as [|c pre IH].
    + simpl. assert (H : PyStr.startswith sub (sub ++ post) = true)
        by (apply startswith_spec; now exists post).
      destruct (sub ++ post); simpl in *; rewrite H; reflexivity.
    + simpl. rewrite IH. apply orb_true_r.
Qed.

Lemma contains_empty (s : string) : PyStr.contains "" s = true.
Proof. destruct s; reflexivity. Qed.

Lemma drop_append (a b : string) : PyStr.drop (String.length a) (a ++ b) = b.
Proof. induction a as [|x a IH]; simpl; [now destruct b | exact IH]. Qed.

Lemma take_append (a b : string) : PyStr.take (String.length a) (a ++ b) = a.
Proof. induction a as [|x a IH]; simpl; [now destruct b | now rewrite IH]. Qed.

Lemma take_drop (n : nat) (s : string) : PyStr.take n s ++ PyStr.drop n s = s.
Proof.
  revert s; induction n as [|n IH]; intros [|c s]; simpl; try reflexivity.
  now rewrite IH.
Qed.

Lemma endswith_spec (suffix s : string) :
  PyStr.endswith suffix s = true <-> EndsWith suffix s.
Proof.
  unfold PyStr.endswith, EndsWith. rewrite andb_true_iff, Nat.leb_le, String.eqb_eq.
  split.
  - intros [_ H]. exists (PyStr.take (String.length s - String.length suffix) s).
    remember (String.length s - String.length suffix) as n eqn:Hn. clear Hn.
    subst suffix. symmetry. apply take_drop.
  - intros [pre ->]. rewrite length_append. split; [lia|].
    replace (String.length pre + String.length suffix - String.length suffix)
      with (String.length pre) by lia.
    apply drop_append.
Qed.

Lemma strip_suffix_append (pre suffix : string) :
  strip_suffix suffix (pre ++ suffix) = pre.
Proof.
  unfold strip_suffix. rewrite length_append.
  replace (String.length pre + String.length suffix - String.length suffix)
    with (String.length pre) by lia.
  apply take_append.
Qed.

Lemma split_not_nil (sep : ascii) (s : string) : PyStr.split sep s <> [].
Proof.
  induction s as [|c s IH]; simpl; [discriminate|].
  destruct (Ascii.eqb c sep); [discriminate|].
  destruct (PyStr.split sep s); discriminate.
Qed.

End StringFacts.

(* ================================================================== *)
(** ** Name simplification *)
(* ================================================================== *)

Lemma simplify_name_equal (n : string) :
  simplify_name (VStr n) (VStr n) = Ok (VStr n).
Proof. unfold simplify_name; simpl. now rewrite String.eqb_refl. Qed.

Lemma simplify_name_unrelated (n z : string) :
  n <> z -> ~ EndsWith ("." ++ z) n ->
  simplify_name (VStr n) (VStr z) = Ok (VStr n).
Proof.
  intros Hne Hend. unfold simplify_name; simpl.
  destruct (String.eqb_spec n z) as [->|_]; [reflexivity|].
  destruct (PyStr.endswith (String "." z) n) eqn:E; [|reflexivity].
  exfalso. apply Hend. now apply endswith_spec.
Qed.

(** C1.  On the record name [www.example.com.example.com] in the zone
    [example.com], the name ends with [.example.com], stripping that
    trailing suffix leaves [www.example.com], and [simplify_name] returns
    [www]: [str.replace] removes every occurrence of [.example.com], not
    only the trailing one. *)
Theorem simplify_name_removes_every_occurrence :
  PyStr.endswith ".example.com" "www.example.com.example.com" = true
  /\ strip_suffix ".example.com" "www.example.com.example.com" = "www.example.com"
  /\ simplify_name (VStr "www.example.com.example.com") (VStr "example.com")
     = Ok (VStr "www").
Proof. repeat split; reflexivity. Qed.

(* ================================================================== *)
(** ** Filter engine *)
(* ================================================================== *)

Lemma env_filter_nonempty (getenv : option string) (entries : list string) :
  env_filter getenv = Some entries -> entries <> [].
Proof.
  destruct getenv as [v|]; simpl; [|discriminate].
  destruct (PyStr.nonempty v); [|discriminate].
  intros [= <-] H. apply map_eq_nil in H. now apply split_not_nil in H.
Qed.

Lemma env_rejects_str (entries : list string) (name : string) :
  entries <> [] ->
  env_rejects (Some entries) (VStr name)
  = Ok (negb (existsb (fun e => PyStr.contains e (PyStr.lower name)) entries)).
Proof. destruct entries; [congruence | reflexivity]. Qed.

Lemma env_rejects_false_iff (env : option (list string)) (name : string) :
  (forall entries, env = Some entries -> entries <> []) ->
  env_rejects env (VStr name) = Ok false <-> env_pass env name.
Proof.
  intros Hne. destruct env as [entries|]; simpl env_pass.
  - rewrite env_rejects_str by now apply Hne.
    split.
    + intros [= H]. apply negb_false_iff, existsb_exists in H.
      destruct H as (e & Hin & Hc). exists e. split; [exact Hin|].
      now apply contains_spec.
    + intros (e & Hin & Hs). f_equal. apply negb_false_iff, existsb_exists.
      exists e. split; [exact Hin|]. now apply contains_spec.
  - split; [intros _; exact I | reflexivity].
Qed.

Lemma cli_rejects_false_iff (cli : option string) (name : string) :
  cli_rejects cli (VStr name) = Ok false <-> cli_pass cli name.
Proof.
  destruct cli as [f|]; [|simpl; split; [intros _; exact I | reflexivity]].
  unfold cli_rejects, cli_pass.
  destruct (PyStr.nonempty f) eqn:Hf.
  - rewrite <- contains_spec. split.
    + intros [= H]. now apply negb_false_iff in H.
    + intros H. now rewrite H.
  - destruct f; [|discriminate Hf]. split; [intros _ | reflexivity].
    apply contains_spec. apply contains_empty.
Qed.

Lemma included_str_total (env : option (list string)) (cli : option string)
    (name : string) :
  exists b, included env cli (VStr name) = Ok b.
Proof.
  unfold included.
  assert (He : exists b, env_rejects env (VStr name) = Ok b)
    by (destruct env as [[|e es]|]; simpl; eauto).
  assert (Hc : exists b, cli_rejects cli (VStr name) = Ok b)
    by (destruct cli as [f|]; simpl; [destruct (PyStr.nonempty f)|]; eauto).
  destruct He as [b1 ->], Hc as [b2 ->]. simpl. destruct b1; eauto.
Qed.

Lemma included_true_iff (env : option (list string)) (cli : option string)
    (name : value) :
  included env cli name = Ok true
  <-> env_rejects env name = Ok false /\ cli_rejects cli name = Ok false.
Proof.
  unfold included, and_then.
  destruct (env_rejects env name) as [[|]|e1]; [| |].
  - split; [discriminate | intros [[=] _]].
  - destruct (cli_rejects cli name) as [[|]|e2]; simpl.
    + split; [discriminate | intros [_ [=]]].
    + tauto.
    + split; [discriminate | intros [_ [=]]].
  - split; [discriminate | intros [[=] _]].
Qed.

(** C2.  For every name, every value of the environment variable and every
    command-line filter, the item is included exactly when it passes the
    environment filter (when the derived list is present, one of its
    entries occurs in the lowercased name) and the command-line filter
    (when present, its lowercase occurs in the lowercased name); the
    decision never raises on a name that is a string; and with neither
    source present the item is included. *)
Theorem included_iff_passes_both_filters :
  forall (getenv cli : option string) (name : string),
    (included (env_filter getenv) cli (VStr name) = Ok true
     <-> env_pass (env_filter getenv) name /\ cli_pass cli name)
    /\ (exists b, included (env_filter getenv) cli (VStr name) = Ok b)
    /\ included None None (VStr name) = Ok true.
Proof.
  intros getenv cli name. split; [|split].
  - rewrite included_true_iff, cli_rejects_false_iff.
    rewrite env_rejects_false_iff; [reflexivity|].
    intros entries. apply env_filter_nonempty.
  - apply included_str_total.
  - reflexivity.
Qed.

(** C4 as the specification states it fails: from an empty [ACCOUNTS] or
    [ZONES] the program does not derive the list of one empty string. *)
Lemma env_filter_empty_not_singleton : env_filter (Some "") <> Some [""].
Proof. discriminate. Qed.

(** C4, amended.  An environment variable set to the empty string derives
    no filter at all, exactly as an unset variable does; the environment
    guard then rejects no item, and every item is decided as with the
    variable unset. *)
Theorem env_filter_empty_is_absent :
  env_filter (Some "") = None
  /\ env_filter (Some "") = env_filter None
  /\ (forall name : value, env_rejects (env_filter (Some "")) name = Ok false)
  /\ (forall (cli : option string) (name : value),
         included (env_filter (Some "")) cli name
         = included (env_filter None) cli name).
Proof. repeat split. Qed.

(* ================================================================== *)
(** ** Colours *)
(* ================================================================== *)

Lemma type_color_default (s : string) :
  ~ In s defined_types -> type_color (VStr s) = Ok "white".
Proof.
  intros Hn. unfold type_color, colors, lookup.
  repeat match goal with
         | |- context [String.eqb ?k s] =>
             destruct (String.eqb_spec k s) as [<-|_];
             [exfalso; apply Hn; simpl; tauto|]
         end.
  reflexivity.
Qed.

(** C6.  [type_color] returns a colour for every string and never raises:
    the seven defined record types have their fixed colours ([NS] has
    [bright_black], the terminal's gray), and every other string has
    [white]. *)
Theorem type_color_total :
  type_color (VStr "A") = Ok "cyan"
  /\ type_color (VStr "CNAME") = Ok "green"
  /\ type_color (VStr "MX") = Ok "yellow"
  /\ type_color (VStr "TXT") = Ok "magenta"
  /\ type_color (VStr "AAAA") = Ok "blue"
  /\ type_color (VStr "NS") = Ok "bright_black"
  /\ type_color (VStr "SRV") = Ok "bright_magenta"
  /\ (forall s, ~ In s defined_types -> type_color (VStr s) = Ok "white")
  /\ (forall s, exists c, type_color (VStr s) = Ok c).
Proof.
  repeat (split; [reflexivity|]). split.
  - exact type_color_default.
  - intros s. simpl. eauto.
Qed.

(** [type_color_total] on the record type [PTR], which has no colour of its own. *)
Lemma type_color_total_witness :
  ~ In "PTR" defined_types /\ type_color (VStr "PTR") = Ok "white".
Proof.
  assert (H : ~ In "PTR" defined_types).
  { simpl. intros [H|[H|[H|[H|[H|[H|[H|[]]]]]]]]; discriminate H. }
  split; [exact H|].
  exact (proj1 (proj2 (proj2 (proj2 (proj2 (proj2 (proj2 (proj2
           type_color_total))))))) "PTR" H).
Defined.

(** C7.  The proxy cell uses one of two colours: [bright_green] for
    [True], [bright_red] for [False], and nothing else for any value; the
    cell of a record is computed without a raise, and a record without the
    [proxied] field shows [False] in [bright_red]. *)
Theorem proxy_color_two_colors :
  proxy_color (VBool true) = "bright_green"
  /\ proxy_color (VBool false) = "bright_red"
  /\ (forall v, proxy_color v = "bright_green" \/ proxy_color v = "bright_red")
  /\ (forall d, exists p c,
         proxy_cell (VDict d) = Ok ("[" ++ c ++ "]" ++ Py.str p ++ "[/" ++ c ++ "]")%string
         /\ (c = "bright_green" \/ c = "bright_red"))
  /\ (forall d b, Py.dict_get d "proxied" = Some (VBool b) ->
         proxy_cell (VDict d)
         = Ok (if b then "[bright_green]True[/bright_green]"
               else "[bright_red]False[/bright_red]"))
  /\ (forall d, Py.dict_get d "proxied" = None ->
         proxy_cell (VDict d) = Ok "[bright_red]False[/bright_red]").
Proof.
  split; [reflexivity|]. split; [reflexivity|]. split; [|split; [|split]].
  - intros v. unfold proxy_color. destruct (Py.truthy v); auto.
  - intros d. unfold proxy_cell, Py.get; simpl.
    set (p := match Py.dict_get d "proxied" with Some v => v | None => VBool false end).
    exists p, (proxy_color p). split; [reflexivity|].
    unfold proxy_color. destruct (Py.truthy p); auto.
  - intros d b H. unfold proxy_cell, Py.get; simpl. rewrite H. now destruct b.
  - intros d H. unfold proxy_cell, Py.get; simpl. now rewrite H.
Qed.

(** [proxy_color_two_colors] on a record without the [proxied] field. *)
Lemma proxy_color_two_colors_witness :
  proxy_cell (VDict [("type", VStr "A"); ("name", VStr "www.example.com")])
  = Ok "[bright_red]False[/bright_red]".
Proof.
  apply (proj2 (proj2 (proj2 (proj2 (proj2 proxy_color_two_colors))))).
  reflexivity.
Defined.

(* ================================================================== *)
(** ** Fetcher *)
(* ================================================================== *)

(** The three fetch operations share one shape; these two steps settle
    either branch once the response is known. *)
Ltac fetch_unfold :=
  unfold get_accounts, get_zones, get_dns_records,
    requests_get, json_result, logger_error, bind, emit, lift, ret.

Ltac fetch_200 Hr Hs Hj Hd :=
  fetch_unfold; rewrite Hr, Hs, Hj; simpl; rewrite Hd; reflexivity.

Ltac fetch_other Hr Hs :=
  fetch_unfold; rewrite Hr; apply Z.eqb_neq in Hs; rewrite Hs; reflexivity.

(** C3 as the specification states it fails: the account fetch answers a
    [201] response, which is a 2xx response with a [result] array, with a
    logged error and the empty list. *)
Lemma get_accounts_201_returns_empty :
  (200 <= status_code Sample.created < 300)%Z
  /\ json Sample.created = Ok (VDict [("result", VList [Sample.account_prod])])
  /\ get_accounts Sample.api_created
     = ([HttpGet accounts_url;
         LogError ("Failed to fetch accounts: " ++ text Sample.created)],
        Ok (VList [])).
Proof. split; [simpl; lia|]. split; reflexivity. Qed.

(** C3, amended.  Each of the three fetch operations returns the decoded
    [result] member of the body when the response status is 200; on every
    other status, whether or not it is a 2xx one, it logs the response body
    as an error and returns the empty list without raising. *)
Theorem fetch_returns_result_on_200_else_empty :
  forall (api : Api) (r : Response),
    (forall d arr,
        api accounts_url = Ok r -> status_code r = 200%Z ->
        json r = Ok (VDict d) -> Py.dict_get d "result" = Some arr ->
        get_accounts api = ([HttpGet accounts_url], Ok arr))
    /\ (api accounts_url = Ok r -> status_code r <> 200%Z ->
        get_accounts api
        = ([HttpGet accounts_url;
            LogError ("Failed to fetch accounts: " ++ text r)], Ok (VList [])))
    /\ (forall account_id d arr,
        api (zones_url account_id) = Ok r -> status_code r = 200%Z ->
        json r = Ok (VDict d) -> Py.dict_get d "result" = Some arr ->
        get_zones api account_id = ([HttpGet (zones_url account_id)], Ok arr))
    /\ (forall account_id,
        api (zones_url account_id) = Ok r -> status_code r <> 200%Z ->
        get_zones api account_id
        = ([HttpGet (zones_url account_id);
            LogError ("Failed to fetch zones for account " ++ Py.str account_id
                      ++ ": " ++ text r)], Ok (VList [])))
    /\ (forall zone_id d arr,
        api (dns_records_url zone_id) = Ok r -> status_code r = 200%Z ->
        json r = Ok (VDict d) -> Py.dict_get d "result" = Some arr ->
        get_dns_records api zone_id = ([HttpGet (dns_records_url zone_id)], Ok arr))
    /\ (forall zone_id,
        api (dns_records_url zone_id) = Ok r -> status_code r <> 200%Z ->
        get_dns_records api zone_id
        = ([HttpGet (dns_records_url zone_id);
            LogError ("Failed to fetch DNS records for zone " ++ Py.str zone_id
                      ++ ": " ++ text r)], Ok (VList []))).
Proof.
  intros api r. repeat split.
  - intros d arr Hr Hs Hj Hd. fetch_200 Hr Hs Hj Hd.
  - intros Hr Hs. fetch_other Hr Hs.
  - intros account_id d arr Hr Hs Hj Hd. fetch_200 Hr Hs Hj Hd.
  - intros account_id Hr Hs. fetch_other Hr Hs.
  - intros zone_id d arr Hr Hs Hj Hd. fetch_200 Hr Hs Hj Hd.
  - intros zone_id Hr Hs. fetch_other Hr Hs.
Qed.

(** [fetch_returns_result_on_200_else_empty] on a [403] and on a [200] response. *)
Lemma fetch_returns_result_on_200_else_empty_witness :
  get_zones Sample.api_forbidden (VStr "a1")
  = ([HttpGet (zones_url (VStr "a1"));
      LogError "Failed to fetch zones for account a1: Forbidden"], Ok (VList []))
  /\ get_dns_records (fun _ => Ok (Sample.ok [VInt 7])) (VStr "z1")
     = ([HttpGet (dns_records_url (VStr "z1"))], Ok (VList [VInt 7])).
Proof.
  split.
  - apply (proj1 (proj2 (proj2 (proj2
             (fetch_returns_result_on_200_else_empty Sample.api_forbidden
                Sample.forbidden)))) (VStr "a1")).
    + reflexivity.
    + discriminate.
  - apply (proj1 (proj2 (proj2 (proj2 (proj2
             (fetch_returns_result_on_200_else_empty
                (fun _ => Ok (Sample.ok [VInt 7])) (Sample.ok [VInt 7]))))))
             (VStr "z1")
             [("success", VBool true); ("result", VList [VInt 7])]
             (VList [VInt 7])); reflexivity.
Defined.

(* ================================================================== *)
(** ** Orchestrator: no accounts *)
(* ================================================================== *)

Lemma get_accounts_trace (api : Api) :
  fst (get_accounts api) = [HttpGet accounts_url]
  \/ exists message, fst (get_accounts api) = [HttpGet accounts_url; LogError message].
Proof.
  unfold get_accounts, requests_get, json_result, bind, emit, lift.
  destruct (api accounts_url) as [r|e]; simpl; [|now left].
  destruct (status_code r =? 200)%Z; simpl.
  - left. destruct (json r) as [body|e]; simpl; [|reflexivity].
    destruct (Py.get body "result" (VList [])); reflexivity.
  - right. eauto.
Qed.

(** C8.  When the account fetch returns the empty list, [main] prints the
    notice and returns normally: its trace is the one request for the
    accounts (and the error log record of a failed fetch, if it failed)
    followed by the notice, so no table is printed and no zone or DNS
    record is requested; the script ends with exit status 0 and the
    top-level handler is not entered. *)
Theorem main_no_accounts :
  forall (args : Args) (environ : string -> option string) (api : Api) (t : trace),
    get_accounts api = (t, Ok (VList [])) ->
    main args environ api = (t ++ [Print no_accounts_notice], Ok tt)
    /\ script args environ api = mkOutcome (t ++ [Print no_accounts_notice]) 0
    /\ (t = [HttpGet accounts_url]
        \/ exists message, t = [HttpGet accounts_url; LogError message]).
Proof.
  intros args environ api t H.
  assert (Hm : main args environ api = (t ++ [Print no_accounts_notice], Ok tt)).
  { unfold main. rewrite H. reflexivity. }
  split; [exact Hm|]. split.
  - unfold script. now rewrite Hm.
  - pose proof (get_accounts_trace api) as Ht. now rewrite H in Ht.
Qed.

(** [main_no_accounts] on an API that lists no account. *)
Lemma main_no_accounts_witness :
  script Sample.no_args Sample.no_environ Sample.api_empty
  = mkOutcome [HttpGet accounts_url; Print no_accounts_notice] 0.
Proof.
  apply (main_no_accounts Sample.no_args Sample.no_environ Sample.api_empty
           [HttpGet accounts_url]).
  reflexivity.
Defined.

(* ================================================================== *)
(** ** Timestamps *)
(* ================================================================== *)

Module DatetimeFacts.
Import Datetime.

Local Open Scope Z_scope.

Lemma digit_char_code (n : Z) :
  nat_of_ascii (digit_char n) = (48 + Z.to_nat (n mod 10))%nat.
Proof.
  unfold digit_char. apply nat_ascii_embedding.
  pose proof (Z.mod_pos_bound n 10 eq_refl). lia.
Qed.

Lemma digit_digit_char (n : Z) : digit (digit_char n) = true.
Proof.
  unfold digit. rewrite digit_char_code.
  pose proof (Z.mod_pos_bound n 10 eq_refl).
  apply andb_true_iff; split; apply Nat.leb_le; lia.
Qed.

Lemma digit_char_value (n : Z) :
  Z.of_nat (nat_of_ascii (digit_char n) - 48) = n mod 10.
Proof.
  rewrite digit_char_code.
  pose proof (Z.mod_pos_bound n 10 eq_refl). lia.
Qed.

Lemma length_zfill (k : nat) (n : Z) : String.length (zfill k n) = k.
Proof. induction k as [|k IH]; simpl; [reflexivity | now rewrite IH]. Qed.

Lemma int_from_zfill (k : nat) (n acc : Z) :
  int_from acc (zfill k n) = acc * 10 ^ Z.of_nat k + n mod 10 ^ Z.of_nat k.
Proof.
  revert acc; induction k as [|k IH]; intros acc.
  - simpl. rewrite Z.mod_1_r. lia.
  - cbn [zfill int_from]. rewrite digit_digit_char, digit_char_value, IH.
    assert (Hp : 0 < 10 ^ Z.of_nat k) by (apply Z.pow_pos_nonneg; lia).
    rewrite Nat2Z.inj_succ, Z.pow_succ_r by lia.
    rewrite (Z.mul_comm 10 (10 ^ Z.of_nat k)).
    rewrite (Z.rem_mul_r n (10 ^ Z.of_nat k) 10) by lia.
    ring.
Qed.

Lemma int_zfill (k : nat) (n : Z) :
  0 <= n < 10 ^ Z.of_nat k -> int (zfill k n) = n.
Proof.
  intros H. unfold int. rewrite int_from_zfill, Z.mod_small by exact H. lia.
Qed.

(** A run of [k] digit classes takes the [k] digits of a zero-filled
    number, whatever follows. *)
Lemma match_seq_zfill (k : nat) (n : Z) (rest : string) :
  match_seq (repeat digit k) (zfill k n ++ rest)%string = Some (zfill k n, rest).
Proof.
  induction k as [|k IH]; [reflexivity|].
  cbn [repeat zfill append match_seq]. now rewrite digit_digit_char, IH.
Qed.

(** Backtracking: the first way a directive matches, followed by the
    first way the rest of the expression matches, is the first way of
    the whole. *)
Lemma matches_head (d : directive) (p : list directive) (s g r : string)
    (gs : list string) (r' : string) tl tl' :
  match_alts d s = (g, r) :: tl ->
  matches p r = (gs, r') :: tl' ->
  exists tl'', matches (d :: p) s = (g :: gs, r') :: tl''.
Proof.
  intros Hd Hp. cbn [matches]. rewrite Hd. cbn [flat_map fst snd].
  rewrite Hp. cbn [map app fst snd]. eauto.
Qed.

Lemma literal_head (a : ascii) (rest : string) :
  match_alts (literal a) (String a rest) = [(String a EmptyString, rest)].
Proof.
  unfold literal, match_alts, nocase. cbn [flat_map match_seq].
  now rewrite Ascii.eqb_refl.
Qed.

Lemma all_below_elim (k : nat) (P : Z -> Prop) :
  all_below k P -> forall n, 0 <= n < Z.of_nat k -> P n.
Proof.
  induction k as [|k IH]; intros H n Hn; [lia|].
  destruct H as [Hk Hrest].
  destruct (Z.eq_dec n (Z.of_nat k)) as [->|Hne]; [exact Hk|].
  apply IH; [exact Hrest | lia].
Qed.

Ltac each_case :=
  cbn [all_below]; repeat split;
  try (intros; lia);
  intros _ rest; vm_compute; eexists; reflexivity.

Lemma re_m_head (n : Z) : 1 <= n <= 12 -> first_is re_m n.
Proof.
  intros H.
  refine (all_below_elim 13 (fun z => 1 <= z -> first_is re_m z) _ n _ _);
    [each_case | lia | lia].
Qed.

Lemma re_d_head (n : Z) : 1 <= n <= 31 -> first_is re_d n.
Proof.
  intros H.
  refine (all_below_elim 32 (fun z => 1 <= z -> first_is re_d z) _ n _ _);
    [each_case | lia | lia].
Qed.

Lemma re_H_head (n : Z) : 0 <= n <= 23 -> first_is re_H n.
Proof.
  intros H.
  refine (all_below_elim 24 (fun z => 0 <= z -> first_is re_H z) _ n _ _);
    [each_case | lia | lia].
Qed.

Lemma re_M_head (n : Z) : 0 <= n <= 59 -> first_is re_M n.
Proof.
  intros H.
  refine (all_below_elim 60 (fun z => 0 <= z -> first_is re_M z) _ n _ _);
    [each_case | lia | lia].
Qed.

Lemma re_S_head (n : Z) : 0 <= n <= 59 -> first_is re_S n.
Proof.
  intros H.
  refine (all_below_elim 60 (fun z => 0 <= z -> first_is re_S z) _ n _ _);
    [each_case | lia | lia].
Qed.

Lemma re_Y_head (n : Z) (rest : string) :
  match_alts re_Y (zfill 4 n ++ rest)%string = [(zfill 4 n, rest)].
Proof.
  unfold re_Y, match_alts. cbn [flat_map].
  change [digit; digit; digit; digit] with (repeat digit 4).
  now rewrite match_seq_zfill.
Qed.

Lemma re_f_head (n : Z) (rest : string) :
  exists tl, match_alts re_f (zfill 6 n ++ rest)%string = (zfill 6 n, rest) :: tl.
Proof.
  unfold re_f, match_alts. cbn [flat_map].
  change [digit; digit; digit; digit; digit; digit] with (repeat digit 6).
  rewrite match_seq_zfill. cbn [app]. eauto.
Qed.

Ltac step Hd :=
  match goal with
  | H : matches _ _ = _ :: _ |- _ =>
      let tl := fresh "tl" in
      let H' := fresh "Hm" in
      destruct (matches_head _ _ _ _ _ _ _ _ _ Hd H) as [tl H']; clear H
  end.

Ltac step_field L :=
  let tl := fresh "tl" in
  let Hd := fresh "Hd" in
  match goal with
  | H : matches _ ?r = _ :: _ |- _ => destruct (L r) as [tl Hd]; step Hd
  end.

Ltac step_literal a :=
  match goal with
  | H : matches _ ?r = _ :: _ |- _ => step (literal_head a r)
  end.

(** The expression matches a timestamp of the named form field by field,
    taking all of it. *)
Lemma matches_iso (y mo d h mi s us : Z) :
  1 <= mo <= 12 -> 1 <= d <= 31 -> 0 <= h <= 23 -> 0 <= mi <= 59 ->
  0 <= s <= 59 ->
  exists tl,
    matches format_regex (iso_timestamp y mo d h mi s us)
    = (iso_groups y mo d h mi s us, EmptyString) :: tl.
Proof.
  intros Hmo Hd Hh Hmi Hs.
  assert (H0 : matches [] EmptyString = ([], EmptyString) :: []) by reflexivity.
  step_literal "Z"%char.
  step_field (re_f_head us).
  step_literal "."%char.
  step_field (re_S_head s Hs).
  step_literal ":"%char.
  step_field (re_M_head mi Hmi).
  step_literal ":"%char.
  step_field (re_H_head h Hh).
  step_literal "T"%char.
  step_field (re_d_head d Hd).
  step_literal "-"%char.
  step_field (re_m_head mo Hmo).
  step_literal "-"%char.
  match goal with
  | H : matches _ ?r = _ :: _ |- _ =>
      destruct (matches_head _ _ _ _ _ _ _ _ _ (re_Y_head y r) H) as [tl' Hall]
  end.
  exists tl'. exact Hall.
Qed.

Lemma days_in_month_le (y m : Z) : days_in_month y m <= 31.
Proof.
  unfold days_in_month.
  destruct (m =? 2); [destruct (is_leap y); lia|].
  destruct ((m =? 4) || (m =? 6) || (m =? 9) || (m =? 11))%bool; lia.
Qed.

Lemma strptime_iso (y mo d h mi s us : Z) :
  valid_fields y mo d h mi s us ->
  strptime (iso_timestamp y mo d h mi s us) = Ok (mkDatetime y mo d h mi s us).
Proof.
  intros (Hy & Hmo & Hd & Hh & Hmi & Hs & Hus).
  pose proof (days_in_month_le y mo) as Hdm.
  destruct (matches_iso y mo d h mi s us) as [tl Hm]; try lia.
  unfold strptime, re_match. rewrite Hm. unfold iso_groups.
  rewrite length_zfill. cbn [Nat.sub zeros]. rewrite append_empty_r.
  rewrite !int_zfill by (cbn; lia).
  assert (Hv : valid (mkDatetime y mo d h mi s us) = true).
  { unfold valid; cbn [year month day hour minute second microsecond].
    repeat (apply andb_true_iff; split); apply Z.leb_le; lia. }
  now rewrite Hv.
Qed.

End DatetimeFacts.

(** [format_time] on a timestamp of the named form with valid fields. *)
Lemma format_time_iso (y mo d h mi s us : Z) :
  valid_fields y mo d h mi s us ->
  format_time (VStr (iso_timestamp y mo d h mi s us))
  = Ok (Datetime.zfill 4 y ++ "-" ++ Datetime.zfill 2 mo ++ "-"
        ++ Datetime.zfill 2 d ++ " " ++ Datetime.zfill 2 h ++ ":"
        ++ Datetime.zfill 2 mi)%string.
Proof.
  intros H. unfold format_time. now rewrite DatetimeFacts.strptime_iso.
Qed.

(** On a string, [format_time] raises nothing but [ValueError]. *)
Lemma format_time_str_raises (s : string) (e : exn) :
  format_time (VStr s) = Raise e -> e = ValueError.
Proof.
  unfold format_time, Datetime.strptime.
  destruct (Datetime.re_match s) as [[groups rest]|]; [|congruence].
  do 14 (destruct groups as [|? groups]; [congruence|]).
  destruct groups; [|congruence].
  destruct rest; [|congruence].
  match goal with |- context [Datetime.valid ?dt] => destruct (Datetime.valid dt) end;
    congruence.
Qed.

(** What [format_time] returns is what [strftime] prints for a date that
    passed the checks of the constructors. *)
Lemma format_time_ok_inv (v : value) (out : string) :
  format_time v = Ok out ->
  exists s dt,
    v = VStr s /\ Datetime.strptime s = Ok dt /\ Datetime.valid dt = true
    /\ out = Datetime.strftime dt.
Proof.
  unfold format_time. destruct v; try discriminate.
  destruct (Datetime.strptime s) as [dt|] eqn:Hs; [|discriminate].
  intros [= <-]. exists s, dt.
  split; [reflexivity|]. split; [exact Hs|]. split; [|reflexivity].
  unfold Datetime.strptime in Hs.
  destruct (Datetime.re_match s) as [[groups rest]|]; [|discriminate].
  do 14 (destruct groups as [|? groups]; [discriminate|]).
  destruct groups; [|discriminate].
  destruct rest; [|discriminate].
  match type of Hs with
  | context [Datetime.valid ?x] => destruct (Datetime.valid x) eqn:Hv
  end; [|discriminate].
  now injection Hs as <-.
Qed.

(* ================================================================== *)
(** ** Presenter: rows and tables *)
(* ================================================================== *)

Lemma map_result_ok_all {A B} (f : A -> result B) (l : list A) (ys : list B) :
  map_result f l = Ok ys -> forall x, In x l -> exists y, f x = Ok y.
Proof.
  revert ys; induction l as [|a l IH]; intros ys H x Hin; [destruct Hin|].
  simpl in H. destruct (f a) as [y|e] eqn:Ha; [|discriminate].
  destruct (map_result f l) as [ys'|e]; [|discriminate].
  destruct Hin as [<-|Hin]; [eauto | eapply IH; eauto].
Qed.

Lemma map_result_raises {A B} (f : A -> result B) (l : list A) (x : A) (e : exn) :
  In x l -> f x = Raise e -> exists e', map_result f l = Raise e'.
Proof.
  intros Hin Hx. destruct (map_result f l) as [ys|e'] eqn:H; [|eauto].
  destruct (map_result_ok_all f l ys H x Hin) as [y Hy]. congruence.
Qed.

Lemma endswith_longer (c : ascii) (suffix : string) :
  PyStr.endswith (String c suffix) "" = false.
Proof. reflexivity. Qed.

Section Cells.

Variable d : list (string * value).
Variable zone_name : value.

Lemma type_cell_absent :
  absent d "type" -> type_cell (VDict d) = Ok "[white][/white]".
Proof. intros H. unfold type_cell, Py.get. unfold absent in H. rewrite !H. reflexivity. Qed.

Lemma type_cell_ok :
  absent_or_str d "type" -> exists c, type_cell (VDict d) = Ok c.
Proof.
  unfold absent_or_str, type_cell, Py.get; simpl.
  destruct (Py.dict_get d "type") as [[]|]; simpl; intros H;
    try destruct H; eauto.
Qed.

Lemma simplify_name_empty : simplify_name (VStr "") zone_name = Ok (VStr "").
Proof.
  unfold simplify_name. destruct (Py.eq (VStr "") zone_name); reflexivity.
Qed.

Lemma simplify_name_str (n : string) :
  exists v, simplify_name (VStr n) zone_name = Ok v.
Proof.
  unfold simplify_name. destruct (Py.eq (VStr n) zone_name); [eauto|].
  destruct (PyStr.endswith _ n); eauto.
Qed.

Lemma name_cell_absent :
  absent d "name" -> name_cell zone_name (VDict d) = Ok "[white][/white]".
Proof.
  intros H. unfold name_cell, Py.get; simpl. rewrite H. simpl.
  now rewrite simplify_name_empty.
Qed.

Lemma name_cell_ok :
  absent_or_str d "name" -> exists c, name_cell zone_name (VDict d) = Ok c.
Proof.
  unfold absent_or_str, name_cell, Py.get; simpl.
  destruct (Py.dict_get d "name") as [[]|]; simpl; intros H; try destruct H.
  - destruct (simplify_name_str s) as [v ->]. simpl. eauto.
  - rewrite simplify_name_empty. simpl. eauto.
Qed.

Lemma content_cell_absent :
  absent d "content" -> content_cell (VDict d) = Ok "[blue][blue]".
Proof. intros H. unfold content_cell, Py.get. unfold absent in H. rewrite !H. reflexivity. Qed.

Lemma priority_cell_absent :
  absent d "priority" -> priority_cell (VDict d) = Ok "-".
Proof. intros H. unfold priority_cell, Py.get. unfold absent in H. rewrite !H. reflexivity. Qed.

Lemma proxy_cell_absent :
  absent d "proxied" -> proxy_cell (VDict d) = Ok "[bright_red]False[/bright_red]".
Proof. intros H. unfold proxy_cell, Py.get. unfold absent in H. rewrite !H. reflexivity. Qed.

Lemma ttl_cell_absent : absent d "ttl" -> ttl_cell (VDict d) = Ok "".
Proof. intros H. unfold ttl_cell, Py.get. unfold absent in H. rewrite !H. reflexivity. Qed.

Lemma comment_cell_absent :
  absent d "comment" -> comment_cell (VDict d) = Ok (VStr "").
Proof. intros H. unfold comment_cell, Py.get. unfold absent in H. rewrite !H. reflexivity. Qed.

Lemma comment_renderable :
  absent_or_renderable d "comment" ->
  exists v s, comment_cell (VDict d) = Ok v /\ renderable v = Ok s
              /\ (absent d "comment" -> s = "").
Proof.
  unfold absent_or_renderable, absent, comment_cell, Py.get; simpl.
  destruct (Py.dict_get d "comment") as [[]|]; intros H; try destruct H.
  - exists VNone, "". repeat split; try discriminate.
  - exists (VStr s), s. repeat split; try discriminate.
  - exists (VStr ""), "". repeat split.
Qed.

Lemma created_cell_absent :
  absent d "created_on" -> created_cell (VDict d) = Raise (KeyError "created_on").
Proof. intros H. unfold created_cell, Py.getitem. unfold absent in H. rewrite !H. reflexivity. Qed.

Lemma modified_cell_absent :
  absent d "modified_on" -> modified_cell (VDict d) = Raise (KeyError "modified_on").
Proof. intros H. unfold modified_cell, Py.getitem. unfold absent in H. rewrite !H. reflexivity. Qed.

Lemma created_cell_ok (v : value) (out : string) :
  Py.dict_get d "created_on" = Some v -> format_time v = Ok out ->
  created_cell (VDict d) = Ok ("[bright_black]" ++ out ++ "[/bright_black]")%string.
Proof.
  intros H Hf. unfold created_cell, Py.getitem; simpl. rewrite H. simpl.
  now rewrite Hf.
Qed.

Lemma modified_cell_ok (v : value) (out : string) :
  Py.dict_get d "modified_on" = Some v -> format_time v = Ok out ->
  modified_cell (VDict d) = Ok ("[bright_black]" ++ out ++ "[/bright_black]")%string.
Proof.
  intros H Hf. unfold modified_cell, Py.getitem; simpl. rewrite H. simpl.
  now rewrite Hf.
Qed.

Lemma created_cell_raises (v : value) (e : exn) :
  Py.dict_get d "created_on" = Some v -> format_time v = Raise e ->
  created_cell (VDict d) = Raise e.
Proof.
  intros H Hf. unfold created_cell, Py.getitem; simpl. rewrite H. simpl.
  now rewrite Hf.
Qed.

Lemma modified_cell_raises (v : value) (e : exn) :
  Py.dict_get d "modified_on" = Some v -> format_time v = Raise e ->
  modified_cell (VDict d) = Raise e.
Proof.
  intros H Hf. unfold modified_cell, Py.getitem; simpl. rewrite H. simpl.
  now rewrite Hf.
Qed.

(** The four cells between the name and the timestamps never raise on a
    dict. *)
Lemma middle_cells_ok :
  exists c3 c4 c5 c6,
    content_cell (VDict d) = Ok c3 /\ priority_cell (VDict d) = Ok c4
    /\ proxy_cell (VDict d) = Ok c5 /\ ttl_cell (VDict d) = Ok c6.
Proof.
  unfold content_cell, priority_cell, proxy_cell, ttl_cell, Py.get; simpl.
  eauto 10.
Qed.

End Cells.

(** A row is built only if both timestamp cells are. *)
Lemma dns_row_ok_timestamps (zone_name record : value) (row : list string) :
  dns_row zone_name record = Ok row ->
  (exists c, created_cell record = Ok c) /\ (exists c, modified_cell record = Ok c).
Proof.
  unfold dns_row, and_then.
  destruct (type_cell record); [|discriminate].
  destruct (name_cell zone_name record); [|discriminate].
  destruct (content_cell record); [|discriminate].
  destruct (priority_cell record); [|discriminate].
  destruct (proxy_cell record); [|discriminate].
  destruct (ttl_cell record); [|discriminate].
  destruct (created_cell record); [|discriminate].
  destruct (modified_cell record); [|discriminate].
  eauto.
Qed.

(** A row whose six first cells are built stops at the timestamp cell that
    raises. *)
Lemma dns_row_created_raises (zone_name : value) (d : list (string * value)) (e : exn) :
  absent_or_str d "type" -> absent_or_str d "name" ->
  created_cell (VDict d) = Raise e ->
  dns_row zone_name (VDict d) = Raise e.
Proof.
  intros Ht Hn Hc. unfold dns_row.
  destruct (type_cell_ok d Ht) as [c1 ->].
  destruct (name_cell_ok d zone_name Hn) as [c2 ->].
  destruct (middle_cells_ok d) as (c3 & c4 & c5 & c6 & -> & -> & -> & ->).
  simpl. now rewrite Hc.
Qed.

Lemma dns_row_modified_raises (zone_name : value) (d : list (string * value))
    (c7 : string) (e : exn) :
  absent_or_str d "type" -> absent_or_str d "name" ->
  created_cell (VDict d) = Ok c7 -> modified_cell (VDict d) = Raise e ->
  dns_row zone_name (VDict d) = Raise e.
Proof.
  intros Ht Hn Hc Hm. unfold dns_row.
  destruct (type_cell_ok d Ht) as [c1 ->].
  destruct (name_cell_ok d zone_name Hn) as [c2 ->].
  destruct (middle_cells_ok d) as (c3 & c4 & c5 & c6 & -> & -> & -> & ->).
  simpl. rewrite Hc. simpl. now rewrite Hm.
Qed.

(** A record with fields of the expected kinds and two timestamps that
    parse gives a row of nine cells. *)
Lemma dns_row_renders (zone_name : value) (d : list (string * value)) (c7 c8 : string) :
  absent_or_str d "type" -> absent_or_str d "name" ->
  absent_or_renderable d "comment" ->
  created_cell (VDict d) = Ok c7 -> modified_cell (VDict d) = Ok c8 ->
  exists c1 c2 c3 c4 c5 c6 c9,
    type_cell (VDict d) = Ok c1 /\ name_cell zone_name (VDict d) = Ok c2
    /\ content_cell (VDict d) = Ok c3 /\ priority_cell (VDict d) = Ok c4
    /\ proxy_cell (VDict d) = Ok c5 /\ ttl_cell (VDict d) = Ok c6
    /\ (absent d "comment" -> c9 = "")
    /\ dns_row zone_name (VDict d) = Ok [c1; c2; c3; c4; c5; c6; c7; c8; c9].
Proof.
  intros Ht Hn Hcm Hc Hm.
  destruct (type_cell_ok d Ht) as [c1 H1].
  destruct (name_cell_ok d zone_name Hn) as [c2 H2].
  destruct (middle_cells_ok d) as (c3 & c4 & c5 & c6 & H3 & H4 & H5 & H6).
  destruct (comment_renderable d Hcm) as (v & c9 & H9 & Hr & Ha).
  exists c1, c2, c3, c4, c5, c6, c9. repeat (split; [assumption|]).
  unfold dns_row. rewrite H1, H2, H3, H4, H5, H6, Hc, Hm, H9.
  cbn [and_then add_row map_result]. rewrite Hr. reflexivity.
Qed.

(** The table is printed after all rows are built: a table that raises
    prints nothing. *)
Lemma display_dns_table_cases (account_name zone_name records : value) :
  (exists items table_rows,
      Py.iter records = Ok items
      /\ map_result (dns_row zone_name) items = Ok table_rows
      /\ display_dns_table account_name zone_name records
         = ([PrintTable (mkTable (table_title account_name zone_name)
                           table_columns table_rows); Print ""], Ok tt))
  \/ (exists e, display_dns_table account_name zone_name records = ([], Raise e)).
Proof.
  unfold display_dns_table, bind, lift, emit.
  destruct (Py.iter records) as [items|e]; [|right; eauto].
  destruct (map_result (dns_row zone_name) items) as [table_rows|e] eqn:Hrows;
    [|right; eauto].
  left. exists items, table_rows. repeat split. exact Hrows.
Qed.

Lemma display_dns_table_raises (account_name zone_name records : value)
    (items : list value) (r : value) (e : exn) :
  Py.iter records = Ok items -> In r items -> dns_row zone_name r = Raise e ->
  exists e', display_dns_table account_name zone_name records = ([], Raise e').
Proof.
  intros Hi Hin Hr.
  destruct (map_result_raises _ _ _ _ Hin Hr) as [e' He'].
  exists e'. unfold display_dns_table, bind, lift. now rewrite Hi, He'.
Qed.

(* ================================================================== *)
(** ** Orchestrator: the walk *)
(* ================================================================== *)

Lemma walk_app (a b : trace) : walk (a ++ b) = walk a ++ walk b.
Proof. unfold walk. apply flat_map_app. Qed.

Lemma Prefix_nil {A} (b : list A) : Prefix [] b.
Proof. now exists b. Qed.

Lemma Prefix_refl {A} (a : list A) : Prefix a a.
Proof. exists []. now rewrite app_nil_r. Qed.

Lemma Prefix_app {A} (a b c : list A) : Prefix b c -> Prefix (a ++ b) (a ++ c).
Proof. intros [x ->]. exists x. now rewrite app_assoc. Qed.

Lemma Prefix_app_r {A} (a b c : list A) : Prefix a b -> Prefix a (b ++ c).
Proof. intros [x ->]. exists (x ++ c). now rewrite app_assoc. Qed.

Lemma bind_ok {A B} (c : M A) (k : A -> M B) t a t' r :
  c = (t, Ok a) -> k a = (t', r) -> bind c k = (t ++ t', r).
Proof. intros -> H. unfold bind. now rewrite H. Qed.

Lemma bind_raise {A B} (c : M A) (k : A -> M B) t e :
  c = (t, Raise e) -> bind c k = (t, Raise e).
Proof. now intros ->. Qed.

Lemma bind_lift_ok {A B} (a : A) (k : A -> M B) : bind (lift (Ok a)) k = k a.
Proof. unfold bind, lift. now destruct (k a). Qed.

Lemma bind_lift_raise {A B} (e : exn) (k : A -> M B) :
  bind (lift (Raise e)) k = lift (Raise e).
Proof. reflexivity. Qed.

(** *** The three URLs never coincide with a DNS-records URL of another kind *)

Lemma accounts_url_not_dns (zone_id : value) :
  accounts_url <> dns_records_url zone_id.
Proof. unfold accounts_url, dns_records_url, API_ENDPOINT. simpl. congruence. Qed.

Lemma zones_url_not_dns (account_id zone_id : value) :
  zones_url account_id <> dns_records_url zone_id.
Proof. unfold zones_url, dns_records_url, API_ENDPOINT. simpl. congruence. Qed.

(** *** The fetch operations: one request each *)

Ltac one_request_tac :=
  split; [reflexivity | simpl; intros u [H|H]; [congruence | ];
                        try (destruct H as [H|H]; [congruence|]); destruct H].

Lemma get_accounts_spec (api : Api) :
  exists t, get_accounts api = (t, fetch_result api accounts_url)
            /\ one_request accounts_url t.
Proof.
  unfold get_accounts, fetch_result, requests_get, json_result, logger_error,
    bind, emit, lift, ret, and_then.
  destruct (api accounts_url) as [r|e]; simpl.
  - destruct (status_code r =? 200)%Z; simpl.
    + destruct (json r) as [body|e]; simpl.
      * destruct (Py.get body "result" (VList [])); simpl;
          eexists; (split; [reflexivity | one_request_tac]).
      * eexists; (split; [reflexivity | one_request_tac]).
    + eexists; (split; [reflexivity | one_request_tac]).
  - eexists; (split; [reflexivity | one_request_tac]).
Qed.

Lemma get_zones_spec (api : Api) (account_id : value) :
  exists t, get_zones api account_id = (t, fetch_result api (zones_url account_id))
            /\ one_request (zones_url account_id) t.
Proof.
  unfold get_zones, fetch_result, requests_get, json_result, logger_error,
    bind, emit, lift, ret, and_then.
  destruct (api (zones_url account_id)) as [r|e]; simpl.
  - destruct (status_code r =? 200)%Z; simpl.
    + destruct (json r) as [body|e]; simpl.
      * destruct (Py.get body "result" (VList [])); simpl;
          eexists; (split; [reflexivity | one_request_tac]).
      * eexists; (split; [reflexivity | one_request_tac]).
    + eexists; (split; [reflexivity | one_request_tac]).
  - eexists; (split; [reflexivity | one_request_tac]).
Qed.

Lemma get_dns_records_spec (api : Api) (zone_id : value) :
  exists t, get_dns_records api zone_id
            = (t, fetch_result api (dns_records_url zone_id))
            /\ one_request (dns_records_url zone_id) t.
Proof.
  unfold get_dns_records, fetch_result, requests_get, json_result, logger_error,
    bind, emit, lift, ret, and_then.
  destruct (api (dns_records_url zone_id)) as [r|e]; simpl.
  - destruct (status_code r =? 200)%Z; simpl.
    + destruct (json r) as [body|e]; simpl.
      * destruct (Py.get body "result" (VList [])); simpl;
          eexists; (split; [reflexivity | one_request_tac]).
      * eexists; (split; [reflexivity | one_request_tac]).
    + eexists; (split; [reflexivity | one_request_tac]).
  - eexists; (split; [reflexivity | one_request_tac]).
Qed.

(** *** The two guards of a body are [included] *)

Lemma zone_body_included (api : Api) (env_zones : option (list string)) (args : Args)
    (account_name zone : value) :
  zone_body api env_zones args account_name zone
  = (zone_name <- lift (Py.get zone "name" VNone) ;;
     zone_id <- lift (Py.get zone "id" VNone) ;;
     go <- lift (included env_zones (args_zone args) zone_name) ;;
     if go : bool then
       records <- get_dns_records api zone_id ;;
       display_dns_table account_name zone_name records
     else ret tt).
Proof.
  unfold zone_body, included.
  destruct (Py.get zone "name" VNone) as [zone_name|e];
    rewrite ?bind_lift_ok, ?bind_lift_raise; [|reflexivity].
  destruct (Py.get zone "id" VNone) as [zone_id|e];
    rewrite ?bind_lift_ok, ?bind_lift_raise; [|reflexivity].
  destruct (env_rejects env_zones zone_name) as [[|]|e]; cbn [and_then];
    rewrite ?bind_lift_ok, ?bind_lift_raise; try reflexivity.
  destruct (cli_rejects (args_zone args) zone_name) as [[|]|e]; cbn [and_then negb];
    rewrite ?bind_lift_ok, ?bind_lift_raise; reflexivity.
Qed.

Lemma account_body_included (api : Api) (env_accounts env_zones : option (list string))
    (args : Args) (account : value) :
  account_body api env_accounts env_zones args account
  = (account_name <- lift (Py.get account "name" VNone) ;;
     account_id <- lift (Py.get account "id" VNone) ;;
     go <- lift (included env_accounts (args_account args) account_name) ;;
     if go : bool then
       zones <- get_zones api account_id ;;
       zone_items <- lift (Py.iter zones) ;;
       for_each zone_items (zone_body api env_zones args account_name)
     else ret tt).
Proof.
  unfold account_body, included.
  destruct (Py.get account "name" VNone) as [account_name|e];
    rewrite ?bind_lift_ok, ?bind_lift_raise; [|reflexivity].
  destruct (Py.get account "id" VNone) as [account_id|e];
    rewrite ?bind_lift_ok, ?bind_lift_raise; [|reflexivity].
  destruct (env_rejects env_accounts account_name) as [[|]|e]; cbn [and_then];
    rewrite ?bind_lift_ok, ?bind_lift_raise; try reflexivity.
  destruct (cli_rejects (args_account args) account_name) as [[|]|e];
    cbn [and_then negb]; rewrite ?bind_lift_ok, ?bind_lift_raise; reflexivity.
Qed.

(** *** Each level of the walk *)

(** Settle a [bind] whose first computation and continuation are known. *)
Ltac run_bind Hc Hk :=
  match goal with
  | |- context [bind ?c ?k] => rewrite (bind_ok c k _ _ _ _ Hc Hk)
  end.

Ltac stop_bind Hc :=
  match goal with
  | |- context [bind ?c ?k] => rewrite (bind_raise c k _ _ Hc)
  end.

Lemma for_each_keeps {A} (api : Api) (body : A -> M unit) (f : A -> list step)
    (l : list A) :
  (forall x, keeps api (body x) (f x)) ->
  keeps api (for_each l body) (flat_map f l).
Proof.
  intros Hbody. induction l as [|x l IH].
  - split; [apply Prefix_refl|]. intros _. split; [reflexivity | intros ? []].
  - cbn [for_each flat_map].
    destruct (Hbody x) as [Hpx Hokx]. destruct IH as [Hpl Hokl].
    destruct (body x) as [t1 [[]|e]] eqn:Hx; cbn [fst snd] in *.
    + destruct (Hokx eq_refl) as [Hwx Htx].
      destruct (for_each l body) as [t2 r2] eqn:Hl; cbn [fst snd] in *.
      unfold keeps, bind; cbn [fst snd].
      rewrite walk_app, Hwx. split.
      * now apply Prefix_app.
      * intros Hr. destruct (Hokl Hr) as [Hwl Htl]. split; [now rewrite Hwl|].
        intros zone_id Hin. apply in_app_or in Hin as [Hin|Hin]; auto.
    + unfold keeps, bind; cbn [fst snd]. split.
      * now apply Prefix_app_r.
      * discriminate.
Qed.

Lemma zone_body_keeps (api : Api) (env_zones : option (list string)) (args : Args)
    (account_name zone : value) :
  keeps api (zone_body api env_zones args account_name zone)
        (zone_walk env_zones args account_name zone).
Proof.
  rewrite zone_body_included. unfold zone_walk, survives, field.
  destruct zone as [| | | | |d];
    try (split; [apply Prefix_nil | discriminate]).
  cbn [Py.get].
  set (zone_name := match Py.dict_get d "name" with Some v => v | None => VNone end).
  set (zone_id := match Py.dict_get d "id" with Some v => v | None => VNone end).
  rewrite !bind_lift_ok.
  destruct (included env_zones (args_zone args) zone_name) as [[|]|e];
    rewrite ?bind_lift_ok, ?bind_lift_raise.
  - destruct (get_dns_records_spec api zone_id) as (t1 & Hget & Hw1 & Hu1).
    destruct (fetch_result api (dns_records_url zone_id)) as [records|e] eqn:Hf.
    + destruct (display_dns_table_cases account_name zone_name records)
        as [(items & table_rows & Hi & Hrows & Hd) | (e & Hd)].
      * run_bind Hget Hd. unfold keeps; cbn [fst snd].
        rewrite walk_app, Hw1. split; [apply Prefix_refl|].
        intros _. split; [reflexivity|].
        intros zid Hin. apply in_app_or in Hin as [Hin|Hin].
        -- rewrite (Hu1 _ Hin). exists records, items.
           split; [exact Hf|]. split; [exact Hi|].
           intros r Hr.
           destruct (map_result_ok_all _ _ _ Hrows r Hr) as [row Hrow].
           now apply dns_row_ok_timestamps in Hrow.
        -- simpl in Hin. destruct Hin as [Hin|[Hin|[]]]; discriminate.
      * run_bind Hget Hd. unfold keeps; cbn [fst snd].
        rewrite app_nil_r, Hw1. split; [|discriminate].
        now exists [Render (table_title account_name zone_name)].
    + stop_bind Hget. unfold keeps; cbn [fst snd]. rewrite Hw1.
      split; [|discriminate].
      now exists [Render (table_title account_name zone_name)].
  - split; [apply Prefix_refl|]. intros _. split; [reflexivity | intros ? []].
  - split; [apply Prefix_nil | discriminate].
Qed.

Lemma account_body_keeps (api : Api) (env_accounts env_zones : option (list string))
    (args : Args) (account : value) :
  keeps api (account_body api env_accounts env_zones args account)
        (account_walk api env_accounts env_zones args account).
Proof.
  rewrite account_body_included. unfold account_walk, survives, field, children.
  destruct account as [| | | | |d];
    try (split; [apply Prefix_nil | discriminate]).
  cbn [Py.get].
  set (account_name := match Py.dict_get d "name" with Some v => v | None => VNone end).
  set (account_id := match Py.dict_get d "id" with Some v => v | None => VNone end).
  rewrite !bind_lift_ok.
  destruct (included env_accounts (args_account args) account_name) as [[|]|e];
    rewrite ?bind_lift_ok, ?bind_lift_raise.
  - destruct (get_zones_spec api account_id) as (t1 & Hget & Hw1 & Hu1).
    destruct (fetch_result api (zones_url account_id)) as [zones|e] eqn:Hf.
    + destruct (Py.iter zones) as [zone_items|e] eqn:Hi.
      * pose proof (for_each_keeps api _ _ zone_items
                      (zone_body_keeps api env_zones args account_name))
          as [Hp Hok].
        destruct (for_each zone_items (zone_body api env_zones args account_name))
          as [t2 r2] eqn:Hl; cbn [fst snd] in *.
        assert (Hb : (zone_items0 <- lift (Py.iter zones) ;;
                      for_each zone_items0
                        (zone_body api env_zones args account_name)) = (t2, r2))
          by (now rewrite Hi, bind_lift_ok).
        run_bind Hget Hb. unfold keeps; cbn [fst snd].
        rewrite walk_app, Hw1. split; [now apply (Prefix_app [_])|].
        intros Hr. destruct (Hok Hr) as [Hw2 Ht2]. split; [now rewrite Hw2|].
        intros zid Hin. apply in_app_or in Hin as [Hin|Hin]; [|auto].
        apply Hu1 in Hin. symmetry in Hin. now apply zones_url_not_dns in Hin.
      * assert (Hb : (zone_items <- lift (Py.iter zones) ;;
                      for_each zone_items
                        (zone_body api env_zones args account_name))
                     = ([], Raise e))
          by (now rewrite Hi).
        run_bind Hget Hb. unfold keeps; cbn [fst snd].
        rewrite app_nil_r, Hw1. split; [|discriminate].
        cbn [flat_map]. apply Prefix_refl.
    + stop_bind Hget. unfold keeps; cbn [fst snd]. rewrite Hw1.
      split; [|discriminate]. cbn [flat_map]. apply Prefix_refl.
  - split; [apply Prefix_refl|]. intros _. split; [reflexivity | intros ? []].
  - split; [apply Prefix_nil | discriminate].
Qed.

Lemma truthy_false_iter (v : value) (items : list value) :
  Py.truthy v = false -> Py.iter v = Ok items -> items = [].
Proof.
  destruct v as [| | |s|l|d]; simpl; try discriminate.
  - destruct s; [|discriminate]. now intros _ [= <-].
  - destruct l; [|discriminate]. now intros _ [= <-].
  - destruct d; [|discriminate]. now intros _ [= <-].
Qed.

Lemma main_keeps (args : Args) (environ : string -> option string) (api : Api) :
  keeps api (main args environ api) (expected_walk args environ api).
Proof.
  unfold main, expected_walk, children.
  set (body := account_body api (env_filter (environ "ACCOUNTS"))
                 (env_filter (environ "ZONES")) args).
  destruct (get_accounts_spec api) as (t1 & Hget & Hw1 & Hu1).
  destruct (fetch_result api accounts_url) as [accounts|e] eqn:Hf.
  - destruct (Py.truthy accounts) eqn:Htr.
    + destruct (Py.iter accounts) as [account_items|e] eqn:Hi.
      * pose proof (for_each_keeps api _ _ account_items
                      (account_body_keeps api (env_filter (environ "ACCOUNTS"))
                         (env_filter (environ "ZONES")) args))
          as [Hp Hok].
        fold body in Hp, Hok.
        destruct (for_each account_items body) as [t2 r2] eqn:Hl; cbn [fst snd] in *.
        assert (Hb : (if negb (Py.truthy accounts) then emit (Print no_accounts_notice)
                      else account_items0 <- lift (Py.iter accounts) ;;
                           for_each account_items0 body) = (t2, r2))
          by (now rewrite Htr, Hi, bind_lift_ok).
        run_bind Hget Hb. unfold keeps; cbn [fst snd].
        rewrite walk_app, Hw1. split; [now apply (Prefix_app [_])|].
        intros Hr. destruct (Hok Hr) as [Hw2 Ht2]. split; [now rewrite Hw2|].
        intros zid Hin. apply in_app_or in Hin as [Hin|Hin]; [|auto].
        apply Hu1 in Hin. symmetry in Hin. now apply accounts_url_not_dns in Hin.
      * assert (Hb : (if negb (Py.truthy accounts) then emit (Print no_accounts_notice)
                      else account_items <- lift (Py.iter accounts) ;;
                           for_each account_items body)
                     = ([], Raise e))
          by (now rewrite Htr, Hi).
        run_bind Hget Hb. unfold keeps; cbn [fst snd].
        rewrite app_nil_r, Hw1. split; [|discriminate].
        cbn [flat_map]. apply Prefix_refl.
    + assert (Hb : (if negb (Py.truthy accounts) then emit (Print no_accounts_notice)
                    else account_items <- lift (Py.iter accounts) ;;
                         for_each account_items body)
                   = ([Print no_accounts_notice], Ok tt))
        by (now rewrite Htr).
      run_bind Hget Hb. unfold keeps; cbn [fst snd].
      rewrite walk_app, Hw1. cbn [walk flat_map steps_of app].
      assert (Hnil : match Py.iter accounts with Ok items => items | Raise _ => [] end = []).
      { destruct (Py.iter accounts) eqn:Hi; [|reflexivity].
        eapply truthy_false_iter; eauto. }
      rewrite Hnil. cbn [flat_map]. split; [apply Prefix_refl|].
      intros _. split; [reflexivity|].
      intros zid Hin. apply in_app_or in Hin as [Hin|Hin].
      * apply Hu1 in Hin. symmetry in Hin. now apply accounts_url_not_dns in Hin.
      * destruct Hin as [Hin|[]]. discriminate.
  - stop_bind Hget. unfold keeps; cbn [fst snd]. rewrite Hw1.
    split; [|discriminate]. cbn [flat_map]. apply Prefix_refl.
Qed.

(* ================================================================== *)
(** ** The strings [strptime] accepts *)
(* ================================================================== *)

Module DatetimeAccept.
Import Datetime.
Import DatetimeFacts.

(** *** What a match says about the text *)

Lemma match_seq_sound (cs : list cls) (s g r : string) :
  match_seq cs s = Some (g, r) ->
  s = (g ++ r)%string /\ match_seq cs g = Some (g, EmptyString).
Proof.
  revert s g r. induction cs as [|c cs IH]; intros s g r; cbn [match_seq].
  - intros [= <- <-]. split; reflexivity.
  - destruct s as [|a s']; [discriminate|].
    destruct (c a) eqn:Hc; [|discriminate].
    destruct (match_seq cs s') as [[m rest]|] eqn:Hm; [|discriminate].
    intros [= <- <-]. destruct (IH _ _ _ Hm) as [-> Hg].
    split; [reflexivity|]. cbn [match_seq]. now rewrite Hc, Hg.
Qed.

Lemma match_alts_sound (d : directive) (s g r : string) :
  In (g, r) (match_alts d s) -> s = (g ++ r)%string /\ takes d g.
Proof.
  unfold match_alts. intros H. apply in_flat_map in H as (cs & Hcs & Hin).
  destruct (match_seq cs s) as [[g' r']|] eqn:Hm; [|contradiction].
  destruct Hin as [[= -> ->]|[]].
  apply match_seq_sound in Hm as [-> Hg]. split; [reflexivity|].
  exists cs. split; assumption.
Qed.

Lemma matches_sound (p : list directive) :
  forall s gs r,
    In (gs, r) (matches p s) ->
    s = (concat_all gs ++ r)%string /\ Forall2 takes p gs.
Proof.
  induction p as [|d p IH]; intros s gs r; cbn [matches].
  - intros [[= <- <-]|[]]. split; [reflexivity | constructor].
  - intros H. apply in_flat_map in H as ([g r1] & Hd & H).
    apply in_map_iff in H as ([gs' r'] & Heq & Hp).
    cbn [fst snd] in Heq, Hp. injection Heq as <- <-.
    apply match_alts_sound in Hd as [-> Hg].
    apply IH in Hp as [-> Hgs]. split.
    + cbn [concat_all]. now rewrite append_assoc.
    + now constructor.
Qed.

(** What [strptime] returns was read from a string it accepts. *)
Lemma strptime_sound (s : string) (dt : datetime) :
  strptime s = Ok dt -> reads_as s dt.
Proof.
  unfold strptime, re_match.
  destruct (matches format_regex s) as [|[gs rest] tl] eqn:Hm; [discriminate|].
  assert (Hin : In (gs, rest) (matches format_regex s)) by (rewrite Hm; now left).
  apply matches_sound in Hin as [Hs Hgs].
  do 14 (destruct gs as [|? gs]; [discriminate|]).
  destruct gs; [|discriminate].
  destruct rest; [|discriminate].
  match goal with
  | |- context [valid ?x] => destruct (valid x) eqn:Hv
  end; [|discriminate].
  intros [= <-]. eexists. split; [exact Hgs|].
  split; [now rewrite append_empty_r in Hs|].
  split; [reflexivity | exact Hv].
Qed.

(** *** What the text says about the match *)

Lemma match_seq_extend (cs : list cls) :
  forall g r,
    match_seq cs g = Some (g, EmptyString) ->
    match_seq cs (g ++ r)%string = Some (g, r).
Proof.
  induction cs as [|c cs IH]; intros g r; cbn [match_seq].
  - intros [= <-]. reflexivity.
  - destruct g as [|a g']; [discriminate|]. cbn [append].
    destruct (c a); [|discriminate].
    destruct (match_seq cs g') as [[m rest]|] eqn:Hm; [|discriminate].
    intros [= -> ->]. now rewrite (IH _ r Hm).
Qed.

Lemma in_all_chars (a : ascii) : In a all_chars.
Proof.
  unfold all_chars. rewrite <- (ascii_nat_embedding a).
  apply in_map, in_seq. pose proof (nat_ascii_bounded a). lia.
Qed.

(** The characters of a class, by cases. *)
Lemma class_cases (c : cls) (a : ascii) :
  c a = true -> In a (filter c all_chars).
Proof. intros H. apply filter_In. split; [apply in_all_chars | exact H]. Qed.

Lemma match_seq_one (c1 : cls) (g : string) :
  match_seq [c1] g = Some (g, EmptyString) ->
  exists a, g = String a EmptyString /\ c1 a = true.
Proof.
  cbn [match_seq]. destruct g as [|a g]; [discriminate|].
  destruct (c1 a) eqn:H1; [|discriminate].
  intros [= ->]. eauto.
Qed.

Lemma match_seq_two (c1 c2 : cls) (g : string) :
  match_seq [c1; c2] g = Some (g, EmptyString) ->
  exists a b, g = String a (String b EmptyString) /\ c1 a = true /\ c2 b = true.
Proof.
  cbn [match_seq]. destruct g as [|a g]; [discriminate|].
  destruct (c1 a) eqn:H1; [|discriminate].
  destruct g as [|b g]; [discriminate|].
  destruct (c2 b) eqn:H2; [|discriminate].
  intros [= ->]. eauto.
Qed.

(** The text a literal takes is one character, in either case. *)
Lemma takes_literal (sep : ascii) (g : string) :
  takes (literal sep) g ->
  exists c, g = String c EmptyString /\ nocase sep c = true.
Proof.
  intros (cs & [<-|[]] & Hm). now apply match_seq_one.
Qed.

Lemma literal_takes_first (sep c : ascii) (r : string) :
  nocase sep c = true ->
  match_alts (literal sep) (String c r) = [(String c EmptyString, r)].
Proof.
  intros H. unfold literal, match_alts. cbn [flat_map match_seq].
  now rewrite H.
Qed.

(** One character of a class: every case of it. *)
Ltac chars_of H :=
  apply class_cases in H; vm_compute in H;
  repeat (destruct H as [<-|H]); try contradiction.

(** A directive of one or two characters before its separator: every
    text it takes, and the separator in either case. *)
Ltac each_text :=
  intros g c r (cs & Hcs & Hm) Hc;
  repeat (destruct Hcs as [<-|Hcs]); try contradiction;
  first [ apply match_seq_two in Hm as (a & b & -> & Ha & Hb); chars_of Ha; chars_of Hb
        | apply match_seq_one in Hm as (a & -> & Ha); chars_of Ha ];
  chars_of Hc;
  match goal with
  | |- exists tl, ?l = _ =>
      let l' := eval vm_compute in l in change l with l'
  end;
  eexists; reflexivity.

Lemma re_m_takes_first : takes_first re_m "-".
Proof. each_text. Qed.

Lemma re_d_takes_first : takes_first re_d "T".
Proof. each_text. Qed.

Lemma re_H_takes_first : takes_first re_H ":".
Proof. each_text. Qed.

Lemma re_M_takes_first : takes_first re_M ":".
Proof. each_text. Qed.

Lemma re_S_takes_first : takes_first re_S ".".
Proof. each_text. Qed.

Lemma re_Y_takes_first : takes_first re_Y "-".
Proof.
  intros g c r (cs & [<-|[]] & Hm) _.
  unfold match_alts, re_Y. cbn [flat_map].
  rewrite (match_seq_extend _ _ _ Hm). cbn [app]. eauto.
Qed.

(** A run of digits longer than the digits there are does not match. *)
Lemma match_seq_digits_short (k : nat) :
  forall j g c r,
    match_seq (repeat digit k) g = Some (g, EmptyString) ->
    (k < j)%nat -> digit c = false ->
    match_seq (repeat digit j) (g ++ String c r)%string = None.
Proof.
  induction k as [|k IH]; intros j g c r Hm Hj Hc;
    (destruct j as [|j]; [lia|]); cbn [repeat match_seq] in Hm |- *.
  - injection Hm as <-. cbn [append]. now rewrite Hc.
  - destruct g as [|a g']; [discriminate|]. cbn [append].
    destruct (digit a); [|discriminate].
    destruct (match_seq (repeat digit k) g') as [[m rest]|] eqn:Hm'; [|discriminate].
    injection Hm as -> ->.
    rewrite (IH j g' c r Hm') by (assumption || lia). reflexivity.
Qed.

Lemma re_f_takes_first : takes_first re_f "Z".
Proof.
  intros g c r (cs & Hcs & Hm) Hc.
  assert (Hd : digit c = false) by (chars_of Hc; reflexivity).
  change re_f with (map (repeat digit) [6; 5; 4; 3; 2; 1]%nat) in Hcs |- *.
  unfold match_alts. cbn [map flat_map].
  cbn [map In] in Hcs.
  repeat (destruct Hcs as [<-|Hcs]); try contradiction;
    rewrite ?(fun j H => match_seq_digits_short _ j g c r Hm H Hd) by lia;
    rewrite (match_seq_extend _ _ _ Hm); cbn [app]; eauto.
Qed.

(** A directive and its separator, before the rest of the expression. *)
Lemma field_then_literal (d : directive) (sep : ascii) (p : list directive)
    (g l s : string) (gs : list string) (r : string) tl :
  takes_first d sep -> takes d g -> takes (literal sep) l ->
  matches p s = (gs, r) :: tl ->
  exists tl', matches (d :: literal sep :: p) (g ++ l ++ s)%string
              = (g :: l :: gs, r) :: tl'.
Proof.
  intros Hd Hg Hl Hp.
  apply takes_literal in Hl as (c & -> & Hc). cbn [append].
  destruct (Hd g c s Hg Hc) as [tl1 H1].
  assert (H2 : exists tl2, matches (literal sep :: p) (String c s)
                            = (String c EmptyString :: gs, r) :: tl2).
  { eapply matches_head; [now apply literal_takes_first | exact Hp]. }
  destruct H2 as [tl2 H2].
  eapply matches_head; eassumption.
Qed.

(** The first way the expression matches a string made of texts its
    directives take is those texts, and all of the string. *)
Lemma matches_texts (gY l1 gm l2 gd l3 gH l4 gM l5 gS l6 gf l7 : string) :
  takes re_Y gY -> takes (literal "-") l1 -> takes re_m gm ->
  takes (literal "-") l2 -> takes re_d gd -> takes (literal "T") l3 ->
  takes re_H gH -> takes (literal ":") l4 -> takes re_M gM ->
  takes (literal ":") l5 -> takes re_S gS -> takes (literal ".") l6 ->
  takes re_f gf -> takes (literal "Z") l7 ->
  exists tl,
    matches format_regex
      (concat_all [gY; l1; gm; l2; gd; l3; gH; l4; gM; l5; gS; l6; gf; l7])
    = ([gY; l1; gm; l2; gd; l3; gH; l4; gM; l5; gS; l6; gf; l7], EmptyString) :: tl.
Proof.
  intros HY H1 Hm H2 Hd H3 HH H4 HM H5 HS H6 Hf H7.
  unfold format_regex. cbn [concat_all].
  assert (E0 : matches [] EmptyString = ([], EmptyString) :: []) by reflexivity.
  destruct (field_then_literal _ _ _ _ _ _ _ _ _ re_f_takes_first Hf H7 E0) as [t1 E1].
  destruct (field_then_literal _ _ _ _ _ _ _ _ _ re_S_takes_first HS H6 E1) as [t2 E2].
  destruct (field_then_literal _ _ _ _ _ _ _ _ _ re_M_takes_first HM H5 E2) as [t3 E3].
  destruct (field_then_literal _ _ _ _ _ _ _ _ _ re_H_takes_first HH H4 E3) as [t4 E4].
  destruct (field_then_literal _ _ _ _ _ _ _ _ _ re_d_takes_first Hd H3 E4) as [t5 E5].
  destruct (field_then_literal _ _ _ _ _ _ _ _ _ re_m_takes_first Hm H2 E5) as [t6 E6].
  exact (field_then_literal _ _ _ _ _ _ _ _ _ re_Y_takes_first HY H1 E6).
Qed.

Lemma matches_complete (gs : list string) :
  Forall2 takes format_regex gs ->
  exists tl, matches format_regex (concat_all gs) = (gs, EmptyString) :: tl.
Proof.
  unfold format_regex at 1. intros H.
  repeat match goal with
         | H : Forall2 takes (_ :: _) _ |- _ => inversion H; subst; clear H
         | H : Forall2 takes [] _ |- _ => inversion H; subst; clear H
         end.
  now apply matches_texts.
Qed.

(** [strptime] returns the date and time a string it accepts stands for. *)
Lemma strptime_complete (s : string) (dt : datetime) :
  reads_as s dt -> strptime s = Ok dt.
Proof.
  intros (gs & Hgs & -> & Hdt & Hv).
  destruct (matches_complete gs Hgs) as [tl Hm].
  unfold strptime, re_match. rewrite Hm.
  do 14 (destruct gs as [|? gs]; [discriminate|]).
  destruct gs; [|discriminate].
  cbn [datetime_of] in Hdt. injection Hdt as Hdt. cbv zeta.
  match goal with
  | |- context [valid ?x] => assert (Hx : x = dt) by exact Hdt; rewrite Hx
  end.
  now rewrite Hv.
Qed.

End DatetimeAccept.

(** [format_time] on a string: it reformats the strings [strptime]
    accepts, and raises [ValueError] on every other. *)
Lemma format_time_accepts (s : string) (dt : Datetime.datetime) :
  reads_as s dt -> format_time (VStr s) = Ok (Datetime.strftime dt).
Proof.
  intros H. unfold format_time.
  now rewrite (DatetimeAccept.strptime_complete s dt H).
Qed.

Lemma format_time_rejects (s : string) :
  ~ strptime_accepts s -> format_time (VStr s) = Raise ValueError.
Proof.
  intros H. destruct (format_time (VStr s)) as [out|e] eqn:Hf.
  - exfalso. apply H.
    apply format_time_ok_inv in Hf as (s' & dt & [= <-] & Hs & _ & _).
    exists dt. now apply DatetimeAccept.strptime_sound.
  - now rewrite (format_time_str_raises s e Hf).
Qed.

(** A timestamp written without leading zeros and in lower case is
    accepted; a word is not. *)
Example reads_as_lenient :
  reads_as "2024-1-5t1:2:3.5z" (Datetime.mkDatetime 2024 1 5 1 2 3 500000).
Proof. apply DatetimeAccept.strptime_sound. reflexivity. Qed.

Example word_not_accepted : ~ strptime_accepts "yesterday".
Proof.
  intros [dt H]. apply DatetimeAccept.strptime_complete in H. discriminate H.
Qed.

(* ================================================================== *)
(** ** The top-level handler *)
(* ================================================================== *)

(** A run that returns ends with status 0 and the events of [main]; a
    run that raises ends in the handler. *)
Lemma script_cases (args : Args) (environ : string -> option string) (api : Api) :
  (snd (main args environ api) = Ok tt
   /\ script args environ api = mkOutcome (fst (main args environ api)) 0)
  \/ reaches_handler args environ api.
Proof.
  unfold reaches_handler, script.
  destruct (main args environ api) as [t [[]|e]]; cbn [fst snd]; eauto.
Qed.

Lemma dns_row_stops (zone_name record : value) :
  (exists e, created_cell record = Raise e) \/ (exists e, modified_cell record = Raise e) ->
  exists e, dns_row zone_name record = Raise e.
Proof.
  intros H. destruct (dns_row zone_name record) as [row|e] eqn:Hrow; [|eauto].
  apply dns_row_ok_timestamps in Hrow as [[c7 H7] [c8 H8]].
  destruct H as [[e He]|[e He]]; congruence.
Qed.

(** A record whose timestamp cell raises, among the records fetched for a
    zone, ends the run in the top-level handler. *)
Lemma bad_record_reaches_handler (args : Args) (environ : string -> option string)
    (api : Api) (zone_id records : value) (items : list value) (r : value) :
  In (HttpGet (dns_records_url zone_id)) (fst (main args environ api)) ->
  fetch_result api (dns_records_url zone_id) = Ok records ->
  Py.iter records = Ok items -> In r items ->
  (exists e, created_cell r = Raise e) \/ (exists e, modified_cell r = Raise e) ->
  reaches_handler args environ api.
Proof.
  intros Hin Hf Hi Hr Hbad.
  destruct (script_cases args environ api) as [[Hok _]|H]; [|exact H].
  exfalso.
  destruct (main_keeps args environ api) as [_ Hk].
  destruct (Hk Hok) as [_ Hts].
  destruct (Hts zone_id Hin) as (records' & items' & Hf' & Hi' & Hall).
  rewrite Hf in Hf'. injection Hf' as <-. rewrite Hi in Hi'. injection Hi' as <-.
  destruct (Hall r Hr) as [[c7 H7] [c8 H8]].
  destruct Hbad as [[e He]|[e He]]; congruence.
Qed.

(* ================================================================== *)
(** ** Timestamp formatting *)
(* ================================================================== *)

(** C5 as the specification states it fails, both ways: a text that is not
    of the form [YYYY-MM-DDTHH:MM:SS.ffffffZ] is parsed and reformatted,
    and a text of that form that names no calendar day raises. *)
Lemma format_time_is_not_form_exact :
  (iso_form "2024-1-5T1:2:3.5Z" = false
   /\ format_time (VStr "2024-1-5T1:2:3.5Z") = Ok "2024-01-05 01:02")
  /\ (iso_form "2023-02-30T10:00:00.000000Z" = true
      /\ format_time (VStr "2023-02-30T10:00:00.000000Z") = Raise ValueError).
Proof. repeat split; reflexivity. Qed.

(** C5, amended.  [format_time] returns [YYYY-MM-DD HH:MM] for every
    timestamp [YYYY-MM-DDTHH:MM:SS.ffffffZ] whose fields are a date, in a
    year from 1000 to 9999, and a time of day; and so it does, from the
    year 1000, for every string [strptime] accepts: one made of a text for
    each directive and literal of the format, where the month, day, hour,
    minute and second may be written without the leading zero, the
    fraction on one to six digits and [T] and [Z] in lower case, and which
    stands for a date and a time that exist.  It returns for these strings
    and for no other: on every other string it raises [ValueError].  The
    error is not caught by the presenter, which then prints no table, and
    a fetched record with a timestamp that raises ends the run in the
    top-level handler. *)
Theorem format_time_reformats_or_raises :
  (forall y mo d h mi s us,
      valid_fields y mo d h mi s us ->
      format_time (VStr (iso_timestamp y mo d h mi s us))
      = Ok (Datetime.zfill 4 y ++ "-" ++ Datetime.zfill 2 mo ++ "-"
            ++ Datetime.zfill 2 d ++ " " ++ Datetime.zfill 2 h ++ ":"
            ++ Datetime.zfill 2 mi)%string)
  /\ (forall s dt,
         reads_as s dt -> (1000 <= Datetime.year dt)%Z ->
         format_time (VStr s) = Ok (Datetime.strftime dt))
  /\ (forall s, strptime_accepts s -> exists out, format_time (VStr s) = Ok out)
  /\ (forall s, ~ strptime_accepts s -> format_time (VStr s) = Raise ValueError)
  /\ (forall s,
         (exists out, format_time (VStr s) = Ok out)
         \/ format_time (VStr s) = Raise ValueError)
  /\ (forall account_name zone_name records items d v e,
         Py.iter records = Ok items -> In (VDict d) items ->
         Py.dict_get d "created_on" = Some v \/ Py.dict_get d "modified_on" = Some v ->
         format_time v = Raise e ->
         exists e', display_dns_table account_name zone_name records = ([], Raise e'))
  /\ (forall args environ api zone_id records items d v e,
         In (HttpGet (dns_records_url zone_id)) (fst (main args environ api)) ->
         fetch_result api (dns_records_url zone_id) = Ok records ->
         Py.iter records = Ok items -> In (VDict d) items ->
         Py.dict_get d "created_on" = Some v \/ Py.dict_get d "modified_on" = Some v ->
         format_time v = Raise e ->
         reaches_handler args environ api).
Proof.
  assert (Hcell : forall d v e,
             Py.dict_get d "created_on" = Some v \/ Py.dict_get d "modified_on" = Some v ->
             format_time v = Raise e ->
             (exists e, created_cell (VDict d) = Raise e)
             \/ (exists e, modified_cell (VDict d) = Raise e)).
  { intros d v e [H|H] Hf; [left | right]; exists e.
    - now apply created_cell_raises with v.
    - now apply modified_cell_raises with v. }
  split; [exact format_time_iso|].
  split; [intros s dt H _; now apply format_time_accepts|].
  split; [intros s [dt H]; rewrite (format_time_accepts s dt H); eauto|].
  split; [exact format_time_rejects|].
  split; [|split].
  - intros s. destruct (format_time (VStr s)) as [out|e] eqn:H.
    + left. eauto.
    + right. now rewrite (format_time_str_raises s e H).
  - intros account_name zone_name records items d v e Hi Hin Hv Hf.
    destruct (dns_row_stops zone_name (VDict d) (Hcell d v e Hv Hf)) as [e' He'].
    eapply display_dns_table_raises; eauto.
  - intros args environ api zone_id records items d v e Hin Hfr Hi Hr Hv Hf.
    eapply bad_record_reaches_handler; eauto.
Qed.

(** [format_time_reformats_or_raises] on the first second of 2014, 05:20. *)
Lemma format_time_reformats_or_raises_witness :
  format_time (VStr "2014-01-01T05:20:00.123450Z") = Ok "2014-01-01 05:20".
Proof.
  apply (proj1 format_time_reformats_or_raises 2014 1 1 5 20 0 123450)%Z.
  unfold valid_fields. change (Datetime.days_in_month 2014 1) with 31%Z. lia.
Defined.

(* ================================================================== *)
(** ** Records with missing fields *)
(* ================================================================== *)

(** C10.  In a record, the fields [type], [name], [content], [priority],
    [proxied], [ttl] and [comment] are read with a default, so that a
    record that lacks any of them still gives a row: the cell of a missing
    field is the empty text, [-] for the priority and [False] for the
    proxy.  [created_on] and [modified_on] are read by indexing: a record
    that lacks one of them raises [KeyError] for it, the presenter prints
    no table, and the run ends in the top-level handler. *)
Theorem record_defaults_and_timestamp_keys :
  forall (zone_name : value) (d : list (string * value)),
    (absent d "type" -> type_cell (VDict d) = Ok "[white][/white]")
    /\ (absent d "name" -> name_cell zone_name (VDict d) = Ok "[white][/white]")
    /\ (absent d "content" -> content_cell (VDict d) = Ok "[blue][blue]")
    /\ (absent d "priority" -> priority_cell (VDict d) = Ok "-")
    /\ (absent d "proxied" ->
        proxy_cell (VDict d) = Ok "[bright_red]False[/bright_red]")
    /\ (absent d "ttl" -> ttl_cell (VDict d) = Ok "")
    /\ (absent d "comment" -> comment_cell (VDict d) = Ok (VStr ""))
    /\ (forall c7 c8,
           absent_or_str d "type" -> absent_or_str d "name" ->
           absent_or_renderable d "comment" ->
           created_cell (VDict d) = Ok c7 -> modified_cell (VDict d) = Ok c8 ->
           exists c1 c2 c3 c4 c5 c6 c9,
             type_cell (VDict d) = Ok c1 /\ name_cell zone_name (VDict d) = Ok c2
             /\ content_cell (VDict d) = Ok c3 /\ priority_cell (VDict d) = Ok c4
             /\ proxy_cell (VDict d) = Ok c5 /\ ttl_cell (VDict d) = Ok c6
             /\ (absent d "comment" -> c9 = "")
             /\ dns_row zone_name (VDict d) = Ok [c1; c2; c3; c4; c5; c6; c7; c8; c9])
    /\ (absent_or_str d "type" -> absent_or_str d "name" ->
        absent d "created_on" ->
        dns_row zone_name (VDict d) = Raise (KeyError "created_on"))
    /\ (forall c7,
           absent_or_str d "type" -> absent_or_str d "name" ->
           created_cell (VDict d) = Ok c7 -> absent d "modified_on" ->
           dns_row zone_name (VDict d) = Raise (KeyError "modified_on"))
    /\ (forall account_name records items,
           Py.iter records = Ok items -> In (VDict d) items ->
           absent d "created_on" \/ absent d "modified_on" ->
           exists e, display_dns_table account_name zone_name records = ([], Raise e))
    /\ (forall args environ api zone_id records items,
           In (HttpGet (dns_records_url zone_id)) (fst (main args environ api)) ->
           fetch_result api (dns_records_url zone_id) = Ok records ->
           Py.iter records = Ok items -> In (VDict d) items ->
           absent d "created_on" \/ absent d "modified_on" ->
           reaches_handler args environ api).
Proof.
  intros zone_name d.
  assert (Hcell : absent d "created_on" \/ absent d "modified_on" ->
                  (exists e, created_cell (VDict d) = Raise e)
                  \/ (exists e, modified_cell (VDict d) = Raise e)).
  { intros [H|H]; [left | right]; eexists.
    - now apply created_cell_absent.
    - now apply modified_cell_absent. }
  split; [apply type_cell_absent|].
  split; [apply name_cell_absent|].
  split; [apply content_cell_absent|].
  split; [apply priority_cell_absent|].
  split; [apply proxy_cell_absent|].
  split; [apply ttl_cell_absent|].
  split; [apply comment_cell_absent|].
  split; [intros c7 c8; apply dns_row_renders|].
  split; [|split; [|split]].
  - intros Ht Hn Ha. apply dns_row_created_raises; auto.
    now apply created_cell_absent.
  - intros c7 Ht Hn Hc Ha. apply dns_row_modified_raises with c7; auto.
    now apply modified_cell_absent.
  - intros account_name records items Hi Hin Ha.
    destruct (dns_row_stops zone_name (VDict d) (Hcell Ha)) as [e He].
    eapply display_dns_table_raises; eauto.
  - intros args environ api zone_id records items Hin Hf Hi Hr Ha.
    eapply bad_record_reaches_handler; eauto.
Qed.

(** [record_defaults_and_timestamp_keys] on a record without [created_on]. *)
Lemma record_defaults_and_timestamp_keys_witness :
  dns_row (VStr "example.com") Run.undated = Raise (KeyError "created_on").
Proof.
  apply (proj1 (proj2 (proj2 (proj2 (proj2 (proj2 (proj2 (proj2 (proj2
           (record_defaults_and_timestamp_keys (VStr "example.com")
              [("type", VStr "A"); ("name", VStr "www.example.com");
               ("modified_on", VStr Run.ts)])))))))))).
  - exact I.
  - exact I.
  - reflexivity.
Defined.

(* ================================================================== *)
(** ** The walk of a run *)
(* ================================================================== *)

Lemma accounts_url_not_zones (account_id : value) :
  accounts_url <> zones_url account_id.
Proof. unfold accounts_url, zones_url, API_ENDPOINT. simpl. congruence. Qed.

Lemma Fetch_inj (a b : string) : Fetch a = Fetch b -> a = b.
Proof. now intros [= ->]. Qed.

(** Every run starts with the request for the accounts. *)
Lemma main_starts (args : Args) (environ : string -> option string) (api : Api) :
  exists t1 t2,
    fst (main args environ api) = t1 ++ t2 /\ walk t1 = [Fetch accounts_url].
Proof.
  unfold main.
  destruct (get_accounts_spec api) as (t1 & Hget & Hw1 & _).
  destruct (fetch_result api accounts_url) as [accounts|e].
  - match goal with
    | |- context [bind _ ?k] => destruct (k accounts) as [t2 r2] eqn:Hk
    end.
    run_bind Hget Hk. exists t1, t2. auto.
  - stop_bind Hget. exists t1, []. now rewrite app_nil_r.
Qed.

(** Past that request, the walk of the specification never asks for the
    accounts again. *)
Lemma account_walks_no_accounts (api : Api) (env_accounts env_zones : option (list string))
    (args : Args) (l : list value) :
  ~ In (Fetch accounts_url)
       (flat_map (account_walk api env_accounts env_zones args) l).
Proof.
  intros H. apply in_flat_map in H as (a & _ & H).
  unfold account_walk in H.
  destruct (survives env_accounts (args_account args) (field a "name")); [|destruct H].
  destruct H as [H|H].
  - apply Fetch_inj in H. symmetry in H. now apply accounts_url_not_zones in H.
  - apply in_flat_map in H as (z & _ & H). unfold zone_walk in H.
    destruct (survives env_zones (args_zone args) (field z "name")); [|destruct H].
    destruct H as [H|[H|[]]]; [|discriminate].
    apply Fetch_inj in H. symmetry in H. now apply accounts_url_not_dns in H.
Qed.

(** C9 as the specification states it fails: in a run that stops on a
    record of the first zone, the second zone, which the API lists and
    which no filter rejects, has its DNS records requested zero times. *)
Lemma aborted_run_skips_surviving_zone :
  In Run.zone_two (children (Run.api_with [Run.stale]) (zones_url (VStr "a1")))
  /\ survives None None (field Run.zone_two "name") = true
  /\ events (script Sample.no_args Sample.no_environ (Run.api_with [Run.stale]))
     = [HttpGet accounts_url; HttpGet (zones_url (VStr "a1"));
        HttpGet (dns_records_url (VStr "z1"));
        LogException ValueError; PrintFailure ValueError]
  /\ ~ In (HttpGet (dns_records_url (VStr "z2")))
          (events (script Sample.no_args Sample.no_environ (Run.api_with [Run.stale]))).
Proof.
  split; [right; left; reflexivity|].
  split; [reflexivity|]. split; [reflexivity|].
  intros H. vm_compute in H. decompose [or] H; try discriminate. assumption.
Qed.

(** C9, amended.  A run that returns without an error has made exactly
    the walk of the specification: the accounts are requested once; the
    zones are requested once for each account that survives both account
    filters and never for another; the DNS records are requested once,
    and one table is printed, for each zone that survives both zone
    filters and never for another; all in the order the API lists them.
    A run cut short by an error has made a prefix of that walk.  In every
    run the accounts are requested exactly once. *)
Theorem main_walk_as_specified :
  forall (args : Args) (environ : string -> option string) (api : Api),
    (snd (main args environ api) = Ok tt ->
     walk (fst (main args environ api)) = expected_walk args environ api)
    /\ Prefix (walk (fst (main args environ api))) (expected_walk args environ api)
    /\ (exists rest,
           walk (fst (main args environ api)) = Fetch accounts_url :: rest
           /\ ~ In (Fetch accounts_url) rest).
Proof.
  intros args environ api.
  destruct (main_keeps args environ api) as [Hp Hok].
  split; [intros H; now apply Hok|]. split; [exact Hp|].
  destruct (main_starts args environ api) as (t1 & t2 & Ht & Hw1).
  exists (walk t2). rewrite Ht, walk_app, Hw1. split; [reflexivity|].
  intros Hin. rewrite Ht, walk_app, Hw1 in Hp. destruct Hp as [c Hc].
  unfold expected_walk in Hc. cbn [app] in Hc. injection Hc as Hc.
  eapply account_walks_no_accounts. rewrite Hc. apply in_or_app. left. exact Hin.
Qed.

(** [main_walk_as_specified] on a run over one account and two zones. *)
Lemma main_walk_as_specified_witness :
  snd (main Sample.no_args Sample.no_environ (Run.api_with [Run.www; Run.bare])) = Ok tt
  /\ walk (fst (main Sample.no_args Sample.no_environ (Run.api_with [Run.www; Run.bare])))
     = expected_walk Sample.no_args Sample.no_environ (Run.api_with [Run.www; Run.bare]).
Proof.
  assert (H : snd (main Sample.no_args Sample.no_environ
                     (Run.api_with [Run.www; Run.bare])) = Ok tt)
    by reflexivity.
  split; [exact H|].
  exact (proj1 (main_walk_as_specified Sample.no_args Sample.no_environ
                  (Run.api_with [Run.www; Run.bare])) H).
Defined.

(* ================================================================== *)
(** ** More on names and filters *)
(* ================================================================== *)

Lemma replace_from_skip_all (old new s : string) :
  old <> EmptyString -> PyStr.replace_from (String.length s) old new s = EmptyString.
Proof.
  intros Hold. induction s as [|c s IH]; simpl; [|exact IH].
  destruct old; [congruence | reflexivity].
Qed.

(** Removing [old] from [pre ++ old] leaves [pre] when no occurrence of
    [old] begins inside [pre]. *)
Lemma replace_suffix_only (old pre : string) :
  old <> EmptyString ->
  (forall a b, pre = (a ++ b)%string -> b <> EmptyString ->
               PyStr.startswith old (b ++ old) = false) ->
  PyStr.replace old "" (pre ++ old) = pre.
Proof.
  intros Hold. unfold PyStr.replace. induction pre as [|c pre IH]; intros Hno.
  - cbn [append]. destruct old as [|o old']; [congruence|].
    cbn [PyStr.replace_from].
    assert (Hs : PyStr.startswith (String o old') (String o old') = true)
      by (apply startswith_spec; exists ""; now rewrite append_empty_r).
    rewrite Hs. cbn [append]. apply replace_from_skip_all. discriminate.
  - cbn [append PyStr.replace_from].
    assert (Hs : PyStr.startswith old (String c (pre ++ old)) = false)
      by (apply (Hno "" (String c pre)); [reflexivity | discriminate]).
    rewrite Hs. f_equal. apply IH.
    intros a b -> Hb. apply (Hno (String c a) b); [reflexivity | exact Hb].
Qed.

Lemma snoc_decompose (s : string) :
  s <> EmptyString -> exists p x, s = (p ++ String x "")%string.
Proof.
  induction s as [|c s IH]; [congruence|]. intros _.
  destruct s as [|c' s'].
  - now exists "", c.
  - destruct IH as (p & x & Hp); [discriminate|].
    exists (String c p), x. cbn [append]. now rewrite Hp.
Qed.

Lemma without_last_snoc (s : string) (x : ascii) :
  without_last (s ++ String x "") = s.
Proof.
  unfold without_last. rewrite length_append. cbn [String.length].
  replace (String.length s + 1 - 1) with (String.length s) by lia.
  apply take_append.
Qed.

Lemma append_length_cancel (a b c d : string) :
  (a ++ b = c ++ d)%string -> String.length b = String.length c ->
  String.length a = String.length d.
Proof.
  intros H Hl. apply (f_equal String.length) in H.
  rewrite !length_append in H. lia.
Qed.

(** An occurrence of [old] that begins inside [pre] lies in [pre ++ old]
    without its last character. *)
Lemma occurrence_inside (old pre : string) :
  ~ Substring old (without_last (pre ++ old)) ->
  forall a b, pre = (a ++ b)%string -> b <> EmptyString ->
              PyStr.startswith old (b ++ old) = false.
Proof.
  intros Hno a b -> Hb.
  destruct (PyStr.startswith old (b ++ old)) eqn:Hs; [|reflexivity].
  exfalso. apply Hno.
  apply startswith_spec in Hs as [post Hpost].
  assert (Hlen : String.length b = String.length post)
    by (eapply append_length_cancel; eauto).
  destruct (snoc_decompose post) as (p & x & ->).
  { intros ->. destruct b; [congruence | discriminate]. }
  exists a, p.
  rewrite append_assoc, Hpost, <- !append_assoc.
  rewrite without_last_snoc. now rewrite !append_assoc.
Qed.

(** X1.  [simplify_name] on a name that ends with the zone suffix, when
    that suffix occurs nowhere else in the name, returns the part before
    the suffix: the label portion. *)
Theorem simplify_name_strips_single_suffix :
  forall label zone_name : string,
    ~ Substring ("." ++ zone_name) (without_last (label ++ "." ++ zone_name)) ->
    simplify_name (VStr (label ++ "." ++ zone_name)) (VStr zone_name)
    = Ok (VStr label).
Proof.
  intros label z Hno. unfold simplify_name. cbn [Py.eq Py.str].
  assert (Hne : String.eqb (label ++ "." ++ z) z = false).
  { apply String.eqb_neq. intros H. apply (f_equal String.length) in H.
    rewrite !length_append in H. cbn in H. lia. }
  rewrite Hne.
  assert (He : PyStr.endswith ("." ++ z) (label ++ "." ++ z) = true)
    by (apply endswith_spec; now exists label).
  rewrite He. do 2 f_equal.
  apply replace_suffix_only; [discriminate|].
  now apply occurrence_inside.
Qed.

(** [simplify_name_strips_single_suffix] on [www.example.com]. *)
Lemma simplify_name_strips_single_suffix_witness :
  simplify_name (VStr ("www" ++ "." ++ "example.com")) (VStr "example.com")
  = Ok (VStr "www").
Proof.
  apply simplify_name_strips_single_suffix.
  intros H. apply contains_spec in H. discriminate H.
Defined.

(** *** Splitting and lowering *)

Lemma join_cons_nonempty (sep x : string) (rest : list string) :
  rest <> [] -> join sep (x :: rest) = (x ++ sep ++ join sep rest)%string.
Proof. destruct rest; [congruence | reflexivity]. Qed.

Lemma join_char_cons (c a : ascii) (piece : string) (rest : list string) :
  join (String c "") (String a piece :: rest)
  = String a (join (String c "") (piece :: rest)).
Proof. destruct rest; reflexivity. Qed.

(** Joining the pieces of a split gives the text back. *)
Lemma join_split (c : ascii) (s : string) :
  join (String c "") (PyStr.split c s) = s.
Proof.
  induction s as [|a s IH]; [reflexivity|]. cbn [PyStr.split].
  destruct (Ascii.eqb a c) eqn:Hac.
  - apply Ascii.eqb_eq in Hac. subst a.
    rewrite join_cons_nonempty by apply split_not_nil. cbn [append].
    now rewrite IH.
  - destruct (PyStr.split c s) as [|piece rest] eqn:Hs.
    + now apply split_not_nil in Hs.
    + rewrite join_char_cons. now rewrite IH.
Qed.

Lemma length_split (c : ascii) (s : string) :
  List.length (PyStr.split c s) = S (count_char c s).
Proof.
  induction s as [|a s IH]; [reflexivity|]. cbn [PyStr.split count_char].
  destruct (Ascii.eqb a c).
  - cbn [List.length]. now rewrite IH.
  - destruct (PyStr.split c s) as [|piece rest]; [discriminate IH|].
    cbn [List.length] in *. cbn [Nat.add]. exact IH.
Qed.

Lemma split_pieces_no_sep (c : ascii) (s : string) :
  Forall (fun piece => Py.has_char c piece = false) (PyStr.split c s).
Proof.
  induction s as [|a s IH]; [repeat constructor|]. cbn [PyStr.split].
  destruct (Ascii.eqb a c) eqn:Hac.
  - constructor; [reflexivity | exact IH].
  - destruct (PyStr.split c s) as [|piece rest].
    + constructor; [|constructor]. cbn [Py.has_char]. now rewrite Hac.
    + inversion IH as [|? ? Hp Hr]; subst. constructor; [|exact Hr].
      cbn [Py.has_char]. now rewrite Hac, Hp.
Qed.

Lemma lower_char_comma (a : ascii) :
  Ascii.eqb (PyStr.lower_char a) "," = Ascii.eqb a ",".
Proof. destruct a as [[] [] [] [] [] [] [] []]; reflexivity. Qed.

Lemma lower_char_idempotent (a : ascii) :
  PyStr.lower_char (PyStr.lower_char a) = PyStr.lower_char a.
Proof. destruct a as [[] [] [] [] [] [] [] []]; reflexivity. Qed.

Lemma lower_idempotent (s : string) : PyStr.lower (PyStr.lower s) = PyStr.lower s.
Proof.
  induction s as [|a s IH]; [reflexivity|]. cbn [PyStr.lower].
  now rewrite lower_char_idempotent, IH.
Qed.

Lemma nonempty_lower (s : string) :
  PyStr.nonempty (PyStr.lower s) = PyStr.nonempty s.
Proof. destruct s; reflexivity. Qed.

(** Lowering the pieces of a split is splitting the lowered text. *)
Lemma split_lower (s : string) :
  map PyStr.lower (PyStr.split "," s) = PyStr.split "," (PyStr.lower s).
Proof.
  induction s as [|a s IH]; [reflexivity|]. cbn [PyStr.split PyStr.lower].
  rewrite lower_char_comma. destruct (Ascii.eqb a ",").
  - cbn [map]. now rewrite IH.
  - rewrite <- IH. destruct (PyStr.split "," s) as [|piece rest]; reflexivity.
Qed.

Lemma env_filter_lower (v : string) :
  env_filter (Some v)
  = if PyStr.nonempty v then Some (PyStr.split "," (PyStr.lower v)) else None.
Proof. unfold env_filter. now rewrite split_lower. Qed.

(** X2.  The filter derived from a non-empty environment variable is the
    lowercased value cut at its commas and nothing more: joining the
    entries with commas gives the lowercased value back (no entry is
    trimmed or dropped), there is one entry more than there are commas,
    and every entry is lowercase and free of commas. *)
Theorem env_filter_entries :
  forall (v : string) (entries : list string),
    env_filter (Some v) = Some entries ->
    join "," entries = PyStr.lower v
    /\ List.length entries = S (count_char "," v)
    /\ Forall (fun e => Py.has_char "," e = false /\ PyStr.lower e = e) entries.
Proof.
  intros v entries H.
  assert (Hl : entries = PyStr.split "," (PyStr.lower v)).
  { rewrite env_filter_lower in H. destruct (PyStr.nonempty v); congruence. }
  assert (Hm : entries = map PyStr.lower (PyStr.split "," v)).
  { unfold env_filter in H. destruct (PyStr.nonempty v); congruence. }
  split; [|split].
  - rewrite Hl. apply join_split.
  - rewrite Hm, length_map. apply length_split.
  - apply Forall_forall. intros e He. split.
    + rewrite Hl in He.
      exact (proj1 (Forall_forall _ _) (split_pieces_no_sep "," _) e He).
    + rewrite Hm in He. apply in_map_iff in He as (p & <- & _).
      apply lower_idempotent.
Qed.

(** [env_filter_entries] on a value with a blank after the comma. *)
Lemma env_filter_entries_witness :
  join "," ["prod"; " staging"] = PyStr.lower "Prod, Staging"
  /\ List.length ["prod"; " staging"] = S (count_char "," "Prod, Staging")
  /\ Forall (fun e => Py.has_char "," e = false /\ PyStr.lower e = e)
            ["prod"; " staging"].
Proof. apply (env_filter_entries "Prod, Staging"). reflexivity. Defined.

(** X3.  Filtering ignores case everywhere: two environment values, two
    command-line filters and two names that differ only by case decide an
    item the same way. *)
Theorem included_ignores_case :
  forall v v' cli cli' name name' : string,
    PyStr.lower v = PyStr.lower v' ->
    PyStr.lower cli = PyStr.lower cli' ->
    PyStr.lower name = PyStr.lower name' ->
    included (env_filter (Some v)) (Some cli) (VStr name)
    = included (env_filter (Some v')) (Some cli') (VStr name').
Proof.
  intros v v' cli cli' name name' Hv Hc Hn.
  assert (He : env_filter (Some v) = env_filter (Some v')).
  { rewrite !env_filter_lower, <- (nonempty_lower v), <- (nonempty_lower v').
    now rewrite Hv. }
  rewrite He. unfold included.
  assert (H1 : env_rejects (env_filter (Some v')) (VStr name)
               = env_rejects (env_filter (Some v')) (VStr name')).
  { destruct (env_filter (Some v')) as [[|e es]|]; try reflexivity.
    unfold env_rejects. now rewrite Hn. }
  assert (H2 : cli_rejects (Some cli) (VStr name) = cli_rejects (Some cli') (VStr name')).
  { unfold cli_rejects.
    rewrite <- (nonempty_lower cli), <- (nonempty_lower cli'), Hc, Hn.
    reflexivity. }
  now rewrite H1, H2.
Qed.

(** [included_ignores_case] on an upper-case and a lower-case spelling. *)
Lemma included_ignores_case_witness :
  included (env_filter (Some "PROD,Staging")) (Some "MAIN") (VStr "Prod-Main")
  = included (env_filter (Some "prod,staging")) (Some "main") (VStr "PROD-MAIN").
Proof. apply included_ignores_case; reflexivity. Defined.

(** After a trailing separator comes one more piece, the empty one. *)
Lemma split_trailing_sep (c : ascii) (w : string) :
  exists first rest,
    PyStr.split c (w ++ String c "") = first :: rest /\ In EmptyString rest.
Proof.
  induction w as [|a w (first & rest & IH & Hin)]; cbn [append PyStr.split].
  - rewrite Ascii.eqb_refl. exists "", [""]. split; [reflexivity | now left].
  - rewrite IH. destruct (Ascii.eqb a c).
    + exists "", (first :: rest). split; [reflexivity | now right].
    + exists (String a first), rest. split; [reflexivity | exact Hin].
Qed.

Lemma nonempty_append_r (w : string) (c : ascii) :
  PyStr.nonempty (w ++ String c "") = true.
Proof. destruct w; reflexivity. Qed.

(** X4.  An environment value that ends with a comma has an empty last
    entry, which occurs in every name: the environment filter then
    rejects nothing, and every item with a string name is decided as if
    the variable were unset. *)
Theorem env_filter_trailing_comma_passes_all :
  forall (w : string) (cli : option string) (name : string),
    included (env_filter (Some (w ++ ",")%string)) cli (VStr name)
    = included None cli (VStr name).
Proof.
  intros w cli name. unfold included.
  assert (H : env_rejects (env_filter (Some (w ++ ",")%string)) (VStr name) = Ok false).
  { unfold env_filter. rewrite nonempty_append_r.
    destruct (split_trailing_sep "," w) as (first & rest & Hs & Hin).
    rewrite Hs. cbn [map env_rejects]. f_equal.
    apply negb_false_iff, existsb_exists. exists "". split.
    - right. apply in_map_iff. exists "". split; [reflexivity | exact Hin].
    - apply contains_empty. }
  now rewrite H.
Qed.

(* ================================================================== *)
(** ** More on the fetcher and the presenter *)
(* ================================================================== *)

Ltac fetch_cases H :=
  destruct H as [H|[H|[H|[]]]]; injection H as <- <-.

(** X5.  What a fetch operation does in the cases that are neither a
    [result] array nor a failure status.  A raise of the HTTP client is
    not caught.  A 200 response whose body is a JSON object without
    [result] gives the empty list; one whose body is JSON but not an
    object raises [AttributeError]; one whose body is not JSON raises
    what the decoder raises.  In all four cases the one request is the
    only event: nothing is logged. *)
Theorem fetch_edge_cases :
  forall fetch url_of,
    In (fetch, url_of) fetch_operations ->
    forall (api : Api) (id : value),
      (forall e, api (url_of id) = Raise e ->
                 fetch api id = ([HttpGet (url_of id)], Raise e))
      /\ (forall r d,
             api (url_of id) = Ok r -> status_code r = 200%Z ->
             json r = Ok (VDict d) -> Py.dict_get d "result" = None ->
             fetch api id = ([HttpGet (url_of id)], Ok (VList [])))
      /\ (forall r body,
             api (url_of id) = Ok r -> status_code r = 200%Z ->
             json r = Ok body -> (forall d, body <> VDict d) ->
             fetch api id = ([HttpGet (url_of id)], Raise AttributeError))
      /\ (forall r e,
             api (url_of id) = Ok r -> status_code r = 200%Z ->
             json r = Raise e ->
             fetch api id = ([HttpGet (url_of id)], Raise e)).
Proof.
  intros fetch url_of Hop api id.
  assert (Hget : forall body, (forall d, body <> VDict d) ->
                              Py.get body "result" (VList []) = Raise AttributeError).
  { intros body Hb. destruct body; try reflexivity. now destruct (Hb entries). }
  fetch_cases Hop; repeat split.
  all: try (intros e Hr; fetch_unfold; rewrite Hr; reflexivity).
  all: try (intros r d Hr Hs Hj Hd; fetch_unfold; rewrite Hr, Hs, Hj; simpl;
            rewrite Hd; reflexivity).
  all: try (intros r body Hr Hs Hj Hb; fetch_unfold; rewrite Hr, Hs, Hj; simpl;
            rewrite (Hget body Hb); reflexivity).
  all: intros r e Hr Hs Hj; fetch_unfold; rewrite Hr, Hs, Hj; reflexivity.
Qed.

(** [fetch_edge_cases] on the zones of an account, with a 200 response
    whose body is a JSON array. *)
Lemma fetch_edge_cases_witness :
  get_zones (fun _ => Ok (mkResponse 200 "[]" (Ok (VList [])))) (VStr "a1")
  = ([HttpGet (zones_url (VStr "a1"))], Raise AttributeError).
Proof.
  apply (proj1 (proj2 (proj2
           (fetch_edge_cases get_zones zones_url (or_intror (or_introl eq_refl))
              (fun _ => Ok (mkResponse 200 "[]" (Ok (VList [])))) (VStr "a1"))))
           (mkResponse 200 "[]" (Ok (VList []))) (VList [])).
  - reflexivity.
  - reflexivity.
  - reflexivity.
  - discriminate.
Defined.

Lemma get_zones_other (api : Api) (account_id : value) (r : Response) :
  api (zones_url account_id) = Ok r -> status_code r <> 200%Z ->
  get_zones api account_id
  = ([HttpGet (zones_url account_id);
      LogError ("Failed to fetch zones for account " ++ Py.str account_id
                ++ ": " ++ text r)], Ok (VList [])).
Proof. intros Hr Hs. fetch_other Hr Hs. Qed.

Lemma get_dns_records_other (api : Api) (zone_id : value) (r : Response) :
  api (dns_records_url zone_id) = Ok r -> status_code r <> 200%Z ->
  get_dns_records api zone_id
  = ([HttpGet (dns_records_url zone_id);
      LogError ("Failed to fetch DNS records for zone " ++ Py.str zone_id
                ++ ": " ++ text r)], Ok (VList [])).
Proof. intros Hr Hs. fetch_other Hr Hs. Qed.

(** X6.  A failed fetch below the accounts does not stop the run.  For a
    surviving account whose zones cannot be fetched, the body of the
    account loop logs the failure and returns, so the loop goes on with
    the next account.  For a surviving zone whose records cannot be
    fetched, the body of the zone loop logs the failure and hands the
    presenter an empty list of records: what follows the log record, and
    how the body ends, is the presenter's doing, and a presenter that
    returns on an empty list printed the zone's table with no rows. *)
Theorem fetch_failure_is_absorbed :
  forall (api : Api) (env_accounts env_zones : option (list string)) (args : Args)
         (r : Response) (d : list (string * value)),
    status_code r <> 200%Z ->
    (included env_accounts (args_account args) (field (VDict d) "name") = Ok true ->
     api (zones_url (field (VDict d) "id")) = Ok r ->
     account_body api env_accounts env_zones args (VDict d)
     = ([HttpGet (zones_url (field (VDict d) "id"));
         LogError ("Failed to fetch zones for account "
                   ++ Py.str (field (VDict d) "id") ++ ": " ++ text r)],
        Ok tt))
    /\ (forall account_name,
           included env_zones (args_zone args) (field (VDict d) "name") = Ok true ->
           api (dns_records_url (field (VDict d) "id")) = Ok r ->
           zone_body api env_zones args account_name (VDict d)
           = (emit (HttpGet (dns_records_url (field (VDict d) "id"))) ;;
              emit (LogError ("Failed to fetch DNS records for zone "
                              ++ Py.str (field (VDict d) "id") ++ ": " ++ text r)) ;;
              display_dns_table account_name (field (VDict d) "name") (VList []))%py)
    /\ (forall account_name zone_name t,
           display_dns_table account_name zone_name (VList []) = (t, Ok tt) ->
           t = [PrintTable (mkTable (table_title account_name zone_name)
                              table_columns []);
                Print ""]).
Proof.
  intros api env_accounts env_zones args r d Hs. unfold field. cbn [Py.get].
  split; [|split].
  - intros Hinc Hr. rewrite account_body_included. cbn [Py.get].
    rewrite !bind_lift_ok, Hinc, bind_lift_ok.
    rewrite (get_zones_other _ _ _ Hr Hs). reflexivity.
  - intros account_name Hinc Hr. rewrite zone_body_included. cbn [Py.get].
    rewrite !bind_lift_ok, Hinc, bind_lift_ok.
    rewrite (get_dns_records_other _ _ _ Hr Hs). reflexivity.
  - intros account_name zone_name t H. cbn in H. now injection H as <-.
Qed.

(** [fetch_failure_is_absorbed] on a zone whose records are forbidden. *)
Lemma fetch_failure_is_absorbed_witness :
  zone_body Sample.api_forbidden None Sample.no_args (VStr "Prod-Main") Run.zone_one
  = (emit (HttpGet (dns_records_url (VStr "z1"))) ;;
     emit (LogError "Failed to fetch DNS records for zone z1: Forbidden") ;;
     display_dns_table (VStr "Prod-Main") (VStr "example.com") (VList []))%py.
Proof.
  apply (proj1 (proj2 (fetch_failure_is_absorbed Sample.api_forbidden None None
                         Sample.no_args Sample.forbidden
                         [("id", VStr "z1"); ("name", VStr "example.com")]
                         ltac:(discriminate))) (VStr "Prod-Main")); reflexivity.
Defined.

Lemma map_result_length {A B} (f : A -> result B) (l : list A) (ys : list B) :
  map_result f l = Ok ys -> List.length ys = List.length l.
Proof.
  revert ys; induction l as [|a l IH]; intros ys; cbn [map_result].
  - now intros [= <-].
  - destruct (f a); [|discriminate].
    destruct (map_result f l) as [ys'|]; [|discriminate].
    intros [= <-]. cbn [List.length]. now rewrite (IH ys').
Qed.

Lemma map_result_forall {A B} (f : A -> result B) (P : B -> Prop) (l : list A)
    (ys : list B) :
  (forall x y, f x = Ok y -> P y) -> map_result f l = Ok ys -> Forall P ys.
Proof.
  intros Hf. revert ys; induction l as [|a l IH]; intros ys; cbn [map_result].
  - intros [= <-]. constructor.
  - destruct (f a) as [y|] eqn:Ha; [|discriminate].
    destruct (map_result f l) as [ys'|]; [|discriminate].
    intros [= <-]. constructor; [eapply Hf; eauto | now apply IH].
Qed.

Lemma dns_row_length (zone_name record : value) (row : list string) :
  dns_row zone_name record = Ok row -> List.length row = List.length table_columns.
Proof.
  unfold dns_row, and_then.
  destruct (type_cell record); [|discriminate].
  destruct (name_cell zone_name record); [|discriminate].
  destruct (content_cell record); [|discriminate].
  destruct (priority_cell record); [|discriminate].
  destruct (proxy_cell record); [|discriminate].
  destruct (ttl_cell record); [|discriminate].
  destruct (created_cell record); [|discriminate].
  destruct (modified_cell record); [|discriminate].
  destruct (comment_cell record); [|discriminate].
  unfold add_row. intros H. now apply map_result_length in H.
Qed.

(** X7.  The presenter prints all of a table or nothing.  Either it
    prints one table, with the title of the account and the zone, one row
    per record in the order of the records, each row with one cell per
    column, followed by one empty line; or it raises and has printed
    nothing. *)
Theorem display_dns_table_all_or_nothing :
  forall account_name zone_name records : value,
    (exists items table_rows,
        Py.iter records = Ok items
        /\ display_dns_table account_name zone_name records
           = ([PrintTable (mkTable (table_title account_name zone_name)
                             table_columns table_rows); Print ""], Ok tt)
        /\ map_result (dns_row zone_name) items = Ok table_rows
        /\ List.length table_rows = List.length items
        /\ Forall (fun row => List.length row = List.length table_columns) table_rows)
    \/ (exists e, display_dns_table account_name zone_name records = ([], Raise e)).
Proof.
  intros account_name zone_name records.
  destruct (display_dns_table_cases account_name zone_name records)
    as [(items & table_rows & Hi & Hrows & Hd)|H]; [left | now right].
  exists items, table_rows. repeat split; try assumption.
  - now apply map_result_length in Hrows.
  - eapply map_result_forall; [|exact Hrows].
    intros x y. apply dns_row_length.
Qed.

(* ================================================================== *)
(** ** More on timestamps *)
(* ================================================================== *)

Module DatetimeMore.
Import Datetime.
Import DatetimeFacts.

Local Open Scope Z_scope.

Lemma re_S_head_leap (n : Z) : 0 <= n <= 61 -> first_is re_S n.
Proof.
  intros H.
  refine (all_below_elim 62 (fun z => 0 <= z -> first_is re_S z) _ n _ _);
    [each_case | lia | lia].
Qed.

(** The expression up to the seconds matches a date and a time written on
    zero-filled fields, and goes on with what follows. *)
Lemma matches_to_seconds (y mo d h mi s : Z) (p : list directive) (rest : string)
    (gs : list string) (r' : string) tl :
  1 <= mo <= 12 -> 1 <= d <= 31 -> 0 <= h <= 23 -> 0 <= mi <= 59 -> 0 <= s <= 61 ->
  matches p rest = (gs, r') :: tl ->
  exists tl',
    matches (regex_to_seconds p) (timestamp_to_seconds y mo d h mi s ++ rest)%string
    = (groups_to_seconds y mo d h mi s gs, r') :: tl'.
Proof.
  intros Hmo Hd Hh Hmi Hs H0.
  step_field (re_S_head_leap s Hs).
  step_literal ":"%char.
  step_field (re_M_head mi Hmi).
  step_literal ":"%char.
  step_field (re_H_head h Hh).
  step_literal "T"%char.
  step_field (re_d_head d Hd).
  step_literal "-"%char.
  step_field (re_m_head mo Hmo).
  step_literal "-"%char.
  match goal with
  | H : matches _ ?r = _ :: _ |- _ =>
      destruct (matches_head _ _ _ _ _ _ _ _ _ (re_Y_head y r) H) as [tl' Hall]
  end.
  exists tl'. unfold regex_to_seconds, groups_to_seconds, timestamp_to_seconds.
  rewrite !append_assoc. exact Hall.
Qed.

Lemma digit_values (c : ascii) :
  digit c = true -> 0 <= Z.of_nat (nat_of_ascii c - 48) <= 9.
Proof.
  unfold digit. rewrite andb_true_iff, !Nat.leb_le. lia.
Qed.

(** [int] of a text is below the power of ten of its length. *)
Lemma int_from_bound (s : string) (acc : Z) :
  0 <= acc ->
  0 <= int_from acc s
  /\ int_from acc s < (acc + 1) * 10 ^ Z.of_nat (String.length s).
Proof.
  revert acc; induction s as [|c s IH]; intros acc Hacc.
  - cbn. lia.
  - cbn [int_from String.length]. rewrite Nat2Z.inj_succ, Z.pow_succ_r by lia.
    assert (Hp : 0 < 10 ^ Z.of_nat (String.length s)) by (apply Z.pow_pos_nonneg; lia).
    destruct (digit c) eqn:Hc.
    + pose proof (digit_values c Hc) as Hv.
      destruct (IH (10 * acc + Z.of_nat (nat_of_ascii c - 48))) as [H1 H2]; [lia|].
      split; [exact H1|]. nia.
    + destruct (IH acc Hacc) as [H1 H2]. split; [exact H1|]. nia.
Qed.

Lemma length_zeros (n : nat) : String.length (zeros n) = n.
Proof. induction n as [|n IH]; cbn; [reflexivity | now rewrite IH]. Qed.

(** A run of more digit classes than there are digits before the [Z]
    does not match. *)
Lemma match_seq_too_long (j k : nat) (n : Z) (rest : string) :
  (k < j)%nat ->
  match_seq (repeat digit j) (zfill k n ++ String "Z" rest)%string = None.
Proof.
  revert j; induction k as [|k IH]; intros j Hj;
    (destruct j as [|j]; [lia|]); cbn [repeat zfill append match_seq].
  - reflexivity.
  - rewrite digit_digit_char, IH by lia. reflexivity.
Qed.

Lemma re_f_head_short (k : nat) (n : Z) (rest : string) :
  (1 <= k <= 6)%nat ->
  exists tl,
    match_alts re_f (zfill k n ++ String "Z" rest)%string
    = (zfill k n, String "Z" rest) :: tl.
Proof.
  intros Hk.
  change re_f with (map (repeat digit) [6; 5; 4; 3; 2; 1]%nat).
  unfold match_alts. cbn [map flat_map].
  assert (Hcase : (k = 1 \/ k = 2 \/ k = 3 \/ k = 4 \/ k = 5 \/ k = 6)%nat) by lia.
  destruct Hcase as [->|[->|[->|[->|[->| ->]]]]];
    rewrite ?match_seq_too_long by lia;
    rewrite match_seq_zfill; cbn [app]; eauto.
Qed.

Lemma strptime_with_fraction (y mo d h mi s : Z) (k : nat) (f : Z) :
  1 <= mo <= 12 -> 1 <= d <= 31 -> 0 <= h <= 23 -> 0 <= mi <= 59 -> 0 <= s <= 61 ->
  0 <= y <= 9999 -> (1 <= k <= 6)%nat ->
  exists us,
    0 <= us <= 999999
    /\ strptime (timestamp_with_fraction y mo d h mi s (zfill k f))
       = if valid (mkDatetime y mo d h mi s us)
         then Ok (mkDatetime y mo d h mi s us) else Raise ValueError.
Proof.
  intros Hmo Hd Hh Hmi Hs Hy Hk.
  assert (H0 : matches [] EmptyString = ([], EmptyString) :: []) by reflexivity.
  step_literal "Z"%char.
  destruct (re_f_head_short k f EmptyString Hk) as [tlf Hf]. step Hf.
  step_literal "."%char.
  match goal with
  | H : matches _ _ = _ :: _ |- _ =>
      destruct (matches_to_seconds y mo d h mi s _ _ _ _ _ Hmo Hd Hh Hmi Hs H)
        as [tl' Hall]
  end.
  set (fraction := (zfill k f ++ zeros (6 - k))%string).
  exists (int fraction).
  assert (Hb : 0 <= int fraction <= 999999).
  { destruct (int_from_bound fraction 0) as [H1 H2]; [lia|].
    unfold int. split; [exact H1|].
    unfold fraction in H2 at 2.
    rewrite length_append, length_zfill, length_zeros in H2.
    replace (k + (6 - k))%nat with 6%nat in H2 by lia.
    change (10 ^ Z.of_nat 6) with 1000000 in H2. lia. }
  split; [exact Hb|].
  unfold strptime, re_match.
  change format_regex with (regex_to_seconds [literal "."; re_f; literal "Z"]).
  unfold timestamp_with_fraction. cbn [append] in Hall |- *. rewrite Hall.
  unfold groups_to_seconds. rewrite length_zfill. fold fraction.
  rewrite !int_zfill by (cbn; lia). reflexivity.
Qed.

(** *** A timestamp without a fraction *)

Lemma matches_nil_step (d : directive) (q : list directive) (s : string) :
  (forall gr, In gr (match_alts d s) -> matches q (snd gr) = []) ->
  matches (d :: q) s = [].
Proof.
  intros H. cbn [matches]. induction (match_alts d s) as [|gr l IH]; [reflexivity|].
  cbn [flat_map]. rewrite (H gr) by now left. cbn [map app].
  apply IH. intros gr' Hin. apply H. now right.
Qed.

Lemma literal_step_fail (lit : ascii) (p : list directive) (c : ascii) (r : string) :
  nocase lit c = false -> matches (literal lit :: p) (String c r) = [].
Proof.
  intros H. apply matches_nil_step. unfold literal, match_alts.
  cbn [flat_map match_seq]. rewrite H. intros gr [].
Qed.

Lemma literal_step_pass (lit : ascii) (p : list directive) (rest : string) :
  matches p rest = [] -> matches (literal lit :: p) (String lit rest) = [].
Proof.
  intros H. apply matches_nil_step. rewrite literal_head.
  intros gr [<-|[]]. exact H.
Qed.

Ltac by_all_chars c :=
  let H := fresh "H" in
  intros H; destruct c as [[] [] [] [] [] [] [] []];
  first [reflexivity | discriminate H].

Lemma dash_not_digit (c : ascii) : digit c = true -> nocase "-" c = false.
Proof. by_all_chars c. Qed.

Lemma colon_not_digit (c : ascii) : digit c = true -> nocase ":" c = false.
Proof. by_all_chars c. Qed.

Lemma T_not_digit (c : ascii) : digit c = true -> nocase "T" c = false.
Proof. by_all_chars c. Qed.

Lemma dot_not_digit (c : ascii) : digit c = true -> nocase "." c = false.
Proof. by_all_chars c. Qed.

(** A directive on two digits and the literal after it: if what follows
    the literal does not match, nothing does. *)
Lemma field_then_literal_fails (d : directive) (sep : ascii) (p : list directive)
    (n : Z) (rest : string) :
  stops_at_digit d sep n ->
  (forall c, digit c = true -> nocase sep c = false) ->
  matches p rest = [] ->
  matches (d :: literal sep :: p) (zfill 2 n ++ String sep rest)%string = [].
Proof.
  intros Hstop Hsep Hp. apply matches_nil_step. intros gr Hin.
  destruct (proj1 (Forall_forall _ _) (Hstop rest) gr Hin) as [->|(c & r & Hc & ->)].
  - now apply literal_step_pass.
  - apply literal_step_fail. now apply Hsep.
Qed.

(** The seconds followed by [Z], where the format wants a dot. *)
Lemma seconds_then_Z_fails (p : list directive) (n : Z) :
  stops_at_digit re_S "Z" n ->
  matches (re_S :: literal "." :: p) (zfill 2 n ++ String "Z" "")%string = [].
Proof.
  intros Hstop. apply matches_nil_step. intros gr Hin.
  destruct (proj1 (Forall_forall _ _) (Hstop EmptyString) gr Hin)
    as [->|(c & r & Hc & ->)].
  - apply literal_step_fail. reflexivity.
  - apply literal_step_fail. apply dot_not_digit. exact Hc.
Qed.

Ltac each_stop :=
  cbn [all_below]; repeat split;
  try (intros; lia);
  intros _ rest;
  match goal with
  | |- Forall ?P ?l => let l' := eval vm_compute in l in change (Forall P l')
  end;
  repeat (apply Forall_cons;
          [first [left; reflexivity
                 | right; (do 2 eexists; split; [|reflexivity]); reflexivity]|]);
  apply Forall_nil.

Lemma re_m_stops (n : Z) : 0 <= n <= 99 -> stops_at_digit re_m "-" n.
Proof.
  intros H.
  refine (all_below_elim 100 (fun z => 0 <= z -> stops_at_digit re_m "-" z) _ n _ _);
    [each_stop | lia | lia].
Qed.

Lemma re_d_stops (n : Z) : 0 <= n <= 99 -> stops_at_digit re_d "T" n.
Proof.
  intros H.
  refine (all_below_elim 100 (fun z => 0 <= z -> stops_at_digit re_d "T" z) _ n _ _);
    [each_stop | lia | lia].
Qed.

Lemma re_H_stops (n : Z) : 0 <= n <= 99 -> stops_at_digit re_H ":" n.
Proof.
  intros H.
  refine (all_below_elim 100 (fun z => 0 <= z -> stops_at_digit re_H ":" z) _ n _ _);
    [each_stop | lia | lia].
Qed.

Lemma re_M_stops (n : Z) : 0 <= n <= 99 -> stops_at_digit re_M ":" n.
Proof.
  intros H.
  refine (all_below_elim 100 (fun z => 0 <= z -> stops_at_digit re_M ":" z) _ n _ _);
    [each_stop | lia | lia].
Qed.

Lemma re_S_stops (n : Z) : 0 <= n <= 99 -> stops_at_digit re_S "Z" n.
Proof.
  intros H.
  refine (all_below_elim 100 (fun z => 0 <= z -> stops_at_digit re_S "Z" z) _ n _ _);
    [each_stop | lia | lia].
Qed.

Lemma matches_without_fraction (y mo d h mi s : Z) :
  0 <= mo <= 99 -> 0 <= d <= 99 -> 0 <= h <= 99 -> 0 <= mi <= 99 -> 0 <= s <= 99 ->
  matches format_regex (timestamp_without_fraction y mo d h mi s) = [].
Proof.
  intros Hmo Hd Hh Hmi Hs.
  unfold timestamp_without_fraction, timestamp_to_seconds, format_regex.
  rewrite !append_assoc. cbn [append].
  apply matches_nil_step. rewrite re_Y_head. intros gr [<-|[]]. cbn [snd].
  apply literal_step_pass.
  apply field_then_literal_fails; [now apply re_m_stops | apply dash_not_digit |].
  apply field_then_literal_fails; [now apply re_d_stops | apply T_not_digit |].
  apply field_then_literal_fails; [now apply re_H_stops | apply colon_not_digit |].
  apply field_then_literal_fails; [now apply re_M_stops | apply colon_not_digit |].
  apply seconds_then_Z_fails. now apply re_S_stops.
Qed.

End DatetimeMore.

Lemma valid_from_fields (y mo d h mi s us : Z) :
  (1 <= y <= 9999 /\ 1 <= mo <= 12 /\ 1 <= d <= Datetime.days_in_month y mo
   /\ 0 <= h <= 23 /\ 0 <= mi <= 59 /\ 0 <= s <= 59 /\ 0 <= us <= 999999)%Z ->
  Datetime.valid (Datetime.mkDatetime y mo d h mi s us) = true.
Proof.
  intros H. unfold Datetime.valid.
  cbn [Datetime.year Datetime.month Datetime.day Datetime.hour Datetime.minute
       Datetime.second Datetime.microsecond].
  repeat (apply andb_true_iff; split); apply Z.leb_le; lia.
Qed.

Lemma valid_inv (y mo d h mi s us : Z) :
  Datetime.valid (Datetime.mkDatetime y mo d h mi s us) = true ->
  (1 <= y /\ d <= Datetime.days_in_month y mo /\ s <= 59)%Z.
Proof.
  unfold Datetime.valid.
  cbn [Datetime.year Datetime.month Datetime.day Datetime.hour Datetime.minute
       Datetime.second Datetime.microsecond].
  rewrite !andb_true_iff, !Z.leb_le. lia.
Qed.

(** X8.  [format_time] takes a fraction of a second of one to six digits:
    for a valid date, in a year from 1000 to 9999, and time of day, the
    timestamp with any such fraction is reformatted to the date and the
    time down to the minute. *)
Theorem format_time_accepts_short_fractions :
  forall (y mo d h mi s : Z) (k : nat) (f : Z),
    valid_fields y mo d h mi s 0 ->
    1 <= k <= 6 ->
    format_time (VStr (timestamp_with_fraction y mo d h mi s (Datetime.zfill k f)))
    = Ok (minutes_text y mo d h mi).
Proof.
  intros y mo d h mi s k f (Hy & Hmo & Hd & Hh & Hmi & Hs & _) Hk.
  pose proof (DatetimeFacts.days_in_month_le y mo) as Hdm.
  destruct (DatetimeMore.strptime_with_fraction y mo d h mi s k f)
    as (us & Hus & Hp); try lia.
  unfold format_time. rewrite Hp.
  rewrite valid_from_fields by (repeat split; lia).
  reflexivity.
Qed.

(** [format_time_accepts_short_fractions] on a fraction of five digits. *)
Lemma format_time_accepts_short_fractions_witness :
  format_time (VStr "2014-01-01T05:20:00.12345Z") = Ok "2014-01-01 05:20".
Proof.
  apply (format_time_accepts_short_fractions 2014 1 1 5 20 0 5 12345)%Z.
  - unfold valid_fields. change (Datetime.days_in_month 2014 1) with 31%Z. lia.
  - lia.
Defined.

(** X9.  [format_time] rejects a timestamp that has no fraction of a
    second: whatever the digits of the date and the time, the text
    [YYYY-MM-DDTHH:MM:SSZ] raises [ValueError]. *)
Theorem format_time_rejects_missing_fraction :
  forall y mo d h mi s : Z,
    (0 <= mo <= 99)%Z -> (0 <= d <= 99)%Z -> (0 <= h <= 99)%Z ->
    (0 <= mi <= 99)%Z -> (0 <= s <= 99)%Z ->
    format_time (VStr (timestamp_without_fraction y mo d h mi s))
    = Raise ValueError.
Proof.
  intros y mo d h mi s Hmo Hd Hh Hmi Hs.
  unfold format_time, Datetime.strptime, Datetime.re_match.
  now rewrite DatetimeMore.matches_without_fraction.
Qed.

(** [format_time_rejects_missing_fraction] on the first second of 2014, 05:20. *)
Lemma format_time_rejects_missing_fraction_witness :
  format_time (VStr "2014-01-01T05:20:00Z") = Raise ValueError.
Proof.
  apply (format_time_rejects_missing_fraction 2014 1 1 5 20 0)%Z; lia.
Defined.

(** X10.  [format_time] rejects a well-formed timestamp that names no
    real instant: the year 0000, a day past the end of its month (the
    29th of February outside a leap year included), or a second of 60 or
    61, each raises [ValueError]. *)
Theorem format_time_rejects_impossible_instants :
  forall (y mo d h mi s : Z) (k : nat) (f : Z),
    (0 <= y <= 9999)%Z -> (1 <= mo <= 12)%Z -> (1 <= d <= 31)%Z ->
    (0 <= h <= 23)%Z -> (0 <= mi <= 59)%Z -> (0 <= s <= 61)%Z ->
    1 <= k <= 6 ->
    (y = 0 \/ Datetime.days_in_month y mo < d \/ 60 <= s)%Z ->
    format_time (VStr (timestamp_with_fraction y mo d h mi s (Datetime.zfill k f)))
    = Raise ValueError.
Proof.
  intros y mo d h mi s k f Hy Hmo Hd Hh Hmi Hs Hk Hbad.
  destruct (DatetimeMore.strptime_with_fraction y mo d h mi s k f)
    as (us & Hus & Hp); try lia.
  unfold format_time. rewrite Hp.
  destruct (Datetime.valid (Datetime.mkDatetime y mo d h mi s us)) eqn:Hv;
    [|reflexivity].
  apply valid_inv in Hv. lia.
Qed.

(** [format_time_rejects_impossible_instants] on the 29th of February 2023. *)
Lemma format_time_rejects_impossible_instants_witness :
  format_time (VStr "2023-02-29T05:20:00.000000Z") = Raise ValueError.
Proof.
  apply (format_time_rejects_impossible_instants 2023 2 29 5 20 0 6 0)%Z; try lia.
  right. left. vm_compute. reflexivity.
Defined.

(* ================================================================== *)
(** ** More on the orchestrator *)
(* ================================================================== *)

Lemma for_each_answers {A} (api : Api) (body : A -> M unit) (l : list A) :
  (forall x, answers api (body x)) -> answers api (for_each l body).
Proof.
  intros Hbody. induction l as [|x l IH]; [intros _ url []|].
  cbn [for_each]. pose proof (Hbody x) as Hx. unfold answers in *.
  destruct (body x) as [t1 [[]|e]]; destruct (for_each l body) as [t2 r2];
    unfold bind; cbn [fst snd] in *; [|discriminate].
  intros Hr url Hin. apply in_app_or in Hin as [Hin|Hin].
  - now apply Hx.
  - now apply IH.
Qed.

Lemma zone_body_answers (api : Api) (env_zones : option (list string)) (args : Args)
    (account_name zone : value) :
  answers api (zone_body api env_zones args account_name zone).
Proof.
  rewrite zone_body_included.
  destruct zone as [| | | | |d]; try discriminate.
  cbn [Py.get]. rewrite !bind_lift_ok.
  destruct (included env_zones (args_zone args) _) as [[|]|e];
    rewrite ?bind_lift_ok, ?bind_lift_raise; try discriminate;
    [|intros _ url []].
  match goal with
  | |- context [get_dns_records api ?id] =>
      destruct (get_dns_records_spec api id) as (t1 & Hget & _ & Hu1);
      destruct (fetch_result api (dns_records_url id)) as [records|e] eqn:Hf
  end.
  - match goal with
    | |- context [display_dns_table ?a ?z] =>
        destruct (display_dns_table_cases a z records)
          as [(items & table_rows & _ & _ & Hd) | (e & Hd)]
    end; run_bind Hget Hd; [|discriminate].
    intros _ url Hin. cbn [fst] in Hin. apply in_app_or in Hin as [Hin|Hin].
    + rewrite (Hu1 _ Hin). eauto.
    + destruct Hin as [Hin|[Hin|[]]]; discriminate.
  - stop_bind Hget. discriminate.
Qed.

Lemma account_body_answers (api : Api) (env_accounts env_zones : option (list string))
    (args : Args) (account : value) :
  answers api (account_body api env_accounts env_zones args account).
Proof.
  rewrite account_body_included.
  destruct account as [| | | | |d]; try discriminate.
  cbn [Py.get]. rewrite !bind_lift_ok.
  destruct (included env_accounts (args_account args) _) as [[|]|e];
    rewrite ?bind_lift_ok, ?bind_lift_raise; try discriminate;
    [|intros _ url []].
  match goal with
  | |- context [get_zones api ?id] =>
      destruct (get_zones_spec api id) as (t1 & Hget & _ & Hu1);
      destruct (fetch_result api (zones_url id)) as [zones|e] eqn:Hf
  end.
  - match goal with
    | |- context [for_each _ ?body] =>
        pose proof (fun l => for_each_answers api body l
                               (zone_body_answers api env_zones args _)) as Hloop;
        destruct (Py.iter zones) as [zone_items|e] eqn:Hi;
        [ specialize (Hloop zone_items);
          destruct (for_each zone_items body) as [t2 r2] eqn:Hl;
          assert (Hb : (zone_items0 <- lift (Py.iter zones) ;;
                        for_each zone_items0 body) = (t2, r2))
            by (now rewrite Hi, bind_lift_ok)
        | assert (Hb : (zone_items <- lift (Py.iter zones) ;;
                        for_each zone_items body) = ([], Raise e))
            by (now rewrite Hi) ]
    end; run_bind Hget Hb; [|discriminate].
    unfold answers in *. cbn [fst snd] in *.
    intros Hr url Hin. apply in_app_or in Hin as [Hin|Hin].
    + rewrite (Hu1 _ Hin). eauto.
    + now apply Hloop.
  - stop_bind Hget. discriminate.
Qed.

Lemma main_answers (args : Args) (environ : string -> option string) (api : Api) :
  answers api (main args environ api).
Proof.
  unfold main.
  set (body := account_body api (env_filter (environ "ACCOUNTS"))
                 (env_filter (environ "ZONES")) args).
  destruct (get_accounts_spec api) as (t1 & Hget & _ & Hu1).
  destruct (fetch_result api accounts_url) as [accounts|e] eqn:Hf;
    [|stop_bind Hget; discriminate].
  pose proof (fun l => for_each_answers api body l
                         (account_body_answers api _ _ args)) as Hloop.
  match goal with
  | |- context [bind _ ?k] => destruct (k accounts) as [t2 r2] eqn:Hk
  end.
  run_bind Hget Hk. unfold answers. cbn [fst snd].
  intros Hr url Hin. apply in_app_or in Hin as [Hin|Hin].
  - rewrite (Hu1 _ Hin). eauto.
  - subst r2. destruct (Py.truthy accounts); cbn [negb] in Hk.
    + destruct (Py.iter accounts) as [account_items|e] eqn:Hi.
      * rewrite bind_lift_ok in Hk. specialize (Hloop account_items).
        unfold answers in Hloop. rewrite Hk in Hloop. now apply Hloop.
      * discriminate Hk.
    + injection Hk as <-. destruct Hin as [Hin|[]]. discriminate.
Qed.

(** X11.  A request that cannot be answered ends the run in the top-level
    handler.  If the HTTP client raised on a request the run made, or a
    200 response to it had a body that is not JSON or not a JSON object,
    then [main] raised, and the handler of the script took over after the
    events of the run. *)
Theorem unanswered_request_reaches_handler :
  forall (args : Args) (environ : string -> option string) (api : Api)
         (url : string) (e : exn),
    In (HttpGet url) (fst (main args environ api)) ->
    (api url = Raise e
     \/ exists r, api url = Ok r /\ status_code r = 200%Z
                  /\ (json r = Raise e
                      \/ exists body, json r = Ok body /\ forall d, body <> VDict d)) ->
    reaches_handler args environ api.
Proof.
  intros args environ api url e Hin Hbad.
  assert (Hf : exists e0, fetch_result api url = Raise e0).
  { unfold fetch_result.
    destruct Hbad as [->|(r & -> & -> & [->|(body & -> & Hb)])]; cbn; eauto.
    destruct body; cbn; eauto. now destruct (Hb entries). }
  destruct (script_cases args environ api) as [[Hok _]|H]; [|exact H].
  exfalso. destruct Hf as [e0 Hf].
  destruct (main_answers args environ api Hok url Hin) as [v Hv]. congruence.
Qed.

(** [unanswered_request_reaches_handler] on an API whose transport fails. *)
Lemma unanswered_request_reaches_handler_witness :
  reaches_handler Sample.no_args Sample.no_environ (fun _ => Raise RequestException).
Proof.
  apply (unanswered_request_reaches_handler Sample.no_args Sample.no_environ
           (fun _ => Raise RequestException) accounts_url RequestException).
  - left. reflexivity.
  - left. reflexivity.
Defined.

Lemma expected_walk_unfiltered (environ : string -> option string) (api : Api) :
  env_filter (environ "ACCOUNTS") = None ->
  env_filter (environ "ZONES") = None ->
  expected_walk (mkArgs None None) environ api = full_walk api.
Proof.
  intros Ha Hz. unfold expected_walk, full_walk. rewrite Ha, Hz. reflexivity.
Qed.

(** X12.  With no filter at all (both environment variables unset or
    empty, neither option given) nothing is skipped: a run that returns
    requested the zones of every account the API lists and the records of
    every zone, and printed a table for every zone, in the order listed;
    a run cut short by an error did a prefix of that. *)
Theorem unfiltered_run_walks_everything :
  forall (environ : string -> option string) (api : Api),
    env_filter (environ "ACCOUNTS") = None ->
    env_filter (environ "ZONES") = None ->
    (snd (main (mkArgs None None) environ api) = Ok tt ->
     walk (fst (main (mkArgs None None) environ api)) = full_walk api)
    /\ Prefix (walk (fst (main (mkArgs None None) environ api))) (full_walk api).
Proof.
  intros environ api Ha Hz.
  rewrite <- (expected_walk_unfiltered environ api Ha Hz).
  destruct (main_keeps (mkArgs None None) environ api) as [Hp Hok].
  split; [intros H; now apply Hok | exact Hp].
Qed.

(** [unfiltered_run_walks_everything] on a run over one account and two zones. *)
Lemma unfiltered_run_walks_everything_witness :
  walk (fst (main (mkArgs None None) Sample.no_environ (Run.api_with [Run.www])))
  = full_walk (Run.api_with [Run.www]).
Proof.
  apply (unfiltered_run_walks_everything Sample.no_environ (Run.api_with [Run.www]));
    reflexivity.
Defined.

(* ================================================================== *)
(** ** What a run never does, and odd inputs *)
(* ================================================================== *)

Lemma Prefix_In {A} (a b : list A) (x : A) : Prefix a b -> In x a -> In x b.
Proof. intros [c ->] H. apply in_or_app. now left. Qed.

Lemma zone_walk_in_full (env_zones : option (list string)) (args : Args)
    (account_name zone : value) (st : step) :
  In st (zone_walk env_zones args account_name zone) ->
  In st [Fetch (dns_records_url (field zone "id"));
         Render (table_title account_name (field zone "name"))].
Proof.
  unfold zone_walk. now destruct (survives env_zones (args_zone args) _).
Qed.

Lemma expected_in_full (args : Args) (environ : string -> option string) (api : Api)
    (st : step) :
  In st (expected_walk args environ api) -> In st (full_walk api).
Proof.
  unfold expected_walk, full_walk. intros [H|H]; [now left | right].
  apply in_flat_map in H as (a & Ha & H). apply in_flat_map. exists a.
  split; [exact Ha|]. unfold account_walk in H.
  destruct (survives _ (args_account args) _); [|destruct H].
  destruct H as [H|H]; [now left | right].
  apply in_flat_map in H as (z & Hz & H). apply in_flat_map. exists z.
  split; [exact Hz|]. now apply zone_walk_in_full in H.
Qed.

(** X13.  Whatever the filters and however the run ends, it requests
    nothing and prints no table beyond the unfiltered walk: every request
    is for the accounts, for the zones of an account the API listed, or
    for the records of a zone it listed for such an account, and every
    table is that of such a zone. *)
Theorem run_stays_within_listing :
  forall (args : Args) (environ : string -> option string) (api : Api) (st : step),
    In st (walk (fst (main args environ api))) -> In st (full_walk api).
Proof.
  intros args environ api st H.
  destruct (main_keeps args environ api) as [Hp _].
  apply expected_in_full with args environ. now apply Prefix_In with (1 := Hp).
Qed.

(** [run_stays_within_listing] on the request for the zones of the one account. *)
Lemma run_stays_within_listing_witness :
  In (Fetch (zones_url (VStr "a1"))) (full_walk (Run.api_with [Run.stale])).
Proof.
  apply (run_stays_within_listing Sample.no_args Sample.no_environ
           (Run.api_with [Run.stale])).
  right. left. reflexivity.
Defined.

Lemma length_replace_from (skip : nat) (old s : string) :
  String.length (PyStr.replace_from skip old "" s) <= String.length s.
Proof.
  revert skip; induction s as [|c s IH]; intros skip.
  - destruct skip, old; cbn; lia.
  - cbn [PyStr.replace_from String.length]. destruct skip as [|k].
    + destruct (PyStr.startswith old (String c s)).
      * destruct old as [|o old']; cbn [append String.length].
        -- specialize (IH 0). lia.
        -- specialize (IH (String.length old')). lia.
      * cbn [String.length]. specialize (IH 0). lia.
    + specialize (IH k). lia.
Qed.

(** X14.  On two strings [simplify_name] never raises and returns a
    string that is no longer than the name; it is the name itself when
    the name is the zone name or does not end with a dot and the zone
    name. *)
Theorem simplify_name_on_strings :
  forall name zone_name : string,
    exists out,
      simplify_name (VStr name) (VStr zone_name) = Ok (VStr out)
      /\ String.length out <= String.length name
      /\ (name = zone_name \/ ~ EndsWith ("." ++ zone_name) name -> out = name).
Proof.
  intros n z. unfold simplify_name. cbn [Py.eq Py.str].
  destruct (String.eqb_spec n z) as [Heq|Hne].
  - exists n. repeat split; auto.
  - destruct (PyStr.endswith ("." ++ z) n) eqn:He.
    + exists (PyStr.replace ("." ++ z) "" n). split; [reflexivity|]. split.
      * apply length_replace_from.
      * intros [H|H]; [congruence|]. exfalso. apply H. now apply endswith_spec.
    + exists n. repeat split; auto.
Qed.

(** X15.  An item whose name is not a string (a missing name is [None])
    is processed when no filter is active, and raises [AttributeError] as
    soon as one is: with a filter from the environment, or with a
    non-empty command-line filter. *)
Theorem included_without_a_name :
  forall (getenv cli : option string) (name : value),
    (forall s, name <> VStr s) ->
    included (env_filter getenv) cli name
    = match env_filter getenv, cli with
      | Some _, _ => Raise AttributeError
      | None, Some f => if PyStr.nonempty f then Raise AttributeError else Ok true
      | None, None => Ok true
      end.
Proof.
  intros getenv cli name Hn.
  assert (Hnot : match name with VStr _ => False | _ => True end)
    by (destruct name; try exact I; now destruct (Hn s)).
  unfold included.
  destruct (env_filter getenv) as [entries|] eqn:He.
  - apply env_filter_nonempty in He. destruct entries as [|e es]; [congruence|].
    destruct name; try reflexivity. destruct Hnot.
  - cbn [env_rejects and_then]. destruct cli as [f|]; [|reflexivity].
    cbn [cli_rejects]. destruct (PyStr.nonempty f); [|reflexivity].
    destruct name; try reflexivity. destruct Hnot.
Qed.

(** [included_without_a_name] on an account without a name, with and
    without a filter. *)
Lemma included_without_a_name_witness :
  included (env_filter (Some "prod")) None VNone = Raise AttributeError.
Proof.
  apply (included_without_a_name (Some "prod") None VNone). discriminate.
Defined.

(** X16.  What [main] does with what the account fetch returns.  On any
    falsy value (an empty list, but also [null], an empty object or text,
    zero or [false]) it prints the notice and returns without another
    event.  On a truthy value that cannot be iterated (a number, [true])
    it raises [TypeError] without another event. *)
Theorem main_on_account_result :
  forall (args : Args) (environ : string -> option string) (api : Api)
         (t : trace) (accounts : value),
    get_accounts api = (t, Ok accounts) ->
    (Py.truthy accounts = false ->
     main args environ api = (t ++ [Print no_accounts_notice], Ok tt))
    /\ (Py.truthy accounts = true -> (forall items, Py.iter accounts <> Ok items) ->
        main args environ api = (t, Raise TypeError)).
Proof.
  intros args environ api t accounts Hget. unfold main. rewrite Hget. split.
  - intros Hf. unfold bind. now rewrite Hf.
  - intros Ht Hi. unfold bind. rewrite Ht. cbn [negb].
    destruct accounts; cbn [Py.iter lift];
      try (now rewrite app_nil_r);
      exfalso; eapply Hi; reflexivity.
Qed.

(** [main_on_account_result] on a 200 response whose [result] is [null]. *)
Lemma main_on_account_result_witness :
  main Sample.no_args Sample.no_environ
    (fun _ => Ok (mkResponse 200 "(body)" (Ok (VDict [("result", VNone)]))))
  = ([HttpGet accounts_url; Print no_accounts_notice], Ok tt).
Proof.
  apply (proj1 (main_on_account_result Sample.no_args Sample.no_environ
                  (fun _ => Ok (mkResponse 200 "(body)" (Ok (VDict [("result", VNone)]))))
                  [HttpGet accounts_url] VNone eq_refl)).
  reflexivity.
Defined.

(* ================================================================== *)
(** ** Properties of every trace *)
(* ================================================================== *)

(** A property of traces that holds of the empty trace, of the traces of
    the fetch operations and of the prints, and that concatenation keeps,
    holds of the trace of every run, however it ends. *)
Section TraceInvariant.

Variable P : trace -> Prop.
Variable api : Api.

Hypothesis P_nil : P [].
Hypothesis P_app : forall a b, P a -> P b -> P (a ++ b).
Hypothesis P_accounts : P (fst (get_accounts api)).
Hypothesis P_zones : forall account_id, P (fst (get_zones api account_id)).
Hypothesis P_records : forall zone_id, P (fst (get_dns_records api zone_id)).
Hypothesis P_print : forall markup, P [Print markup].
Hypothesis P_table : forall t, P [PrintTable t].

Lemma bind_inv {A B} (c : M A) (k : A -> M B) :
  P (fst c) -> (forall a, P (fst (k a))) -> P (fst (bind c k)).
Proof.
  intros Hc Hk. unfold bind. destruct c as [t [a|e]]; cbn [fst] in *.
  - specialize (Hk a). destruct (k a) as [t' r]. cbn [fst] in *. now apply P_app.
  - exact Hc.
Qed.

Lemma lift_inv {A} (r : result A) : P (fst (lift r)).
Proof. exact P_nil. Qed.

Lemma for_each_inv {A} (body : A -> M unit) (l : list A) :
  (forall x, P (fst (body x))) -> P (fst (for_each l body)).
Proof.
  intros Hbody. induction l as [|x l IH]; [exact P_nil|].
  cbn [for_each]. apply bind_inv; [apply Hbody | intros _; exact IH].
Qed.

Lemma display_dns_table_inv (account_name zone_name records : value) :
  P (fst (display_dns_table account_name zone_name records)).
Proof.
  unfold display_dns_table.
  apply bind_inv; [apply lift_inv | intros items].
  apply bind_inv; [apply lift_inv | intros table_rows].
  apply bind_inv; [apply P_table | intros _; apply P_print].
Qed.

Lemma zone_body_inv (env_zones : option (list string)) (args : Args)
    (account_name zone : value) :
  P (fst (zone_body api env_zones args account_name zone)).
Proof.
  unfold zone_body.
  apply bind_inv; [apply lift_inv | intros zone_name].
  apply bind_inv; [apply lift_inv | intros zone_id].
  apply bind_inv; [apply lift_inv | intros [|]]; [exact P_nil|].
  apply bind_inv; [apply lift_inv | intros [|]]; [exact P_nil|].
  apply bind_inv; [apply P_records | intros records].
  apply display_dns_table_inv.
Qed.

Lemma account_body_inv (env_accounts env_zones : option (list string)) (args : Args)
    (account : value) :
  P (fst (account_body api env_accounts env_zones args account)).
Proof.
  unfold account_body.
  apply bind_inv; [apply lift_inv | intros account_name].
  apply bind_inv; [apply lift_inv | intros account_id].
  apply bind_inv; [apply lift_inv | intros [|]]; [exact P_nil|].
  apply bind_inv; [apply lift_inv | intros [|]]; [exact P_nil|].
  apply bind_inv; [apply P_zones | intros zones].
  apply bind_inv; [apply lift_inv | intros zone_items].
  apply for_each_inv. intros zone. apply zone_body_inv.
Qed.

Lemma main_inv (args : Args) (environ : string -> option string) :
  P (fst (main args environ api)).
Proof.
  unfold main.
  apply bind_inv; [apply P_accounts | intros accounts].
  destruct (negb (Py.truthy accounts)); [apply P_print|].
  apply bind_inv; [apply lift_inv | intros account_items].
  apply for_each_inv. intros account. apply account_body_inv.
Qed.

End TraceInvariant.

Lemma logs_match_failures_nil (api : Api) : logs_match_failures api [].
Proof. split; [intros ? [] | intros ? ? []]. Qed.

Lemma logs_match_failures_app (api : Api) (a b : trace) :
  logs_match_failures api a -> logs_match_failures api b ->
  logs_match_failures api (a ++ b).
Proof.
  intros [Ha1 Ha2] [Hb1 Hb2]. split.
  - intros message Hin. apply in_app_or in Hin as [Hin|Hin];
      [destruct (Ha1 _ Hin) as (url & r & H & Hrest)
      |destruct (Hb1 _ Hin) as (url & r & H & Hrest)];
      exists url, r; (split; [apply in_or_app; auto | exact Hrest]).
  - intros url r Hin Hr Hs. apply in_app_or in Hin as [Hin|Hin];
      [destruct (Ha2 _ _ Hin Hr Hs) as (message & H & Hrest)
      |destruct (Hb2 _ _ Hin Hr Hs) as (message & H & Hrest)];
      exists message; (split; [apply in_or_app; auto | exact Hrest]).
Qed.

Lemma logs_match_failures_silent (api : Api) (e : event) :
  (forall url, e <> HttpGet url) -> (forall message, e <> LogError message) ->
  logs_match_failures api [e].
Proof.
  intros H1 H2. split.
  - intros message [H|[]]. now apply H2 in H.
  - intros url r [H|[]]. now apply H1 in H.
Qed.

(** The trace of a fetch: the request, then the log record if the
    response has a status other than 200. *)
Lemma fetch_trace (api : Api) (url : string) (message : Response -> string) :
  fst (response <- requests_get api url ;;
       if (status_code response =? 200)%Z then json_result response
       else logger_error (message response) ;; ret (VList []))
  = HttpGet url
    :: match api url with
       | Ok r => if (status_code r =? 200)%Z then [] else [LogError (message r)]
       | Raise _ => []
       end.
Proof.
  unfold requests_get, json_result, logger_error, bind, emit, lift, ret.
  destruct (api url) as [r|e]; [|reflexivity].
  destruct (status_code r =? 200)%Z; [|reflexivity].
  destruct (json r) as [body|e]; [|reflexivity].
  destruct (Py.get body "result" (VList [])); reflexivity.
Qed.

Lemma logs_match_failures_fetch (api : Api) (url : string)
    (message : Response -> string) :
  (forall r, EndsWith (text r) (message r)) ->
  logs_match_failures api
    (fst (response <- requests_get api url ;;
          if (status_code response =? 200)%Z then json_result response
          else logger_error (message response) ;; ret (VList []))).
Proof.
  intros Hmsg. rewrite fetch_trace.
  destruct (api url) as [r|e] eqn:Hr.
  - destruct (status_code r =? 200)%Z eqn:Hs.
    + apply Z.eqb_eq in Hs. split.
      * intros m [H|[]]. discriminate.
      * intros url' r' [[= <-]|[]] Hr'. congruence.
    + apply Z.eqb_neq in Hs. split.
      * intros m [H|[[= <-]|[]]]; [discriminate|].
        exists url, r. split; [now left|]. split; [exact Hr|]. split; [exact Hs|].
        apply Hmsg.
      * intros url' r' [[= <-]|[H|[]]] Hr'; [|discriminate]. intros _.
        assert (r' = r) by congruence. subst r'.
        exists (message r). split; [right; now left | apply Hmsg].
  - split.
    + intros m [H|[]]. discriminate.
    + intros url' r' [[= <-]|[]] Hr'. congruence.
Qed.

(** X17.  In every run, however it ends, the error log records are
    exactly those of the failed requests: every record ends with the body
    of a response with a status other than 200 to a request the run made,
    and every request the run made that was answered with such a status
    has its record. *)
Theorem run_logs_match_failures :
  forall (args : Args) (environ : string -> option string) (api : Api),
    logs_match_failures api (fst (main args environ api)).
Proof.
  intros args environ api.
  apply (main_inv (logs_match_failures api) api).
  - apply logs_match_failures_nil.
  - apply logs_match_failures_app.
  - apply (logs_match_failures_fetch api accounts_url
             (fun r => "Failed to fetch accounts: " ++ text r)%string).
    intros r. now exists "Failed to fetch accounts: ".
  - intros account_id.
    apply (logs_match_failures_fetch api (zones_url account_id)
             (fun r => "Failed to fetch zones for account " ++ Py.str account_id
                       ++ ": " ++ text r)%string).
    intros r. exists ("Failed to fetch zones for account " ++ Py.str account_id ++ ": ")%string.
    now rewrite !append_assoc.
  - intros zone_id.
    apply (logs_match_failures_fetch api (dns_records_url zone_id)
             (fun r => "Failed to fetch DNS records for zone " ++ Py.str zone_id
                       ++ ": " ++ text r)%string).
    intros r. exists ("Failed to fetch DNS records for zone " ++ Py.str zone_id ++ ": ")%string.
    now rewrite !append_assoc.
  - intros markup. apply logs_match_failures_silent; discriminate.
  - intros t. apply logs_match_failures_silent; discriminate.
Qed.

Lemma requests_at_endpoint_fetch (api : Api) (rest : string)
    (message : Response -> string) :
  requests_at_endpoint
    (fst (response <- requests_get api (API_ENDPOINT ++ rest) ;;
          if (status_code response =? 200)%Z then json_result response
          else logger_error (message response) ;; ret (VList []))).
Proof.
  rewrite fetch_trace. intros url [[= <-]|Hin].
  - apply startswith_spec. now exists rest.
  - destruct (api (API_ENDPOINT ++ rest)%string) as [r|e]; [|destruct Hin].
    destruct (status_code r =? 200)%Z; [destruct Hin|].
    destruct Hin as [Hin|[]]. discriminate.
Qed.

(** X18.  In every run, however it ends and whatever identifiers the API
    returns, every request goes to a URL that begins with the API
    endpoint. *)
Theorem run_requests_at_endpoint :
  forall (args : Args) (environ : string -> option string) (api : Api) (url : string),
    In (HttpGet url) (fst (main args environ api)) ->
    PyStr.startswith API_ENDPOINT url = true.
Proof.
  intros args environ api.
  apply (main_inv requests_at_endpoint api).
  - intros url [].
  - intros a b Ha Hb url Hin. apply in_app_or in Hin as [Hin|Hin]; auto.
  - apply (requests_at_endpoint_fetch api "/accounts").
  - intros account_id. unfold get_zones, zones_url.
    apply (requests_at_endpoint_fetch api
             ("/zones?account.id=" ++ Py.str account_id ++ "&per_page=100")%string).
  - intros zone_id. unfold get_dns_records, dns_records_url.
    apply (requests_at_endpoint_fetch api
             ("/zones/" ++ Py.str zone_id ++ "/dns_records?per_page=100")%string).
  - intros markup url [H|[]]. discriminate.
  - intros t url [H|[]]. discriminate.
Qed.

(** [run_requests_at_endpoint] on the request for the records of a zone. *)
Lemma run_requests_at_endpoint_witness :
  PyStr.startswith API_ENDPOINT (dns_records_url (VStr "z1")) = true.
Proof.
  apply (run_requests_at_endpoint Sample.no_args Sample.no_environ
           (Run.api_with [Run.www])).
  right. right. left. reflexivity.
Defined.
